(** * logging_gke: structured JSON logging for Google Cloud

    A shallow embedding of [logging_gke/__init__.py] (the enrichment filter
    [CloudLoggingFilter] and the handler [StructuredLogHandler]) together with
    the few pieces of the Python runtime they call: truthiness, [str],
    dictionary unpacking, [json.dumps] and the relevant methods of the
    standard [logging] package.

    Methods that receive the log record are computations on that record
    which may assign attributes and raise.  The values inferred from the
    environment, which the source binds to [None], are parameters of the
    body of [filter], so that what the code does with an inferred value can
    be stated next to what it does with the caller's.  Floating point
    numbers and objects that [json.dumps] refuses are not among the
    modelled values; [Json.loads] reads the JSON grammar back and serves to
    say that a line is, or is not, JSON. *)

From Stdlib Require Import ZArith DecimalString DecimalZ DecimalPos DecimalFacts Ascii String.
From stdpp Require Import gmap strings list fin_maps.

Local Open Scope string_scope.

(** ** Python values *)

(** The objects that flow through the module, as far as they are
    modelled: [None], booleans, integers, strings, lists (tuples are read
    as lists) and dictionaries with string keys.  A dictionary is the sequence of its items in insertion order,
    which is the order [json.dumps] and [repr] print them in.  A character of
    a string is a code point below 256. *)
#[local] Unset Elimination Schemes.
Inductive pyval : Type :=
| PNone
| PBool (b : bool)
| PInt (z : Z)
| PStr (s : string)
| PList (l : list pyval)
| PDict (d : list (string * pyval)).
#[local] Set Elimination Schemes.

Module Py.

(** Truth value testing: [None], [False], zero and empty containers are
    false. *)
Definition truthy (v : pyval) : bool :=
  match v with
  | PNone => false
  | PBool b => b
  | PInt z => negb (z =? 0)%Z
  | PStr s => negb (String.eqb s "")
  | PList l => match l with [] => false | _ => true end
  | PDict d => match d with [] => false | _ => true end
  end.

(** [a or b] *)
Definition or_ (a b : pyval) : pyval := if truthy a then a else b.

(** [v is not None] *)
Definition is_not_none (v : pyval) : bool :=
  match v with PNone => false | _ => true end.

(** *** Dictionaries *)

(** [d[k]], as an option. *)
Fixpoint dict_get (k : string) (d : list (string * pyval)) : option pyval :=
  match d with
  | [] => None
  | (k', v) :: d' => if String.eqb k' k then Some v else dict_get k d'
  end.

(** [d[k] = v]: an existing key keeps its position, a new one goes last. *)
Fixpoint dict_set (k : string) (v : pyval) (d : list (string * pyval))
  : list (string * pyval) :=
  match d with
  | [] => [(k, v)]
  | (k', v') :: d' =>
      if String.eqb k' k then (k', v) :: d' else (k', v') :: dict_set k v d'
  end.

(** [d.update(u)] *)
Definition dict_update (d u : list (string * pyval)) : list (string * pyval) :=
  fold_left (fun acc kv => dict_set kv.1 kv.2 acc) u d.

(** The dictionary display [{**a, **b}]: a fresh dictionary updated with
    [a], then with [b]. *)
Definition dict_unpack (a b : list (string * pyval)) : list (string * pyval) :=
  dict_update (dict_update [] a) b.

(** The comprehension [{k: v for (k, v) in d.items() if keep k v}]. *)
Definition dict_comp (keep : string -> pyval -> bool) (d : list (string * pyval))
  : list (string * pyval) :=
  fold_left (fun acc kv => if keep kv.1 kv.2 then dict_set kv.1 kv.2 acc else acc)
            d [].

(** *** Characters and digits *)

Definition dquote : ascii := ascii_of_N 34.
Definition squote : ascii := ascii_of_N 39.
Definition backslash : ascii := ascii_of_N 92.

Definition code (c : ascii) : N := N_of_ascii c.

Definition hex_digit (n : N) : ascii :=
  match String.get (N.to_nat n) "0123456789abcdef" with
  | Some c => c
  | None => "0"%char
  end.

(** The two lower-case hexadecimal digits of a code point below 256. *)
Definition hex2 (c : ascii) : string :=
  String (hex_digit (code c / 16)) (String (hex_digit (code c mod 16)) "").

(** [str(z)] for an integer. *)
Definition str_int (z : Z) : string := NilZero.string_of_int (Z.to_int z).

(** [sep.join(l)] *)
Fixpoint join (sep : string) (l : list string) : string :=
  match l with
  | [] => ""
  | [x] => x
  | x :: l' => x +:+ sep +:+ join sep l'
  end.

Fixpoint string_mem (c : ascii) (s : string) : bool :=
  match s with
  | EmptyString => false
  | String c' s' => Ascii.eqb c' c || string_mem c s'
  end.

(** [s.replace(c, by)] for a one-character pattern. *)
Fixpoint replace_char (c : ascii) (by_ : string) (s : string) : string :=
  match s with
  | EmptyString => ""
  | String c' s' =>
      (if Ascii.eqb c' c then by_ else String c' "") +:+ replace_char c by_ s'
  end.

(** *** [repr] and [str] *)

(** [str.isprintable] on one code point below 256: controls, the
    no-break space and the soft hyphen are not printable. *)
Definition printable (c : ascii) : bool :=
  let n := code c in
  ((32 <=? n) && (n <? 127) || (161 <=? n) && negb (n =? 173))%N.

(** One character of [repr(s)] when the surrounding quote is [q]. *)
Definition repr_char (q c : ascii) : string :=
  if Ascii.eqb c q || Ascii.eqb c backslash then String backslash (String c "")
  else if (code c =? 9)%N then String backslash "t"
  else if (code c =? 10)%N then String backslash "n"
  else if (code c =? 13)%N then String backslash "r"
  else if printable c then String c ""
  else String backslash (String "x" (hex2 c)).

Fixpoint repr_chars (q : ascii) (s : string) : string :=
  match s with
  | EmptyString => ""
  | String c s' => repr_char q c +:+ repr_chars q s'
  end.

(** [repr(s)] for a string: single quotes, unless the string has a single
    quote and no double quote. *)
Definition repr_str (s : string) : string :=
  let q := if string_mem squote s && negb (string_mem dquote s)
           then dquote else squote in
  String q (repr_chars q s +:+ String q "").

Fixpoint repr (v : pyval) : string :=
  match v with
  | PNone => "None"
  | PBool true => "True"
  | PBool false => "False"
  | PInt z => str_int z
  | PStr s => repr_str s
  | PList l => "[" +:+ join ", " (map repr l) +:+ "]"
  | PDict d =>
      "{" +:+ join ", " (map (fun kv => repr_str kv.1 +:+ ": " +:+ repr kv.2) d)
          +:+ "}"
  end.

(** [str(v)]: a string is itself, anything else is its [repr]. *)
Definition str (v : pyval) : string :=
  match v with
  | PStr s => s
  | _ => repr v
  end.

End Py.

(** ** [json.dumps] *)

Module Json.
Import Py.

(** One character of an encoded string, with [ensure_ascii] on (the
    default): the quote, the backslash and the five short escapes, and a
    four-digit hexadecimal escape for everything outside space .. tilde. *)
Definition escape_char (c : ascii) : string :=
  if Ascii.eqb c dquote then String backslash (String dquote "")
  else if Ascii.eqb c backslash then String backslash (String backslash "")
  else if (code c =? 10)%N then String backslash "n"
  else if (code c =? 13)%N then String backslash "r"
  else if (code c =? 9)%N then String backslash "t"
  else if (code c =? 12)%N then String backslash "f"
  else if (code c =? 8)%N then String backslash "b"
  else if ((32 <=? code c) && (code c <=? 126))%N then String c ""
  else String backslash ("u00" +:+ hex2 c).

Fixpoint escape (s : string) : string :=
  match s with
  | EmptyString => ""
  | String c s' => escape_char c +:+ escape s'
  end.

(** A string, quoted and escaped. *)
Definition dumps_str (s : string) : string :=
  String dquote (escape s +:+ String dquote "").

(** [json.dumps(v)] with the default separators, a comma and a colon each
    followed by one space.  On the modelled values [json.dumps] always
    returns; the values on which it raises [TypeError] or [ValueError]
    (sets, objects of other classes, dictionaries with other keys) and
    the floating point numbers are not modelled, so that what is proved
    about [filter] and the line holds for records that carry none. *)
Fixpoint dumps (v : pyval) : string :=
  match v with
  | PNone => "null"
  | PBool true => "true"
  | PBool false => "false"
  | PInt z => str_int z
  | PStr s => dumps_str s
  | PList l =>
      "[" +:+
      match l with
      | [] => ""
      | x :: l' =>
          dumps x +:+
          (fix more (l : list pyval) : string :=
             match l with
             | [] => ""
             | y :: l'' => ", " +:+ dumps y +:+ more l''
             end) l'
      end +:+ "]"
  | PDict d =>
      "{" +:+
      match d with
      | [] => ""
      | (k, x) :: d' =>
          dumps_str k +:+ ": " +:+ dumps x +:+
          (fix more (d : list (string * pyval)) : string :=
             match d with
             | [] => ""
             | (k', y) :: d'' =>
                 ", " +:+ dumps_str k' +:+ ": " +:+ dumps y +:+ more d''
             end) d'
      end +:+ "}"
  end.

(** *** Reading JSON back

    [loads] is a reader for the JSON grammar of RFC 8259 over the modelled
    values: numbers are integers (a fraction or an exponent makes a float,
    which is not a modelled value, and is refused) and a [\u] escape has to
    denote a code point below 256. *)

Definition is_ws (c : ascii) : bool :=
  ((code c =? 32) || (code c =? 9) || (code c =? 10) || (code c =? 13))%N.

Fixpoint skip_ws (s : string) : string :=
  match s with
  | String c s' => if is_ws c then skip_ws s' else s
  | EmptyString => s
  end.

(** [s] without the prefix [p], if it starts with it. *)
Fixpoint strip (p s : string) : option string :=
  match p, s with
  | EmptyString, _ => Some s
  | String a p', String b s' => if Ascii.eqb a b then strip p' s' else None
  | String _ _, EmptyString => None
  end.

Definition digit_of (c : ascii) : option (Decimal.uint -> Decimal.uint) :=
  let n := code c in
  if (n =? 48)%N then Some Decimal.D0 else if (n =? 49)%N then Some Decimal.D1
  else if (n =? 50)%N then Some Decimal.D2 else if (n =? 51)%N then Some Decimal.D3
  else if (n =? 52)%N then Some Decimal.D4 else if (n =? 53)%N then Some Decimal.D5
  else if (n =? 54)%N then Some Decimal.D6 else if (n =? 55)%N then Some Decimal.D7
  else if (n =? 56)%N then Some Decimal.D8 else if (n =? 57)%N then Some Decimal.D9
  else None.

Fixpoint read_digits (s : string) : Decimal.uint * string :=
  match s with
  | String c s' =>
      match digit_of c with
      | Some digit => let (d, rest) := read_digits s' in (digit d, rest)
      | None => (Decimal.Nil, s)
      end
  | EmptyString => (Decimal.Nil, s)
  end.

(** The minus sign of a number, if it has one, and what follows it. *)
Definition split_sign (s : string) : bool * string :=
  match s with
  | String c s' => if (code c =? 45)%N then (true, s') else (false, s)
  | EmptyString => (false, s)
  end.

(** The integer with the sign [neg] and the digits [d], [rest] being what
    follows the digits: there has to be a digit, no zero before another
    digit, and no fraction or exponent after. *)
Definition number_of (neg : bool) (d : Decimal.uint) (rest : string)
  : option (pyval * string) :=
  let float_follows := match rest with
                       | String c _ =>
                           ((code c =? 46) || (code c =? 101) || (code c =? 69))%N
                       | EmptyString => false
                       end in
  let leading_zero := match d with
                      | Decimal.D0 Decimal.Nil => false
                      | Decimal.D0 _ => true
                      | _ => false
                      end in
  match d with
  | Decimal.Nil => None
  | _ =>
      if float_follows || leading_zero then None
      else Some (PInt (if neg then - Z.of_uint d else Z.of_uint d)%Z, rest)
  end.

(** An integer: an optional minus sign, then a zero or digits that do not
    start with a zero; not followed by a fraction or an exponent. *)
Definition parse_number (s : string) : option (pyval * string) :=
  let (neg, s1) := split_sign s in
  let (d, rest) := read_digits s1 in
  number_of neg d rest.

Definition hex_value (c : ascii) : option N :=
  let n := code c in
  if ((48 <=? n) && (n <=? 57))%N then Some (n - 48)%N
  else if ((97 <=? n) && (n <=? 102))%N then Some (n - 87)%N
  else if ((65 <=? n) && (n <=? 70))%N then Some (n - 55)%N
  else None.

(** The character a four-digit hexadecimal escape denotes, when it is
    below 256. *)
Definition unicode_escape (a b c d : ascii) : option ascii :=
  match hex_value a, hex_value b, hex_value c, hex_value d with
  | Some 0%N, Some 0%N, Some h, Some l => Some (ascii_of_N (16 * h + l))
  | _, _, _, _ => None
  end.

(** The rest of a string after its opening quote. *)
Fixpoint parse_chars (s : string) : option (string * string) :=
  match s with
  | EmptyString => None
  | String c s' =>
      if Ascii.eqb c dquote then Some ("", s')
      else if Ascii.eqb c backslash then
        match s' with
        | String e s'' =>
            let simple (x : ascii) :=
              match parse_chars s'' with
              | Some (t, rest) => Some (String x t, rest)
              | None => None
              end in
            if Ascii.eqb e dquote then simple dquote
            else if Ascii.eqb e backslash then simple backslash
            else if (code e =? 47)%N then simple e
            else if (code e =? 98)%N then simple (ascii_of_N 8)
            else if (code e =? 102)%N then simple (ascii_of_N 12)
            else if (code e =? 110)%N then simple (ascii_of_N 10)
            else if (code e =? 114)%N then simple (ascii_of_N 13)
            else if (code e =? 116)%N then simple (ascii_of_N 9)
            else if (code e =? 117)%N then
              match s'' with
              | String h1 (String h2 (String h3 (String h4 s5))) =>
                  match unicode_escape h1 h2 h3 h4, parse_chars s5 with
                  | Some x, Some (t, rest) => Some (String x t, rest)
                  | _, _ => None
                  end
              | _ => None
              end
            else None
        | EmptyString => None
        end
      else if (code c <? 32)%N then None
      else
        match parse_chars s' with
        | Some (t, rest) => Some (String c t, rest)
        | None => None
        end
  end.

(** A value, with the white space before it; [parse_elements] reads the
    rest of an array after its first bracket or a comma, [parse_members]
    the rest of an object. *)
Fixpoint parse_value (fuel : nat) (s : string) : option (pyval * string) :=
  match fuel with
  | O => None
  | S fuel' =>
      match skip_ws s with
      | EmptyString => None
      | String c s' as s0 =>
          if Ascii.eqb c dquote then
            match parse_chars s' with
            | Some (t, rest) => Some (PStr t, rest)
            | None => None
            end
          else if (code c =? 91)%N then
            match skip_ws s' with
            | String c' s'' =>
                if (code c' =? 93)%N then Some (PList [], s'')
                else match parse_elements fuel' s' with
                     | Some (l, rest) => Some (PList l, rest)
                     | None => None
                     end
            | EmptyString => None
            end
          else if (code c =? 123)%N then
            match skip_ws s' with
            | String c' s'' =>
                if (code c' =? 125)%N then Some (PDict [], s'')
                else match parse_members fuel' s' with
                     | Some (d, rest) => Some (PDict d, rest)
                     | None => None
                     end
            | EmptyString => None
            end
          else
            match strip "null" s0, strip "true" s0, strip "false" s0 with
            | Some rest, _, _ => Some (PNone, rest)
            | _, Some rest, _ => Some (PBool true, rest)
            | _, _, Some rest => Some (PBool false, rest)
            | None, None, None => parse_number s0
            end
      end
  end
with parse_elements (fuel : nat) (s : string) : option (list pyval * string) :=
  match fuel with
  | O => None
  | S fuel' =>
      match parse_value fuel' s with
      | Some (v, s1) =>
          match skip_ws s1 with
          | String c s2 =>
              if (code c =? 93)%N then Some ([v], s2)
              else if (code c =? 44)%N then
                match parse_elements fuel' s2 with
                | Some (l, rest) => Some (v :: l, rest)
                | None => None
                end
              else None
          | EmptyString => None
          end
      | None => None
      end
  end
with parse_members (fuel : nat) (s : string)
  : option (list (string * pyval) * string) :=
  match fuel with
  | O => None
  | S fuel' =>
      match skip_ws s with
      | String q s1 =>
          if Ascii.eqb q dquote then
            match parse_chars s1 with
            | Some (k, s2) =>
                match skip_ws s2 with
                | String c s3 =>
                    if (code c =? 58)%N then
                      match parse_value fuel' s3 with
                      | Some (v, s4) =>
                          match skip_ws s4 with
                          | String c' s5 =>
                              if (code c' =? 125)%N then Some ([(k, v)], s5)
                              else if (code c' =? 44)%N then
                                match parse_members fuel' s5 with
                                | Some (d, rest) => Some ((k, v) :: d, rest)
                                | None => None
                                end
                              else None
                          | EmptyString => None
                          end
                      | None => None
                      end
                    else None
                | EmptyString => None
                end
            | None => None
            end
          else None
      | EmptyString => None
      end
  end.

(** [json.loads(s)]: one value, and nothing but white space after it. *)
Definition loads (s : string) : option pyval :=
  match parse_value (S (String.length s)) s with
  | Some (v, rest) =>
      match skip_ws rest with
      | EmptyString => Some v
      | String _ _ => None
      end
  | None => None
  end.

(** The keys of a decoded object. *)
Definition keys (v : pyval) : option (list string) :=
  match v with
  | PDict d => Some (map fst d)
  | _ => None
  end.

End Json.

(** ** The standard [logging] package *)

Module Logging.
Import Py.

(** The exceptions the modelled code raises or tells apart. *)
Inductive exn : Type :=
| TypeError | AttributeError | KeyError | ValueError | RecursionError.

Inductive outcome (A : Type) : Type :=
| Return (a : A)
| Raise (e : exn).
Arguments Return {A} a.
Arguments Raise {A} e.

(** A [LogRecord]: the attributes its constructor always sets (those this
    module reads), and [extra], every other entry of the record's
    [__dict__]: what the caller passed as [extra=] and what filters and
    formatters attach later.  [Logger.makeRecord] refuses an [extra] key
    that names a constructor attribute, so the two never overlap. *)
Record LogRecord : Type := mkLogRecord {
  msg : pyval;
  args : pyval;
  levelname : pyval;
  pathname : pyval;
  lineno : pyval;
  funcName : pyval;
  exc_info : pyval;
  exc_text : pyval;
  stack_info : pyval;
  extra : gmap string pyval
}.

(** [record.__dict__.get(name)] *)
Definition attr (name : string) (r : LogRecord) : option pyval :=
  if String.eqb name "msg" then Some (msg r)
  else if String.eqb name "args" then Some (args r)
  else if String.eqb name "levelname" then Some (levelname r)
  else if String.eqb name "pathname" then Some (pathname r)
  else if String.eqb name "lineno" then Some (lineno r)
  else if String.eqb name "funcName" then Some (funcName r)
  else if String.eqb name "exc_info" then Some (exc_info r)
  else if String.eqb name "exc_text" then Some (exc_text r)
  else if String.eqb name "stack_info" then Some (stack_info r)
  else extra r !! name.

(** [record.__dict__[name] = v] *)
Definition set_attr (name : string) (v : pyval) (r : LogRecord) : LogRecord :=
  let 'mkLogRecord m a l p n f ei et si x := r in
  if String.eqb name "msg" then mkLogRecord v a l p n f ei et si x
  else if String.eqb name "args" then mkLogRecord m v l p n f ei et si x
  else if String.eqb name "levelname" then mkLogRecord m a v p n f ei et si x
  else if String.eqb name "pathname" then mkLogRecord m a l v n f ei et si x
  else if String.eqb name "lineno" then mkLogRecord m a l p v f ei et si x
  else if String.eqb name "funcName" then mkLogRecord m a l p n v ei et si x
  else if String.eqb name "exc_info" then mkLogRecord m a l p n f v et si x
  else if String.eqb name "exc_text" then mkLogRecord m a l p n f ei v si x
  else if String.eqb name "stack_info" then mkLogRecord m a l p n f ei et v x
  else mkLogRecord m a l p n f ei et si (<[name := v]> x).

(** *** Computations on one record

    A method that receives the record may read it, assign attributes on it
    and raise: a computation takes the record and gives back a value or an
    exception, with the record as the method left it. *)
Definition M (A : Type) : Type := LogRecord -> outcome A * LogRecord.

Definition ret {A} (a : A) : M A := fun r => (Return a, r).

Definition bind {A B} (m : M A) (k : A -> M B) : M B :=
  fun r =>
    match m r with
    | (Return a, r') => k a r'
    | (Raise e, r') => (Raise e, r')
    end.

Definition raise {A} (e : exn) : M A := fun r => (Raise e, r).

Definition lift {A} (o : outcome A) : M A := fun r => (o, r).

(** [try: m  except Exception as e: h e] *)
Definition try_except {A} (m : M A) (h : exn -> M A) : M A :=
  fun r =>
    match m r with
    | (Return a, r') => (Return a, r')
    | (Raise e, r') => h e r'
    end.

Declare Scope py_scope.
Delimit Scope py_scope with py.
Notation "x <- m ;; k" := (bind m (fun x => k))
  (at level 20, m at level 99, k at level 200) : py_scope.
Notation "m ;; k" := (bind m (fun _ => k))
  (at level 100, k at level 200, right associativity) : py_scope.
Local Open Scope py_scope.

(** [record.name] *)
Definition getattr (name : string) : M pyval :=
  fun r =>
    match attr name r with
    | Some v => (Return v, r)
    | None => (Raise AttributeError, r)
    end.

(** [getattr(record, name, default)] *)
Definition getattr_d (name : string) (default : pyval) : M pyval :=
  fun r => (Return (from_option id default (attr name r)), r).

(** [hasattr(record, name)] *)
Definition hasattr (name : string) : M bool :=
  fun r => (Return (bool_decide (is_Some (attr name r))), r).

(** [record.name = v] *)
Definition setattr (name : string) (v : pyval) : M unit :=
  fun r => (Return tt, set_attr name v r).

(** [for x in l: acc = body(acc, x)] *)
Fixpoint for_ {A B} (l : list A) (body : B -> A -> M B) (acc : B) : M B :=
  match l with
  | [] => ret acc
  | x :: l' => acc' <- body acc x ;; for_ l' body acc'
  end.

(** *** Formatters *)

(** A %-style format string whose only conversions are of the form
    [%(name)s]: literal text and named fields. *)
Inductive piece : Type :=
| Lit (s : string)
| Field (name : string).

(** [fmt % record.__dict__], the operator itself: each field is replaced
    by [str] of the attribute, a missing attribute is a [KeyError]. *)
Fixpoint percent_dict (fmt : list piece) : M string :=
  match fmt with
  | [] => ret ""
  | Lit s :: fmt' => t <- percent_dict fmt' ;; ret (s +:+ t)
  | Field name :: fmt' =>
      fun r =>
        match attr name r with
        | Some v => (t <- percent_dict fmt' ;; ret (str v +:+ t)) r
        | None => (Raise KeyError, r)
        end
  end.

(** [PercentStyle.format], which [Formatter.formatMessage] calls: the
    [KeyError] of a missing field is raised again as a [ValueError] (since
    Python 3.8; before, the [KeyError] went through). *)
Definition formatMessage (fmt : list piece) : M string :=
  try_except (percent_dict fmt)
    (fun e => match e with
              | KeyError => raise ValueError
              | _ => raise e
              end).

(** [Formatter.usesTime]: the format string has the field [asctime]. *)
Definition usesTime (fmt : list piece) : bool :=
  existsb (fun p => match p with
                    | Field name => String.eqb name "asctime"
                    | Lit _ => false
                    end) fmt.

(** What the interpreter, the traceback machinery and the stream do, which
    the module only calls: [fmt % args] for a message with arguments, the
    text of an exception, the text of the time a record was created (which
    is not among the modelled attributes), and [stream.write(text)] followed
    by [flush()] on the stream of the handler (the [stream] it was built
    with, [sys.stderr] when it was given none), which may raise. *)
Class Host : Type := {
  percent : string -> pyval -> outcome string;
  formatException : pyval -> string;
  formatTime : LogRecord -> string;
  stream_write : string -> outcome unit
}.

Definition ends_with_newline (s : string) : bool :=
  match String.get (String.length s - 1) s with
  | Some c => (code c =? 10)%N
  | None => false
  end.

Definition newline : string := String (ascii_of_N 10) "".

(** [s + t], where [s] is a string: [t] has to be one too. *)
Definition str_add (s : string) (t : pyval) : M string :=
  match t with
  | PStr t' => ret (s +:+ t')
  | _ => raise TypeError
  end.

Section WithHost.
Context {host : Host}.

(** [LogRecord.getMessage] *)
Definition getMessage : M string :=
  m <- getattr "msg" ;;
  let msg := str m in
  a <- getattr "args" ;;
  if truthy a then lift (percent msg a) else ret msg.

(** [Formatter.format] of a formatter built on the format string [fmt]. *)
Definition Formatter_format (fmt : list piece) : M string :=
  message <- getMessage ;;
  setattr "message" (PStr message) ;;
  (if usesTime fmt
   then fun r => setattr "asctime" (PStr (formatTime r)) r
   else ret tt) ;;
  s <- formatMessage fmt ;;
  ei <- getattr "exc_info" ;;
  (if truthy ei then
     et <- getattr "exc_text" ;;
     if negb (truthy et)
     then setattr "exc_text" (PStr (formatException ei))
     else ret tt
   else ret tt) ;;
  et <- getattr "exc_text" ;;
  s <- (if truthy et then
          str_add (if ends_with_newline s then s else s +:+ newline) et
        else ret s) ;;
  si <- getattr "stack_info" ;;
  s <- (if truthy si then
          str_add (if ends_with_newline s then s else s +:+ newline) si
        else ret s) ;;
  ret s.

(** The format string of the default formatter, [%(message)s]. *)
Definition BASIC_FORMAT : list piece := [Field "message"].

(** [Handler.format]: the handler's own formatter when one was set, the
    default formatter otherwise. *)
Definition Handler_format (formatter : option (list piece)) : M string :=
  match formatter with
  | Some fmt => Formatter_format fmt
  | None => Formatter_format BASIC_FORMAT
  end.

(** What [emit] did with a record: it wrote [text] to the stream, or an
    exception [e], raised by [format], by [stream.write] or by [flush],
    reached [handleError(record)], which, [logging.raiseExceptions] being
    set as it is by default, prints a report of it on [sys.stderr]. *)
Inductive emitted : Type :=
| Written (text : string)
| HandleError (e : exn).

(** [StreamHandler.emit]: the formatted record and the terminator are
    written to the stream and the stream is flushed; an exception on the
    way is handed to [handleError], but for [RecursionError], which is
    raised again. *)
Definition StreamHandler_emit (format : M string) : M emitted :=
  try_except
    (msg <- format ;;
     lift (stream_write (msg +:+ newline)) ;;
     ret (Written (msg +:+ newline)))
    (fun e => match e with
              | RecursionError => raise RecursionError
              | _ => ret (HandleError e)
              end).

End WithHost.

(** [Filterer.filter]: the record is kept when every filter returns a
    true value; the first false one stops the loop. *)
Fixpoint Filterer_filter (filters : list (M bool)) : M bool :=
  match filters with
  | [] => ret true
  | f :: filters' =>
      result <- f ;;
      if result then Filterer_filter filters' else ret false
  end.

(** [Handler.handle]: emit the record unless a filter rejects it.  The
    value is what [emit] did, [None] when it was not called. *)
Definition Handler_handle (filters : list (M bool)) (emit : M emitted)
  : M (option emitted) :=
  rv <- Filterer_filter filters ;;
  if rv then (done <- emit ;; ret (Some done)) else ret None.

End Logging.

(** ** [logging_gke/__init__.py] *)

Import Py Logging.
Local Open Scope py_scope.

(** [s] between double quotes. *)
Definition quoted (s : string) : string := String dquote (s +:+ String dquote "").

(** The format string of the output line, one source line per row. *)
Definition GCP_FORMAT : list piece :=
  [Lit ("{" +:+ quoted "message" +:+ ": "); Field "_formatted_msg"; Lit ", "] ++
  [Lit (quoted "severity" +:+ ": " +:+ String dquote ""); Field "levelname";
   Lit (String dquote ", ")] ++
  [Lit (quoted "logging.googleapis.com/labels" +:+ ": "); Field "_labels_str";
   Lit ", "] ++
  [Lit (quoted "logging.googleapis.com/trace" +:+ ": " +:+ String dquote "");
   Field "_trace_str"; Lit (String dquote ", ")] ++
  [Lit (quoted "logging.googleapis.com/spanId" +:+ ": " +:+ String dquote "");
   Field "_span_id_str"; Lit (String dquote ", ")] ++
  [Lit (quoted "logging.googleapis.com/sourceLocation" +:+ ": ");
   Field "_source_location_str"; Lit ", "] ++
  [Lit (quoted "httpRequest" +:+ ": "); Field "_http_request_str"; Lit " }"].

(** [d.items()]: only a dictionary has the method. *)
Definition items (d : pyval) : outcome (list (string * pyval)) :=
  match d with
  | PDict d' => Return d'
  | _ => Raise AttributeError
  end.

(** [{**a, **b}]: both operands have to be mappings. *)
Definition unpack (a b : pyval) : outcome pyval :=
  match a, b with
  | PDict a', PDict b' => Return (PDict (dict_unpack a' b'))
  | _, _ => Raise TypeError
  end.

Module CloudLoggingFilter.

Record t : Type := mk { project : pyval; default_labels : pyval }.

Definition _supported_http_fields : list string :=
  ["requestMethod"; "requestUrl"; "userAgent"; "protocol"].

Definition __init__ (project default_labels : pyval) : t :=
  {| project := project;
     default_labels := if truthy default_labels then default_labels else PDict [] |}.

Definition _infer_source_location : M pyval :=
  has <- hasattr "source_location" ;;
  if has then getattr "source_location"
  else
    let name_map :=
      [("line", "lineno"); ("file", "pathname"); ("function", "funcName")] in
    let output := [] in
    output <- for_ name_map (fun output '(gcp_name, std_lib_name) =>
                value <- getattr_d std_lib_name PNone ;;
                if is_not_none value
                then ret (dict_set gcp_name value output)
                else ret output) output ;;
    ret (if truthy (PDict output) then PDict output else PNone).

(** The body of [filter] from the first [if] on, as a function of the
    locals bound above it: the caller's labels and the three values
    inferred from the environment. *)
Definition filter_body (self : t)
    (user_labels inferred_http inferred_trace inferred_span : pyval) : M bool :=
  inferred_http <-
    (if is_not_none inferred_http then
       kvs <- lift (items inferred_http) ;;
       ret (PDict (dict_comp
              (fun k v => existsb (String.eqb k) _supported_http_fields
                          && is_not_none v) kvs))
     else ret inferred_http) ;;
  let inferred_trace :=
    if is_not_none inferred_trace && is_not_none (project self)
    then PStr ("projects/" +:+ str (project self) +:+ "/traces/"
               +:+ str inferred_trace)
    else inferred_trace in
  v <- getattr_d "resource" PNone ;; setattr "_resource" v ;;
  v <- getattr_d "trace" inferred_trace ;; setattr "_trace" (or_ v PNone) ;;
  v <- getattr_d "span_id" inferred_span ;; setattr "_span_id" (or_ v PNone) ;;
  v <- getattr_d "http_request" inferred_http ;; setattr "_http_request" v ;;
  v <- _infer_source_location ;; setattr "_source_location" v ;;
  v <- lift (unpack (default_labels self) user_labels) ;;
  setattr "_labels" (or_ v PNone) ;;
  v <- getattr "_trace" ;; setattr "_trace_str" (or_ v (PStr "")) ;;
  v <- getattr "_span_id" ;; setattr "_span_id_str" (or_ v (PStr "")) ;;
  v <- getattr "_http_request" ;;
  setattr "_http_request_str" (PStr (Json.dumps (or_ v (PDict [])))) ;;
  v <- getattr "_source_location" ;;
  setattr "_source_location_str" (PStr (Json.dumps (or_ v (PDict [])))) ;;
  v <- getattr "_labels" ;;
  setattr "_labels_str" (PStr (Json.dumps (or_ v (PDict [])))) ;;
  m <- getattr "msg" ;;
  setattr "_msg_str"
    (PStr (if truthy m
           then replace_char dquote (String backslash (String dquote "")) (str m)
           else "")) ;;
  ret true.

Definition filter (self : t) : M bool :=
  user_labels <- getattr_d "labels" (PDict []) ;;
  let '(inferred_http, inferred_trace, inferred_span) := (PNone, PNone, PNone) in
  filter_body self user_labels inferred_http inferred_trace inferred_span.

End CloudLoggingFilter.

Module StructuredLogHandler.

(** The handler: its own attribute [project_id], the filters and the
    formatter slot of the base [Handler], and the formatter of the output
    line.  The stream is the host's: [handle] returns what [emit] did
    with it. *)
Record t : Type := mk {
  project_id : pyval;
  filters : list CloudLoggingFilter.t;
  formatter : option (list piece);
  _gcp_formatter : list piece
}.

Definition __init__ (labels project_id : pyval) : t :=
  {| project_id := project_id;
     filters := [CloudLoggingFilter.__init__ project_id labels];
     formatter := None;
     _gcp_formatter := GCP_FORMAT |}.

Section WithHost.
Context {host : Host}.

Definition format (self : t) : M string :=
  let super_payload := PNone in
  m <- getattr "msg" ;;
  super_payload <-
    (if truthy m then s <- Handler_format (formatter self) ;; ret (PStr s)
     else ret super_payload) ;;
  setattr "_formatted_msg" (PStr (Json.dumps (or_ super_payload (PStr "")))) ;;
  setattr "exc_info" PNone ;;
  setattr "exc_text" PNone ;;
  gcp_payload <- Formatter_format (_gcp_formatter self) ;;
  ret gcp_payload.

(** [handle], inherited from [Handler], with the filters of this handler
    and the [emit] of [StreamHandler], which calls the [format] of this
    class. *)
Definition handle (self : t) : M (option emitted) :=
  Handler_handle (map CloudLoggingFilter.filter (filters self))
                 (StreamHandler_emit (format self)).

End WithHost.

End StructuredLogHandler.

(** ** What the filter assigns

    The values [filter] computes, as functions of the record it receives;
    the lemmas below show that running the filter assigns exactly these. *)

Definition std_names : list string :=
  ["msg"; "args"; "levelname"; "pathname"; "lineno"; "funcName";
   "exc_info"; "exc_text"; "stack_info"].

Definition is_std (name : string) : bool := existsb (String.eqb name) std_names.

Definition with_extra (x : gmap string pyval) (r : LogRecord) : LogRecord :=
  mkLogRecord (msg r) (args r) (levelname r) (pathname r) (lineno r) (funcName r)
              (exc_info r) (exc_text r) (stack_info r) x.

(** The fallback of [_infer_source_location], its loop unrolled. *)
Definition location_of_fields (r : LogRecord) : pyval :=
  let output := [] in
  let output := if is_not_none (lineno r)
                then dict_set "line" (lineno r) output else output in
  let output := if is_not_none (pathname r)
                then dict_set "file" (pathname r) output else output in
  let output := if is_not_none (funcName r)
                then dict_set "function" (funcName r) output else output in
  if truthy (PDict output) then PDict output else PNone.

Definition derived_location (r : LogRecord) : pyval :=
  match attr "source_location" r with
  | Some v => v
  | None => location_of_fields r
  end.

(** The first [if] of [filter]. *)
Definition kept_http (ih : pyval) : outcome pyval :=
  if is_not_none ih then
    match items ih with
    | Return kvs =>
        Return (PDict (dict_comp
                  (fun k v => existsb (String.eqb k)
                                CloudLoggingFilter._supported_http_fields
                              && is_not_none v) kvs))
    | Raise e => Raise e
    end
  else Return ih.

(** The second [if] of [filter]. *)
Definition qualified_trace (self : CloudLoggingFilter.t) (it : pyval) : pyval :=
  if is_not_none it && is_not_none (CloudLoggingFilter.project self)
  then PStr ("projects/" +:+ str (CloudLoggingFilter.project self) +:+ "/traces/"
             +:+ str it)
  else it.

Definition derived_resource (r : LogRecord) : pyval :=
  from_option id PNone (attr "resource" r).
Definition derived_trace (it : pyval) (r : LogRecord) : pyval :=
  or_ (from_option id it (attr "trace" r)) PNone.
Definition derived_span_id (isp : pyval) (r : LogRecord) : pyval :=
  or_ (from_option id isp (attr "span_id" r)) PNone.
Definition derived_http (ih : pyval) (r : LogRecord) : pyval :=
  from_option id ih (attr "http_request" r).
Definition derived_msg_str (r : LogRecord) : pyval :=
  PStr (if truthy (msg r)
        then replace_char dquote (String backslash (String dquote "")) (str (msg r))
        else "").

(** The record after the five assignments that come before the labels are
      merged. *)
Definition raw_assigned (ih it isp : pyval) (r : LogRecord) : LogRecord :=
  set_attr "_source_location" (derived_location r)
    (set_attr "_http_request" (derived_http ih r)
       (set_attr "_span_id" (derived_span_id isp r)
          (set_attr "_trace" (derived_trace it r)
             (set_attr "_resource" (derived_resource r) r)))).

(** The record after all twelve assignments, [v] being the merged labels. *)
Definition all_assigned (ih it isp v : pyval) (r : LogRecord) : LogRecord :=
  set_attr "_msg_str" (derived_msg_str r)
    (set_attr "_labels_str" (PStr (Json.dumps (or_ (or_ v PNone) (PDict []))))
       (set_attr "_source_location_str"
          (PStr (Json.dumps (or_ (derived_location r) (PDict []))))
          (set_attr "_http_request_str"
             (PStr (Json.dumps (or_ (derived_http ih r) (PDict []))))
             (set_attr "_span_id_str" (or_ (derived_span_id isp r) (PStr ""))
                (set_attr "_trace_str" (or_ (derived_trace it r) (PStr ""))
                   (set_attr "_labels" (or_ v PNone)
                      (raw_assigned ih it isp r))))))).

(** The labels the filter merges for a record: the caller's, or an empty
    dictionary. *)
Definition user_labels (r : LogRecord) : pyval :=
  from_option id (PDict []) (attr "labels" r).

(** ** What the handler writes *)

(** The text [getMessage] returns. *)
Definition message_of {host : Host} (r : LogRecord) : outcome string :=
  if truthy (args r) then percent (str (msg r)) (args r) else Return (str (msg r)).

(** The exception text [Formatter.format] works with: the cached one, or
    the one it computes and caches when there is exception information and
    no text yet. *)
Definition cached_exc_text {host : Host} (r : LogRecord) : pyval :=
  if truthy (exc_info r) && negb (truthy (exc_text r))
  then PStr (formatException (exc_info r))
  else exc_text r.

(** [s], followed by the text [t] on a line of its own when [t] is not
    empty: how [Formatter.format] appends the exception and the stack. *)
Definition with_text (s : string) (t : pyval) : string :=
  if truthy t
  then (if ends_with_newline s then s else s +:+ newline) +:+ str t
  else s.

(** [None] (or another false value) or a string: what [exc_text] and
    [stack_info] hold on a record made by the logging package. *)
Definition text_or_empty (t : pyval) : Prop :=
  truthy t = false \/ exists s, t = PStr s.

(** What [super().format(record)] returns, [s] being the message. *)
Definition payload_of {host : Host} (r : LogRecord) (s : string) : string :=
  if truthy (msg r)
  then with_text (with_text s (cached_exc_text r)) (stack_info r)
  else "".

Definition dq : string := String dquote "".

(** The output line for given contents of its seven fields. *)
Definition gcp_line (message severity labels trace span location http : string)
  : string :=
  "{" +:+ quoted "message" +:+ ": " +:+ message +:+ ", " +:+
  quoted "severity" +:+ ": " +:+ dq +:+ severity +:+ dq +:+ ", " +:+
  quoted "logging.googleapis.com/labels" +:+ ": " +:+ labels +:+ ", " +:+
  quoted "logging.googleapis.com/trace" +:+ ": " +:+ dq +:+ trace +:+ dq +:+ ", " +:+
  quoted "logging.googleapis.com/spanId" +:+ ": " +:+ dq +:+ span +:+ dq +:+ ", " +:+
  quoted "logging.googleapis.com/sourceLocation" +:+ ": " +:+ location +:+ ", " +:+
  quoted "httpRequest" +:+ ": " +:+ http +:+ " }".

(** The seven keys of the output object. *)
Definition gcp_keys : list string :=
  ["message"; "severity"; "logging.googleapis.com/labels";
   "logging.googleapis.com/trace"; "logging.googleapis.com/spanId";
   "logging.googleapis.com/sourceLocation"; "httpRequest"].

(** The line the handler writes for the record [r], [v] being the merged
    labels and [s] the message. *)
Definition line_of {host : Host} (r : LogRecord) (v : pyval) (s : string) : string :=
  with_text
    (gcp_line (Json.dumps (PStr (payload_of r s)))
              (str (levelname r))
              (Json.dumps (or_ (or_ v PNone) (PDict [])))
              (str (or_ (derived_trace PNone r) (PStr "")))
              (str (or_ (derived_span_id PNone r) (PStr "")))
              (Json.dumps (or_ (derived_location r) (PDict [])))
              (Json.dumps (or_ (derived_http PNone r) (PDict []))))
    (stack_info r).

(** What [handle] comes to when an exception [e] is raised inside the
    [try] of [emit]: [handleError], or [e] again when it is
    [RecursionError]. *)
Definition handled (e : exn) : outcome (option emitted) :=
  match e with
  | RecursionError => Raise RecursionError
  | _ => Return (Some (HandleError e))
  end.

(** What [handle] comes to once the filters have kept the record and
    [format] has returned: [emit] passes [text], the line and its
    terminator, to the stream; the stream takes it, or the exception of
    [write] or [flush] goes the way of every exception in [emit]. *)
Definition written {host : Host} (text : string) : outcome (option emitted) :=
  match stream_write text with
  | Return _ => Return (Some (Written text))
  | Raise e => handled e
  end.

(** ** Records that differ in some attributes only *)

(** [r1] and [r2] agree on every attribute whose name is not in [names]. *)
Definition same_except (names : list string) (r1 r2 : LogRecord) : Prop :=
  forall n, n ∉ names -> attr n r1 = attr n r2.

(** A computation that cannot tell such records apart: its result is the
    same on both and it leaves them agreeing outside [names]. *)
Definition respects {A} (names : list string) (c : M A) : Prop :=
  forall r1 r2, same_except names r1 r2 ->
    fst (c r1) = fst (c r2) /\ same_except names (snd (c r1)) (snd (c r2)).

(** The caller's [resource] and the copy the filter makes of it. *)
Definition resource_names : list string := ["resource"; "_resource"].

(** ** Sample records *)

(** A host for the examples: the message is used as it is, every
    exception prints as one word, and the stream takes every text. *)
Definition plain_host : Host :=
  {| percent := fun s _ => Return s;
     formatException := fun _ => "Traceback";
     formatTime := fun _ => "2026-01-01 00:00:00,000";
     stream_write := fun _ => Return tt |}.

(** A record as [logger.info(m, extra=x)] makes it, called from line 42 of
    [/app/main.py]. *)
Definition info_record (m : pyval) (x : list (string * pyval)) : LogRecord :=
  mkLogRecord m (PList []) (PStr "INFO") (PStr "/app/main.py") (PInt 42)
              (PStr "run") PNone PNone PNone (list_to_map x).

(** The request of the specification's example, with one key the filter
    does not know, and what is left of it without that key. *)
Definition foo_request : pyval :=
  PDict [("foo", PStr "bar"); ("requestMethod", PStr "GET")].
Definition get_request : pyval := PDict [("requestMethod", PStr "GET")].

(** A filter and a handler with no project and no labels, and the same for
    the project [proj1]. *)
Definition bare_filter : CloudLoggingFilter.t := CloudLoggingFilter.__init__ PNone PNone.
Definition proj1_filter : CloudLoggingFilter.t :=
  CloudLoggingFilter.__init__ (PStr "proj1") PNone.
Definition bare_handler : StructuredLogHandler.t :=
  StructuredLogHandler.__init__ PNone PNone.
Definition proj1_handler : StructuredLogHandler.t :=
  StructuredLogHandler.__init__ PNone (PStr "proj1").

(** Records with one attribute attached by the caller: the request above,
    the trace [abc123], a trace of three characters whose second is a
    double quote, and a stack text. *)
Definition foo_request_record : LogRecord :=
  info_record (PStr "hello") [("http_request", foo_request)].
Definition abc123_record : LogRecord :=
  info_record (PStr "hello") [("trace", PStr "abc123")].
Definition quote_trace : string := String "a" (String dquote "b").
Definition quote_trace_record : LogRecord :=
  info_record (PStr "hello") [("trace", PStr quote_trace)].
Definition stack_record : LogRecord :=
  set_attr "stack_info" (PStr "Stack (most recent call last):")
    (info_record (PStr "hello") []).

(** A host whose [%] raises whenever it is called, as the interpreter does
    for arguments that do not fit the message. *)
Definition failing_host : Host :=
  {| percent := fun _ _ => Raise TypeError;
     formatException := fun _ => "Traceback";
     formatTime := fun _ => "2026-01-01 00:00:00,000";
     stream_write := fun _ => Return tt |}.

(** The record of [logger.info] called with the empty message and the
    argument [1]. *)
Definition empty_with_argument_record : LogRecord :=
  set_attr "args" (PList [PInt 1]) (info_record (PStr "") []).

(** Labels for a handler, and a record whose labels share the key [b]
    with them. *)
Definition two_labels : pyval := PDict [("b", PStr "2"); ("c", PStr "3")].

Definition three_labels_record : LogRecord :=
  info_record (PStr "hello") [("labels", PDict [("a", PStr "1"); ("b", PStr "9")])].

(** The source location of [info_record], as [json.dumps] writes it. *)
Definition main_location : pyval :=
  PDict [("line", PInt 42); ("file", PStr "/app/main.py"); ("function", PStr "run")].

(** The source location [_infer_source_location] falls back to, in the
    words of its documentation: the line, the file and the function of the
    record, without those that are [None], or [None] when none is left. *)
Definition location_spec (r : LogRecord) : pyval :=
  let kept := List.filter (fun kv : string * pyval => is_not_none kv.2)
                [("line", lineno r); ("file", pathname r); ("function", funcName r)] in
  match kept with
  | [] => PNone
  | _ => PDict kept
  end.

(** The entries of an inferred request the filter lets through. *)
Definition supported_entries (kvs : list (string * pyval)) : list (string * pyval) :=
  List.filter (fun kv : string * pyval =>
                 existsb (String.eqb kv.1) CloudLoggingFilter._supported_http_fields
                 && is_not_none kv.2) kvs.

(** ** The text of values

    What the proofs about [Json.loads] speak of: the fuel a value takes,
    the pieces of its text, and the characters that may stand around it. *)

(** What may follow the digits of a number. *)
Definition no_digit_head (s : string) : Prop :=
  match s with
  | String c _ => Json.digit_of c = None
  | EmptyString => True
  end.

(** What may follow an integer: not a digit, and not the start of a
    fraction or of an exponent. *)
Definition ends_number (s : string) : Prop :=
  match s with
  | String c _ =>
      Json.digit_of c = None /\
      ((code c =? 46) || (code c =? 101) || (code c =? 69))%N = false
  | EmptyString => True
  end.

(** The fuel that reading a value back takes. *)
Fixpoint weight (v : pyval) : nat :=
  match v with
  | PList l => S (list_sum (map (fun x => S (weight x)) l))
  | PDict d => S (list_sum (map (fun kv : string * pyval => S (weight kv.2)) d))
  | _ => 1
  end.

(** The text of an array after its first element, and of an object after
    its first member. *)
Fixpoint more_items (l : list pyval) : string :=
  match l with
  | [] => ""
  | y :: l' => ", " +:+ Json.dumps y +:+ more_items l'
  end.

Fixpoint more_members (d : list (string * pyval)) : string :=
  match d with
  | [] => ""
  | (k, y) :: d' =>
      ", " +:+ Json.dumps_str k +:+ ": " +:+ Json.dumps y +:+ more_members d'
  end.

(** The first character of the text of a value: not white space, and not a
    closing bracket. *)
Definition value_head (s : string) : Prop :=
  match s with
  | String c _ => Json.is_ws c = false /\ (code c =? 93)%N = false
  | EmptyString => False
  end.

(** The first character of a number. *)
Definition number_head (s : string) : Prop :=
  match s with
  | String c _ => Json.digit_of c <> None \/ code c = 45%N
  | EmptyString => False
  end.

(** The end of an object, with or without a space before the brace. *)
Definition closing (pad : bool) : string := if pad then " }" else "}".

(** What reading a value back means, for the induction. *)
Definition reads_back (v : pyval) : Prop :=
  forall n rest, weight v <= n -> ends_number rest ->
    Json.parse_value n (Json.dumps v +:+ rest) = Some (v, rest).

(** A character that stands for itself between quotes, and a string of
    such characters. *)
Definition plain_char (c : ascii) : bool :=
  ((32 <=? code c) && (code c <=? 126))%N
  && negb (Ascii.eqb c dquote) && negb (Ascii.eqb c backslash).

Fixpoint plain (s : string) : bool :=
  match s with
  | EmptyString => true
  | String c s' => plain_char c && plain s'
  end.

(** The members of the output object. *)
Definition gcp_object (message : pyval) (severity : string) (labels : pyval)
    (trace span : string) (location http : pyval) : list (string * pyval) :=
  [("message", message); ("severity", PStr severity);
   ("logging.googleapis.com/labels", labels);
   ("logging.googleapis.com/trace", PStr trace);
   ("logging.googleapis.com/spanId", PStr span);
   ("logging.googleapis.com/sourceLocation", location);
   ("httpRequest", http)].

(** ** Definitions for the further properties *)

(** ** What a run may assign *)

(** The attributes [filter] assigns, those [format] assigns, and both. *)
Definition derived_names : list string :=
  ["_resource"; "_trace"; "_span_id"; "_http_request"; "_source_location";
   "_labels"; "_trace_str"; "_span_id_str"; "_http_request_str";
   "_source_location_str"; "_labels_str"; "_msg_str"].

Definition format_names : list string :=
  ["_formatted_msg"; "message"; "exc_info"; "exc_text"].

Definition handle_names : list string := (derived_names ++ format_names)%list.

(** A computation that leaves every attribute outside [names] as it found
    it, whether it returns or raises. *)
Definition modifies {A} (names : list string) (c : M A) : Prop :=
  forall r n, n ∉ names -> attr n (snd (c r)) = attr n r.

(** Records for the examples: [labels=None] attached by the caller, and a
    message whose arguments do not fit it. *)
Definition none_labels_record : LogRecord :=
  info_record (PStr "hello") [("labels", PNone)].

Definition bad_args_record : LogRecord :=
  set_attr "args" (PList [PInt 1]) (info_record (PStr "hello") []).

(** The attributes [filter] assigns after it has merged the labels. *)
Definition after_merge_names : list string :=
  ["_labels"; "_trace_str"; "_span_id_str"; "_http_request_str";
   "_source_location_str"; "_labels_str"; "_msg_str"].

(** The names of the attributes [format] expects the filter to have
    assigned. *)
Definition filter_made_fields : list string :=
  ["_labels_str"; "_trace_str"; "_span_id_str"; "_source_location_str";
   "_http_request_str"].

(** A handler from which the filter was removed. *)
Definition unfiltered_handler : StructuredLogHandler.t :=
  StructuredLogHandler.mk PNone [] None GCP_FORMAT.

(** A record that carries an exception, and a record as it is once the
    exception was removed from it. *)
Definition failed_record : LogRecord :=
  set_attr "exc_info" (PStr "ZeroDivisionError") (info_record (PStr "hello") []).

Definition without_exception (r : LogRecord) : LogRecord :=
  set_attr "exc_text" PNone (set_attr "exc_info" PNone r).

(** The attributes a run of the handler assigns before it reads them. *)
Definition rewritten_names : list string :=
  (derived_names ++ ["_formatted_msg"; "message"])%list.

(** ** What a run may read *)

(** [r1] and [r2] agree on the attributes in [names]. *)
Definition agree (names : list string) (r1 r2 : LogRecord) : Prop :=
  forall n, n ∈ names -> attr n r1 = attr n r2.

(** A computation that reads no attribute outside [pre], or only after it
    has assigned it: on records that agree on [pre] its outcome is the same
    and, when it returns, the records agree on [post] afterwards. *)
Definition reads {A} (pre post : list string) (c : M A) : Prop :=
  forall r1 r2, agree pre r1 r2 ->
    fst (c r1) = fst (c r2) /\
    (forall a, fst (c r1) = Return a -> agree post (snd (c r1)) (snd (c r2))).

(** The attributes [format] needs to find on the record, and those the
    handler needs: what the logging package sets and what the caller may
    attach. *)
Definition format_needs : list string :=
  ["msg"; "args"; "levelname"; "exc_info"; "exc_text"; "stack_info";
   "_labels_str"; "_trace_str"; "_span_id_str"; "_source_location_str";
   "_http_request_str"].

Definition handle_needs : list string :=
  ["msg"; "args"; "levelname"; "pathname"; "lineno"; "funcName";
   "exc_info"; "exc_text"; "stack_info";
   "labels"; "trace"; "span_id"; "http_request"; "source_location"].

(** The attributes for which a false value is written as no value. *)
Definition defaulted_names : list string := ["trace"; "span_id"; "http_request"].

(** ** One line of ASCII *)

(** A character between the space and the tilde, and a text of such
    characters: no control character, so no line break, and nothing
    outside ASCII. *)
Definition visible_char (c : ascii) : bool :=
  ((32 <=? code c) && (code c <=? 126))%N.

Fixpoint visible (s : string) : bool :=
  match s with
  | EmptyString => true
  | String c s' => visible_char c && visible s'
  end.

(** Records for the examples: a message of two lines, a record with a
    stale [_msg_str], and one with a resource. *)
Definition two_lines_record : LogRecord :=
  info_record (PStr ("first" +:+ newline +:+ "second")) [].

Definition filtered_record : LogRecord :=
  snd (CloudLoggingFilter.filter bare_filter (info_record (PStr "hello") [])).

Definition resource_record : LogRecord :=
  info_record (PStr "hello") [("resource", PStr "gce_instance")].

(** * Properties *)

(** ** Reading and assigning attributes *)

Ltac split_std H :=
  unfold is_std, std_names in H; cbn [existsb] in H;
  repeat (apply orb_false_elim in H as [? H]).

Ltac use_eqb_false :=
  repeat match goal with
         | E : String.eqb _ _ = false |- _ => rewrite E; clear E
         end.

Lemma attr_extra name r : is_std name = false -> attr name r = extra r !! name.
Proof. intros H. split_std H. unfold attr. use_eqb_false. reflexivity. Qed.

Lemma set_attr_extra name v r :
  is_std name = false -> set_attr name v r = with_extra (<[name := v]> (extra r)) r.
Proof.
  intros H. split_std H. destruct r. unfold set_attr. use_eqb_false. reflexivity.
Qed.

Lemma attr_set_attr n n' v r :
  attr n (set_attr n' v r) = if String.eqb n n' then Some v else attr n r.
Proof.
  destruct r. unfold set_attr, attr.
  repeat match goal with
         | |- context [String.eqb ?a ?b] =>
             destruct (String.eqb_spec a b); subst;
             cbn [msg args levelname pathname lineno funcName
                  exc_info exc_text stack_info extra];
             try congruence; try reflexivity
         end.
  all: try (rewrite lookup_insert_eq; reflexivity).
  all: try (rewrite lookup_insert_ne by congruence; reflexivity).
Qed.

Lemma attr_set_attr_eq n v r : attr n (set_attr n v r) = Some v.
Proof. rewrite attr_set_attr, String.eqb_refl. reflexivity. Qed.

Lemma attr_set_attr_ne n n' v r :
  String.eqb n n' = false -> attr n (set_attr n' v r) = attr n r.
Proof. intros H. rewrite attr_set_attr, H. reflexivity. Qed.

Lemma std_attrs r :
  attr "msg" r = Some (msg r) /\ attr "args" r = Some (args r) /\
  attr "levelname" r = Some (levelname r) /\ attr "pathname" r = Some (pathname r) /\
  attr "lineno" r = Some (lineno r) /\ attr "funcName" r = Some (funcName r) /\
  attr "exc_info" r = Some (exc_info r) /\ attr "exc_text" r = Some (exc_text r) /\
  attr "stack_info" r = Some (stack_info r).
Proof. repeat split. Qed.

(** Assigning an attribute that the constructor does not set leaves the
    constructor's attributes alone. *)
Lemma field_set_attr n v r :
  is_std n = false ->
  msg (set_attr n v r) = msg r /\ args (set_attr n v r) = args r /\
  levelname (set_attr n v r) = levelname r /\
  pathname (set_attr n v r) = pathname r /\ lineno (set_attr n v r) = lineno r /\
  funcName (set_attr n v r) = funcName r /\ exc_info (set_attr n v r) = exc_info r /\
  exc_text (set_attr n v r) = exc_text r /\ stack_info (set_attr n v r) = stack_info r.
Proof. intros H. rewrite set_attr_extra by done. repeat split. Qed.

Lemma derived_location_set_attr n v r :
  is_std n = false -> String.eqb "source_location" n = false ->
  derived_location (set_attr n v r) = derived_location r.
Proof.
  intros Hs Hn. unfold derived_location, location_of_fields.
  rewrite attr_set_attr_ne by done.
  destruct (field_set_attr n v r Hs) as (_ & _ & _ & -> & -> & -> & _).
  reflexivity.
Qed.

(** ** Running a computation step by step *)

Lemma bind_ret {A B} (a : A) (k : A -> M B) r : bind (ret a) k r = k a r.
Proof. reflexivity. Qed.

Lemma bind_getattr_d {B} n d (k : pyval -> M B) r :
  bind (getattr_d n d) k r = k (from_option id d (attr n r)) r.
Proof. reflexivity. Qed.

Lemma bind_setattr {B} n v (k : unit -> M B) r :
  bind (setattr n v) k r = k tt (set_attr n v r).
Proof. reflexivity. Qed.

Lemma bind_getattr {B} n (k : pyval -> M B) r :
  bind (getattr n) k r =
  match attr n r with Some v => k v r | None => (Raise AttributeError, r) end.
Proof. unfold bind, getattr. destruct (attr n r); reflexivity. Qed.

Lemma bind_hasattr {B} n (k : bool -> M B) r :
  bind (hasattr n) k r = k (bool_decide (is_Some (attr n r))) r.
Proof. reflexivity. Qed.

Lemma bind_lift {A B} (o : outcome A) (k : A -> M B) r :
  bind (lift o) k r = match o with Return a => k a r | Raise e => (Raise e, r) end.
Proof. unfold bind, lift. destruct o; reflexivity. Qed.

Lemma bind_bind {A B C} (m : M A) (k : A -> M B) (k' : B -> M C) r :
  bind (bind m k) k' r = bind m (fun a => bind (k a) k') r.
Proof. unfold bind. destruct (m r) as [[a|e] r']; reflexivity. Qed.

Lemma bind_run {A B} (m : M A) (k : A -> M B) r a r' :
  m r = (Return a, r') -> bind m k r = k a r'.
Proof. unfold bind. intros ->. reflexivity. Qed.

Lemma bind_raise {A B} (m : M A) (k : A -> M B) r e r' :
  m r = (Raise e, r') -> bind m k r = (Raise e, r').
Proof. unfold bind. intros ->. reflexivity. Qed.

Ltac attr_simpl :=
  repeat first
    [ rewrite attr_set_attr_eq
    | rewrite attr_set_attr_ne by reflexivity
    | rewrite derived_location_set_attr by reflexivity ].

Ltac step :=
  first
    [ rewrite bind_ret
    | rewrite bind_getattr_d
    | rewrite bind_setattr
    | rewrite bind_getattr
    | rewrite bind_hasattr ];
  attr_simpl.

(** ** The filter in closed form *)

Lemma infer_source_location_run r :
  CloudLoggingFilter._infer_source_location r = (Return (derived_location r), r).
Proof.
  unfold CloudLoggingFilter._infer_source_location, derived_location,
    location_of_fields.
  rewrite bind_hasattr.
  destruct (attr "source_location" r) as [v|] eqn:E.
  - rewrite bool_decide_eq_true_2 by eauto. unfold getattr. rewrite E. reflexivity.
  - rewrite bool_decide_eq_false_2 by (intros [? ?]; discriminate).
    cbn [for_]. destruct (std_attrs r) as (_ & _ & _ & Hp & Hl & Hf & _).
    rewrite !bind_bind, bind_getattr_d, Hl. cbn [from_option id].
    destruct (is_not_none (lineno r));
      rewrite bind_ret, !bind_bind, bind_getattr_d, Hp; cbn [from_option id];
      (destruct (is_not_none (pathname r));
       rewrite bind_ret, !bind_bind, bind_getattr_d, Hf; cbn [from_option id];
       (destruct (is_not_none (funcName r)); reflexivity)).
Qed.

Lemma filter_body_run self ul ih it isp r :
  CloudLoggingFilter.filter_body self ul ih it isp r =
  match kept_http ih with
  | Raise e => (Raise e, r)
  | Return ih' =>
      match unpack (CloudLoggingFilter.default_labels self) ul with
      | Raise e => (Raise e, raw_assigned ih' (qualified_trace self it) isp r)
      | Return v => (Return true, all_assigned ih' (qualified_trace self it) isp v r)
      end
  end.
Proof.
  unfold CloudLoggingFilter.filter_body. fold (qualified_trace self it).
  generalize (qualified_trace self it). intros it'.
  assert (Hk : forall (k : pyval -> M bool),
    bind (if is_not_none ih
          then bind (lift (items ih)) (fun kvs => ret (PDict (dict_comp
                 (fun k v => existsb (String.eqb k)
                               CloudLoggingFilter._supported_http_fields
                             && is_not_none v) kvs)))
          else ret ih) k r =
    match kept_http ih with Raise e => (Raise e, r) | Return ih' => k ih' r end).
  { intros k. unfold kept_http. destruct (is_not_none ih); [|reflexivity].
    rewrite bind_bind, bind_lift. destruct (items ih); reflexivity. }
  rewrite Hk. clear Hk. destruct (kept_http ih) as [ih'|e]; [|reflexivity].
  repeat step.
  rewrite (bind_run _ _ _ _ _ (infer_source_location_run _)). attr_simpl.
  step. rewrite bind_lift.
  fold (derived_resource r) (derived_trace it' r) (derived_span_id isp r)
       (derived_http ih' r).
  fold (raw_assigned ih' it' isp r).
  destruct (unpack (CloudLoggingFilter.default_labels self) ul) as [v|e];
    [|reflexivity].
  unfold raw_assigned.
  repeat step.
  rewrite (proj1 (std_attrs r)).
  repeat step. reflexivity.
Qed.

Lemma filter_run self r :
  CloudLoggingFilter.filter self r =
  match unpack (CloudLoggingFilter.default_labels self) (user_labels r) with
  | Raise e => (Raise e, raw_assigned PNone PNone PNone r)
  | Return v => (Return true, all_assigned PNone PNone PNone v r)
  end.
Proof.
  unfold CloudLoggingFilter.filter. rewrite bind_getattr_d.
  cbv beta iota. rewrite filter_body_run. reflexivity.
Qed.

(** What each derived attribute holds once the filter has run. *)
Lemma attrs_all_assigned ih it isp v r :
  let r' := all_assigned ih it isp v r in
  attr "_resource" r' = Some (derived_resource r) /\
  attr "_trace" r' = Some (derived_trace it r) /\
  attr "_span_id" r' = Some (derived_span_id isp r) /\
  attr "_http_request" r' = Some (derived_http ih r) /\
  attr "_source_location" r' = Some (derived_location r) /\
  attr "_labels" r' = Some (or_ v PNone) /\
  attr "_trace_str" r' = Some (or_ (derived_trace it r) (PStr "")) /\
  attr "_span_id_str" r' = Some (or_ (derived_span_id isp r) (PStr "")) /\
  attr "_http_request_str" r' =
    Some (PStr (Json.dumps (or_ (derived_http ih r) (PDict [])))) /\
  attr "_source_location_str" r' =
    Some (PStr (Json.dumps (or_ (derived_location r) (PDict [])))) /\
  attr "_labels_str" r' = Some (PStr (Json.dumps (or_ (or_ v PNone) (PDict [])))) /\
  attr "_msg_str" r' = Some (derived_msg_str r).
Proof.
  unfold all_assigned, raw_assigned. cbv zeta.
  repeat split; attr_simpl; reflexivity.
Qed.

(** The filter leaves every attribute it does not assign as it was. *)
Lemma fields_set_attr_chain n x r' r :
  is_std n = false ->
  (msg r' = msg r /\ args r' = args r /\ levelname r' = levelname r /\
   pathname r' = pathname r /\ lineno r' = lineno r /\ funcName r' = funcName r /\
   exc_info r' = exc_info r /\ exc_text r' = exc_text r /\
   stack_info r' = stack_info r) ->
  let r'' := set_attr n x r' in
  msg r'' = msg r /\ args r'' = args r /\ levelname r'' = levelname r /\
  pathname r'' = pathname r /\ lineno r'' = lineno r /\ funcName r'' = funcName r /\
  exc_info r'' = exc_info r /\ exc_text r'' = exc_text r /\
  stack_info r'' = stack_info r.
Proof.
  intros Hn (<- & <- & <- & <- & <- & <- & <- & <- & <-).
  exact (field_set_attr n x r' Hn).
Qed.

Lemma fields_all_assigned ih it isp v r :
  let r' := all_assigned ih it isp v r in
  msg r' = msg r /\ args r' = args r /\ levelname r' = levelname r /\
  pathname r' = pathname r /\ lineno r' = lineno r /\ funcName r' = funcName r /\
  exc_info r' = exc_info r /\ exc_text r' = exc_text r /\
  stack_info r' = stack_info r.
Proof.
  unfold all_assigned, raw_assigned. cbv zeta.
  repeat (apply fields_set_attr_chain; [reflexivity|]).
  repeat split.
Qed.

(** ** Dictionaries *)

Lemma dict_get_set k k' v d :
  dict_get k (dict_set k' v d) = if String.eqb k' k then Some v else dict_get k d.
Proof.
  induction d as [|[k0 v0] d IH]; cbn.
  - destruct (String.eqb k' k); reflexivity.
  - destruct (String.eqb_spec k0 k'); subst; cbn.
    + destruct (String.eqb k' k); reflexivity.
    + destruct (String.eqb_spec k0 k); subst.
      * destruct (String.eqb_spec k' k); [congruence|reflexivity].
      * apply IH.
Qed.

Lemma dict_get_None k (d : list (string * pyval)) :
  k ∉ map fst d -> dict_get k d = None.
Proof.
  induction d as [|[k0 v0] d IH]; cbn; [done|].
  intros H. apply not_elem_of_cons in H as [Hne H].
  destruct (String.eqb_spec k0 k); [congruence|auto].
Qed.

(** After [d.update(u)], a key of [u] has the value [u] gives it and any
    other key keeps the value it has in [d]. *)
Lemma dict_get_update k d u :
  NoDup (map fst u) ->
  dict_get k (dict_update d u) =
  match dict_get k u with Some v => Some v | None => dict_get k d end.
Proof.
  unfold dict_update. revert d.
  induction u as [|[k1 v1] u IH]; intros d Hnd; cbn; [reflexivity|].
  apply NoDup_cons in Hnd as [Hk1 Hnd]. rewrite IH by done.
  rewrite dict_get_set.
  destruct (String.eqb_spec k1 k); subst.
  - rewrite dict_get_None by done. reflexivity.
  - reflexivity.
Qed.

Lemma dict_set_fresh k v (d : list (string * pyval)) :
  k ∉ map fst d -> dict_set k v d = (d ++ [(k, v)])%list.
Proof.
  induction d as [|[k0 v0] d IH]; cbn; [done|].
  intros H. apply not_elem_of_cons in H as [Hne H].
  destruct (String.eqb_spec k0 k); [congruence|]. rewrite IH by done. reflexivity.
Qed.

(** On a dictionary, whose keys are distinct, the comprehension keeps the
    items that pass the test, in their order. *)
Lemma dict_comp_filter keep (d : list (string * pyval)) :
  NoDup (map fst d) ->
  dict_comp keep d = List.filter (fun kv => keep kv.1 kv.2) d.
Proof.
  unfold dict_comp.
  enough (H : forall acc : list (string * pyval),
             NoDup (map fst d) ->
             (forall k, k ∈ map fst d -> k ∉ map fst acc) ->
             fold_left (fun acc kv => if keep kv.1 kv.2
                                      then dict_set kv.1 kv.2 acc else acc) d acc
             = (acc ++ List.filter (fun kv => keep kv.1 kv.2) d)%list).
  { intros Hnd. apply (H [] Hnd). intros k _. cbn. apply not_elem_of_nil. }
  induction d as [|[k v] d IH]; intros acc Hnd Hfresh; cbn.
  - rewrite app_nil_r. reflexivity.
  - apply NoDup_cons in Hnd as [Hk Hnd].
    destruct (keep k v).
    + rewrite IH; [| done |].
      * rewrite dict_set_fresh by (apply Hfresh; left).
        rewrite <- app_assoc. reflexivity.
      * intros k' Hk'. rewrite dict_set_fresh by (apply Hfresh; left).
        rewrite map_app. cbn. intros Hin. apply elem_of_app in Hin as [Hin|Hin].
        -- apply (Hfresh k'); [right; done|done].
        -- apply list_elem_of_singleton in Hin. subst. contradiction.
    + apply IH; [done|]. intros k' Hk'. apply Hfresh. right. done.
Qed.

Lemma dict_update_nil (d : list (string * pyval)) :
  NoDup (map fst d) -> dict_update [] d = d.
Proof.
  intros Hnd. unfold dict_update.
  enough (H : forall acc : list (string * pyval),
             NoDup (map fst d) ->
             (forall k, k ∈ map fst d -> k ∉ map fst acc) ->
             fold_left (fun acc kv => dict_set kv.1 kv.2 acc) d acc = (acc ++ d)%list).
  { apply (H [] Hnd). intros k _. cbn. apply not_elem_of_nil. }
  clear Hnd. induction d as [|[k v] d IH]; intros acc Hnd Hfresh; cbn.
  - rewrite app_nil_r. reflexivity.
  - apply NoDup_cons in Hnd as [Hk Hnd].
    rewrite IH; [| done |].
    + rewrite dict_set_fresh by (apply Hfresh; left).
      rewrite <- app_assoc. reflexivity.
    + intros k' Hk'. rewrite dict_set_fresh by (apply Hfresh; left).
      rewrite map_app. cbn. intros Hin. apply elem_of_app in Hin as [Hin|Hin].
      * apply (Hfresh k'); [right; done|done].
      * apply list_elem_of_singleton in Hin. subst. contradiction.
Qed.

Lemma or_str s : or_ (PStr s) (PStr "") = PStr s.
Proof. destruct s; reflexivity. Qed.

(** [v or None or {}] is [v] for a dictionary [v]. *)
Lemma or_dict d : or_ (or_ (PDict d) PNone) (PDict []) = PDict d.
Proof. destruct d; reflexivity. Qed.

(** ** The formatters in closed form *)

Lemma percent_dict_state fmt r : snd (percent_dict fmt r) = r.
Proof.
  induction fmt as [|[s|name] fmt IH]; cbn; [reflexivity| |].
  - unfold bind. destruct (percent_dict fmt r) as [[t|e] r'] eqn:E; cbn in *; done.
  - destruct (attr name r); [|reflexivity].
    unfold bind. destruct (percent_dict fmt r) as [[t|e] r'] eqn:E; cbn in *; done.
Qed.

Lemma percent_dict_Lit_run s fmt r t :
  percent_dict fmt r = (Return t, r) ->
  percent_dict (Lit s :: fmt) r = (Return (s +:+ t), r).
Proof. intros H. cbn. rewrite (bind_run _ _ _ _ _ H). reflexivity. Qed.

Lemma percent_dict_Field_run name v fmt r t :
  attr name r = Some v ->
  percent_dict fmt r = (Return t, r) ->
  percent_dict (Field name :: fmt) r = (Return (str v +:+ t), r).
Proof. intros Ha H. cbn. rewrite Ha, (bind_run _ _ _ _ _ H). reflexivity. Qed.

Lemma percent_dict_gcp r fm ls ts ss sls hs :
  attr "_formatted_msg" r = Some fm ->
  attr "_labels_str" r = Some ls ->
  attr "_trace_str" r = Some ts ->
  attr "_span_id_str" r = Some ss ->
  attr "_source_location_str" r = Some sls ->
  attr "_http_request_str" r = Some hs ->
  percent_dict GCP_FORMAT r =
  (Return (gcp_line (str fm) (str (levelname r)) (str ls) (str ts) (str ss)
                    (str sls) (str hs)), r).
Proof.
  intros Hfm Hls Hts Hss Hsls Hhs.
  pose proof (proj1 (proj2 (proj2 (std_attrs r)))) as Hlv.
  unfold GCP_FORMAT. cbn [app].
  etransitivity.
  - repeat first
      [ eapply percent_dict_Lit_run
      | eapply percent_dict_Field_run; [eassumption|] ].
    reflexivity.
  - reflexivity.
Qed.

(** [formatMessage] returns what [%] returns, and turns its [KeyError]
    into a [ValueError]. *)
Lemma formatMessage_run fmt r t r' :
  percent_dict fmt r = (Return t, r') -> formatMessage fmt r = (Return t, r').
Proof. intros H. unfold formatMessage, try_except. rewrite H. reflexivity. Qed.

Lemma formatMessage_missing fmt r r' :
  percent_dict fmt r = (Raise KeyError, r') ->
  formatMessage fmt r = (Raise ValueError, r').
Proof. intros H. unfold formatMessage, try_except. rewrite H. reflexivity. Qed.

Lemma with_text_falsy s t : truthy t = false -> with_text s t = s.
Proof. unfold with_text. intros ->. reflexivity. Qed.

Lemma set_attr_exc_text_same r : set_attr "exc_text" (exc_text r) r = r.
Proof. destruct r. reflexivity. Qed.

Section FormatterRuns.
Context {host : Host}.

Lemma getMessage_run r : getMessage r = (message_of r, r).
Proof.
  unfold getMessage, message_of.
  rewrite bind_getattr, (proj1 (std_attrs r)).
  rewrite bind_getattr, (proj1 (proj2 (std_attrs r))).
  destruct (truthy (args r)); reflexivity.
Qed.

(** Appending a text that is empty or a string never raises. *)
Lemma append_text_run {B} s t (k : string -> M B) r :
  text_or_empty t ->
  bind (if truthy t
        then str_add (if ends_with_newline s then s else s +:+ newline) t
        else ret s) k r
  = k (with_text s t) r.
Proof.
  intros [Hf | [t' ->]]; unfold with_text.
  - rewrite Hf. reflexivity.
  - destruct (truthy (PStr t')); reflexivity.
Qed.

Lemma text_or_empty_cached r :
  text_or_empty (exc_text r) -> text_or_empty (cached_exc_text r).
Proof.
  unfold cached_exc_text. intros H.
  destruct (truthy (exc_info r) && negb (truthy (exc_text r))); [|done].
  right. eauto.
Qed.

(** [Formatter.format] on a record whose message renders and whose texts
    are strings: the formatted fields, then the exception text, then the
    stack. *)
Lemma Formatter_format_run fmt r s body :
  message_of r = Return s ->
  usesTime fmt = false ->
  percent_dict fmt (set_attr "message" (PStr s) r) =
    (Return body, set_attr "message" (PStr s) r) ->
  text_or_empty (exc_text r) ->
  text_or_empty (stack_info r) ->
  Formatter_format fmt r =
  (Return (with_text (with_text body (cached_exc_text r)) (stack_info r)),
   set_attr "exc_text" (cached_exc_text r) (set_attr "message" (PStr s) r)).
Proof.
  intros Hm Hut Hbody Het Hsi. unfold Formatter_format.
  pose proof (getMessage_run r) as Hg. rewrite Hm in Hg.
  rewrite (bind_run _ _ _ _ _ Hg), bind_setattr, Hut, bind_ret.
  set (r1 := set_attr "message" (PStr s) r).
  destruct (field_set_attr "message" (PStr s) r eq_refl)
    as (_ & _ & _ & _ & _ & _ & Hei & Hex & Hst).
  fold r1 in Hei, Hex, Hst, Hbody.
  rewrite (bind_run _ _ _ _ _ (formatMessage_run _ _ _ _ Hbody)).
  rewrite bind_getattr.
  destruct (std_attrs r1) as (_ & _ & _ & _ & _ & _ & Aei & Aet & Asi).
  rewrite Aei, Hei.
  assert (Hc : forall (k : unit -> M string),
    bind (if truthy (exc_info r)
          then bind (getattr "exc_text") (fun et =>
                 if negb (truthy et)
                 then setattr "exc_text" (PStr (formatException (exc_info r)))
                 else ret tt)
          else ret tt) k r1
    = k tt (set_attr "exc_text" (cached_exc_text r) r1)).
  { intros k. unfold cached_exc_text.
    destruct (truthy (exc_info r)); cbn [andb].
    - rewrite bind_bind, bind_getattr, Aet, Hex.
      destruct (truthy (exc_text r)); cbn [negb].
      + rewrite bind_ret, <- Hex, set_attr_exc_text_same. reflexivity.
      + rewrite bind_setattr. reflexivity.
    - rewrite bind_ret, <- Hex, set_attr_exc_text_same. reflexivity. }
  rewrite Hc. clear Hc.
  set (r2 := set_attr "exc_text" (cached_exc_text r) r1).
  rewrite bind_getattr.
  assert (Aet2 : attr "exc_text" r2 = Some (cached_exc_text r))
    by apply attr_set_attr_eq.
  rewrite Aet2.
  rewrite append_text_run by (apply text_or_empty_cached; done).
  rewrite bind_getattr.
  assert (Asi2 : attr "stack_info" r2 = Some (stack_info r)).
  { unfold r2. rewrite attr_set_attr_ne by reflexivity. rewrite Asi, Hst. done. }
  rewrite Asi2.
  rewrite append_text_run by done.
  reflexivity.
Qed.

End FormatterRuns.

Lemma append_nil_r s : s +:+ "" = s.
Proof.
  induction s as [|c s IH]; [reflexivity|].
  change (String c (s +:+ "") = String c s). f_equal. exact IH.
Qed.

Lemma append_assoc s t u : (s +:+ t) +:+ u = s +:+ (t +:+ u).
Proof.
  induction s as [|c s IH]; [reflexivity|].
  change (String c ((s +:+ t) +:+ u) = String c (s +:+ (t +:+ u))).
  f_equal. exact IH.
Qed.

(** ** The handler in closed form *)

(** A constructor attribute of [r'] and of [r] is the same when reading it
    by name gives the same. *)
Ltac same_field r' r name :=
  let H := fresh in
  assert (H : attr name r' = attr name r)
    by (unfold r'; attr_simpl; reflexivity);
  cbn [attr String.eqb Ascii.eqb Bool.eqb] in H;
  injection H; trivial.

Section HandlerRuns.
Context {host : Host}.

(** The end of [format], from the assignment of [_formatted_msg] on. *)
Lemma format_tail fm r s ls ts ss sls hs :
  message_of r = Return s ->
  text_or_empty (stack_info r) ->
  attr "_labels_str" r = Some ls ->
  attr "_trace_str" r = Some ts ->
  attr "_span_id_str" r = Some ss ->
  attr "_source_location_str" r = Some sls ->
  attr "_http_request_str" r = Some hs ->
  exists r',
    (setattr "_formatted_msg" fm ;;
     setattr "exc_info" PNone ;;
     setattr "exc_text" PNone ;;
     gcp_payload <- Formatter_format GCP_FORMAT ;;
     ret gcp_payload) r
    = (Return (with_text (gcp_line (str fm) (str (levelname r)) (str ls) (str ts)
                                   (str ss) (str sls) (str hs)) (stack_info r)),
       r')
    /\ attr "_formatted_msg" r' = Some fm.
Proof.
  intros Hm Hsi Hls Hts Hss Hsls Hhs.
  rewrite !bind_setattr.
  set (r3 := set_attr "exc_text" PNone
               (set_attr "exc_info" PNone (set_attr "_formatted_msg" fm r))).
  assert (Fm : msg r3 = msg r) by same_field r3 r "msg".
  assert (Fa : args r3 = args r) by same_field r3 r "args".
  assert (Fl : levelname r3 = levelname r) by same_field r3 r "levelname".
  assert (Fs : stack_info r3 = stack_info r) by same_field r3 r "stack_info".
  assert (Fei : exc_info r3 = PNone).
  { assert (H : attr "exc_info" r3 = Some PNone) by (unfold r3; attr_simpl; done).
    cbn [attr String.eqb Ascii.eqb Bool.eqb] in H. injection H; trivial. }
  assert (Fet : exc_text r3 = PNone).
  { assert (H : attr "exc_text" r3 = Some PNone) by (unfold r3; attr_simpl; done).
    cbn [attr String.eqb Ascii.eqb Bool.eqb] in H. injection H; trivial. }
  assert (Hm3 : message_of r3 = Return s).
  { unfold message_of in *. rewrite Fm, Fa. exact Hm. }
  assert (Hc : cached_exc_text r3 = PNone).
  { unfold cached_exc_text. rewrite Fei, Fet. reflexivity. }
  assert (Hrun : Formatter_format GCP_FORMAT r3 =
    (Return (with_text (gcp_line (str fm) (str (levelname r)) (str ls) (str ts)
                                 (str ss) (str sls) (str hs)) (stack_info r)),
     set_attr "exc_text" PNone (set_attr "message" (PStr s) r3))).
  { rewrite (Formatter_format_run GCP_FORMAT r3 s
               (gcp_line (str fm) (str (levelname r)) (str ls) (str ts)
                         (str ss) (str sls) (str hs))).
    - rewrite Hc, Fs. rewrite (with_text_falsy _ PNone) by reflexivity.
      reflexivity.
    - exact Hm3.
    - reflexivity.
    - erewrite percent_dict_gcp.
      + destruct (field_set_attr "message" (PStr s) r3 eq_refl)
          as (_ & _ & -> & _). rewrite Fl. reflexivity.
      + unfold r3. attr_simpl. reflexivity.
      + unfold r3. attr_simpl. exact Hls.
      + unfold r3. attr_simpl. exact Hts.
      + unfold r3. attr_simpl. exact Hss.
      + unfold r3. attr_simpl. exact Hsls.
      + unfold r3. attr_simpl. exact Hhs.
    - rewrite Fet. left. reflexivity.
    - rewrite Fs. exact Hsi. }
  eexists. split.
  - rewrite (bind_run _ _ _ _ _ Hrun). reflexivity.
  - unfold r3. attr_simpl. reflexivity.
Qed.

Lemma format_run self r s ls ts ss sls hs :
  StructuredLogHandler.formatter self = None ->
  StructuredLogHandler._gcp_formatter self = GCP_FORMAT ->
  message_of r = Return s ->
  text_or_empty (exc_text r) ->
  text_or_empty (stack_info r) ->
  attr "_labels_str" r = Some ls ->
  attr "_trace_str" r = Some ts ->
  attr "_span_id_str" r = Some ss ->
  attr "_source_location_str" r = Some sls ->
  attr "_http_request_str" r = Some hs ->
  exists r',
    StructuredLogHandler.format self r
    = (Return (with_text
                 (gcp_line (Json.dumps (PStr (payload_of r s)))
                           (str (levelname r)) (str ls) (str ts) (str ss)
                           (str sls) (str hs)) (stack_info r)), r')
    /\ attr "_formatted_msg" r' = Some (PStr (Json.dumps (PStr (payload_of r s)))).
Proof.
  intros Hf Hg Hm Het Hsi Hls Hts Hss Hsls Hhs.
  unfold StructuredLogHandler.format. rewrite Hf, Hg.
  rewrite bind_getattr, (proj1 (std_attrs r)).
  unfold payload_of.
  destruct (truthy (msg r)) eqn:Hmsg.
  - rewrite bind_bind. unfold Handler_format.
    set (r1 := set_attr "message" (PStr s) r).
    assert (Hb : percent_dict BASIC_FORMAT r1 = (Return s, r1)).
    { pose proof (percent_dict_Field_run "message" (PStr s) [] r1 "") as H.
      cbn [str] in H. rewrite append_nil_r in H. apply H; [|reflexivity].
      unfold r1. attr_simpl. reflexivity. }
    rewrite (bind_run _ _ _ _ _
               (Formatter_format_run BASIC_FORMAT r s s Hm eq_refl Hb Het Hsi)).
    rewrite bind_ret. fold r1.
    set (r2 := set_attr "exc_text" (cached_exc_text r) r1).
    rewrite or_str.
    assert (Fm : msg r2 = msg r) by (unfold r1 in r2; same_field r2 r "msg").
    assert (Fa : args r2 = args r) by (unfold r1 in r2; same_field r2 r "args").
    assert (Fl : levelname r2 = levelname r)
      by (unfold r1 in r2; same_field r2 r "levelname").
    assert (Fs : stack_info r2 = stack_info r)
      by (unfold r1 in r2; same_field r2 r "stack_info").
    destruct (format_tail
                (PStr (Json.dumps (PStr (with_text (with_text s (cached_exc_text r))
                                                   (stack_info r)))))
                r2 s ls ts ss sls hs) as (r' & Hrun & Hattr).
    + unfold message_of in *. rewrite Fm, Fa. exact Hm.
    + rewrite Fs. exact Hsi.
    + unfold r2, r1. attr_simpl. exact Hls.
    + unfold r2, r1. attr_simpl. exact Hts.
    + unfold r2, r1. attr_simpl. exact Hss.
    + unfold r2, r1. attr_simpl. exact Hsls.
    + unfold r2, r1. attr_simpl. exact Hhs.
    + exists r'. rewrite Fl, Fs in Hrun. split; assumption.
  - rewrite bind_ret.
    destruct (format_tail (PStr (Json.dumps (PStr ""))) r s ls ts ss sls hs)
      as (r' & Hrun & Hattr); try assumption.
    exists r'. split; assumption.
Qed.

(** [emit], as [handle] calls it, once [format] has returned or raised. *)
Lemma emit_written (format : M string) r line r' :
  format r = (Return line, r') ->
  (done <- StreamHandler_emit format ;; ret (Some done)) r
  = (written (line +:+ newline), r').
Proof.
  intros H. unfold StreamHandler_emit, try_except, bind, lift, written, handled.
  rewrite H. destruct (stream_write (line +:+ newline)) as [[]|[]]; reflexivity.
Qed.

Lemma emit_raised (format : M string) r e r' :
  format r = (Raise e, r') ->
  (done <- StreamHandler_emit format ;; ret (Some done)) r = (handled e, r').
Proof.
  intros H. unfold StreamHandler_emit, try_except, bind, handled.
  rewrite H. destruct e; reflexivity.
Qed.

(** The master equation: on a record whose labels merge and whose message
    renders, the handler passes [line_of] and a newline to the stream. *)
Lemma handle_writes labels pid r v s :
  unpack (CloudLoggingFilter.default_labels
            (CloudLoggingFilter.__init__ pid labels)) (user_labels r) = Return v ->
  message_of r = Return s ->
  text_or_empty (exc_text r) ->
  text_or_empty (stack_info r) ->
  exists r',
    StructuredLogHandler.handle (StructuredLogHandler.__init__ labels pid) r
    = (written (line_of r v s +:+ newline), r') /\
    attr "_formatted_msg" r' = Some (PStr (Json.dumps (PStr (payload_of r s)))).
Proof.
  intros Hu Hm Het Hsi.
  unfold StructuredLogHandler.handle, Handler_handle.
  cbn [StructuredLogHandler.__init__ StructuredLogHandler.filters map
       Filterer_filter].
  rewrite !bind_bind.
  pose proof (filter_run (CloudLoggingFilter.__init__ pid labels) r) as Hfr.
  rewrite Hu in Hfr.
  rewrite (bind_run _ _ _ _ _ Hfr). cbv beta iota.
  rewrite !bind_ret.
  set (r1 := all_assigned PNone PNone PNone v r).
  destruct (attrs_all_assigned PNone PNone PNone v r)
    as (_ & _ & _ & _ & _ & _ & Hts & Hss & Hhs & Hsls & Hls & _).
  destruct (fields_all_assigned PNone PNone PNone v r)
    as (Fm & Fa & Fl & _ & _ & _ & Fei & Fet & Fs).
  fold r1 in Hts, Hss, Hhs, Hsls, Hls, Fm, Fa, Fl, Fei, Fet, Fs.
  assert (Hm1 : message_of r1 = Return s).
  { unfold message_of in *. rewrite Fm, Fa. exact Hm. }
  assert (Het1 : text_or_empty (exc_text r1)) by (rewrite Fet; exact Het).
  assert (Hsi1 : text_or_empty (stack_info r1)) by (rewrite Fs; exact Hsi).
  destruct (format_run (StructuredLogHandler.__init__ labels pid) r1 s
              _ _ _ _ _ eq_refl eq_refl Hm1 Het1 Hsi1 Hls Hts Hss Hsls Hhs)
    as (r' & Hrun & Hfm).
  assert (Hp : payload_of r1 s = payload_of r s).
  { unfold payload_of, cached_exc_text. rewrite Fm, Fs, Fei, Fet. reflexivity. }
  rewrite Hp in Hrun, Hfm.
  exists r'. split; [|exact Hfm].
  rewrite (emit_written _ _ _ _ Hrun).
  unfold line_of. rewrite Fl, Fs. reflexivity.
Qed.

End HandlerRuns.

(** ** Computations that cannot tell two records apart *)

Lemma same_except_refl names r : same_except names r r.
Proof. intros n _. reflexivity. Qed.

Lemma same_except_weaken names names' r1 r2 :
  (forall n, n ∈ names -> n ∈ names') ->
  same_except names r1 r2 -> same_except names' r1 r2.
Proof. intros Hsub H n Hn. apply H. intros Hin. apply Hn, Hsub, Hin. Qed.

Lemma same_except_set_attr names n v r1 r2 :
  same_except names r1 r2 -> same_except names (set_attr n v r1) (set_attr n v r2).
Proof.
  intros H n' Hn'. rewrite !attr_set_attr.
  destruct (String.eqb n' n); [reflexivity|]. apply H, Hn'.
Qed.

(** Assigning an attribute whose name is excepted, to any two values. *)
Lemma same_except_set_excepted names n v1 v2 r1 r2 :
  n ∈ names ->
  same_except names r1 r2 -> same_except names (set_attr n v1 r1) (set_attr n v2 r2).
Proof.
  intros Hin H n' Hn'. rewrite !attr_set_attr.
  destruct (String.eqb_spec n' n); [subst; contradiction|]. apply H, Hn'.
Qed.

Section Respects.
Context (names : list string).

Lemma respects_ret {A} (a : A) : respects names (ret a).
Proof. intros r1 r2 H. split; [reflexivity|exact H]. Qed.

Lemma respects_raise {A} e : respects names (@raise A e).
Proof. intros r1 r2 H. split; [reflexivity|exact H]. Qed.

Lemma respects_lift {A} (o : outcome A) : respects names (lift o).
Proof. intros r1 r2 H. split; [reflexivity|exact H]. Qed.

Lemma respects_bind {A B} (c : M A) (k : A -> M B) :
  respects names c -> (forall a, respects names (k a)) ->
  respects names (bind c k).
Proof.
  intros Hc Hk r1 r2 H. destruct (Hc r1 r2 H) as [Hv Hs]. unfold bind.
  destruct (c r1) as [[a1|e1] r1'], (c r2) as [[a2|e2] r2']; cbn in Hv, Hs;
    try discriminate.
  - injection Hv as ->. apply Hk, Hs.
  - injection Hv as ->. split; [reflexivity|exact Hs].
Qed.

Lemma respects_try_except {A} (c : M A) (h : exn -> M A) :
  respects names c -> (forall e, respects names (h e)) ->
  respects names (try_except c h).
Proof.
  intros Hc Hh r1 r2 H. destruct (Hc r1 r2 H) as [Hv Hs]. unfold try_except.
  destruct (c r1) as [[a1|e1] r1'], (c r2) as [[a2|e2] r2']; cbn in Hv, Hs;
    try discriminate.
  - split; [exact Hv|exact Hs].
  - injection Hv as ->. apply Hh, Hs.
Qed.

Lemma respects_getattr n : n ∉ names -> respects names (getattr n).
Proof.
  intros Hn r1 r2 H. unfold getattr. rewrite (H n Hn).
  destruct (attr n r2); (split; [reflexivity|exact H]).
Qed.

Lemma respects_getattr_d n d : n ∉ names -> respects names (getattr_d n d).
Proof.
  intros Hn r1 r2 H. unfold getattr_d. rewrite (H n Hn).
  split; [reflexivity|exact H].
Qed.

Lemma respects_hasattr n : n ∉ names -> respects names (hasattr n).
Proof.
  intros Hn r1 r2 H. unfold hasattr. rewrite (H n Hn).
  split; [reflexivity|exact H].
Qed.

Lemma respects_setattr n v : respects names (setattr n v).
Proof.
  intros r1 r2 H. split; [reflexivity|]. apply same_except_set_attr, H.
Qed.

Lemma respects_str_add s t : respects names (str_add s t).
Proof. destruct t; first [apply respects_ret | apply respects_raise]. Qed.

(** The names a format string reads. *)
Lemma respects_percent_dict fmt :
  (forall n, In (Field n) fmt -> n ∉ names) -> respects names (percent_dict fmt).
Proof.
  induction fmt as [|[s|n] fmt IH]; intros Hf; cbn [percent_dict].
  - apply respects_ret.
  - apply respects_bind; [|intros; apply respects_ret].
    apply IH. intros n Hn. apply Hf. right. exact Hn.
  - intros r1 r2 H. rewrite (H n) by (apply Hf; left; reflexivity).
    destruct (attr n r2); [|split; [reflexivity|exact H]].
    revert r1 r2 H. apply respects_bind; [|intros; apply respects_ret].
    apply IH. intros n' Hn'. apply Hf. right. exact Hn'.
Qed.

Lemma respects_formatMessage fmt :
  (forall n, In (Field n) fmt -> n ∉ names) -> respects names (formatMessage fmt).
Proof.
  intros Hf. unfold formatMessage.
  apply respects_try_except; [apply respects_percent_dict, Hf|].
  intros e. destruct e; apply respects_raise.
Qed.

End Respects.

(** ** The resource is not looked at *)

Ltac not_in :=
  let H := fresh in
  intros H;
  repeat (apply elem_of_cons in H as [H|H]; [discriminate H|]);
  apply elem_of_nil in H; exact H.

Ltac respects_step :=
  first
    [ apply respects_ret
    | apply respects_raise
    | apply respects_lift
    | apply respects_setattr
    | apply respects_str_add
    | apply respects_getattr; not_in
    | apply respects_getattr_d; not_in
    | apply respects_hasattr; not_in
    | apply respects_bind; [|intros ?]
    | match goal with
      | |- respects _ (if ?b then _ else _) => destruct b
      | |- respects _ (match ?o with Some _ => _ | None => _ end) => destruct o
      end ].

Section ResourceUnread.
Context {host : Host}.

Lemma respects_getMessage : respects resource_names getMessage.
Proof. unfold getMessage. repeat respects_step. Qed.

Lemma respects_Formatter_format fmt :
  usesTime fmt = false ->
  (forall n, In (Field n) fmt -> n ∉ resource_names) ->
  respects resource_names (Formatter_format fmt).
Proof.
  intros Hut Hf. unfold Formatter_format. rewrite Hut.
  repeat first
    [ apply respects_getMessage
    | apply respects_formatMessage; exact Hf
    | respects_step ].
Qed.

Lemma fields_basic n : In (Field n) BASIC_FORMAT -> n ∉ resource_names.
Proof. intros [H|[]]. injection H as <-. not_in. Qed.

Lemma fields_gcp n : In (Field n) GCP_FORMAT -> n ∉ resource_names.
Proof.
  unfold GCP_FORMAT. cbn [app In]. intros H.
  repeat (destruct H as [H|H]; [first [discriminate H | injection H as <-; not_in]|]).
  destruct H.
Qed.

Lemma respects_format labels pid :
  respects resource_names
    (StructuredLogHandler.format (StructuredLogHandler.__init__ labels pid)).
Proof.
  unfold StructuredLogHandler.format.
  cbn [StructuredLogHandler.__init__ StructuredLogHandler.formatter
       StructuredLogHandler._gcp_formatter Handler_format].
  repeat first
    [ apply respects_Formatter_format;
      [reflexivity | first [apply fields_basic | apply fields_gcp]]
    | respects_step ].
Qed.

End ResourceUnread.

(** Records that agree outside [resource_names] get the same derived
    values, [_resource] apart. *)
Lemma derived_same r1 r2 ih it isp :
  same_except resource_names r1 r2 ->
  msg r1 = msg r2 /\ user_labels r1 = user_labels r2 /\
  derived_trace it r1 = derived_trace it r2 /\
  derived_span_id isp r1 = derived_span_id isp r2 /\
  derived_http ih r1 = derived_http ih r2 /\
  derived_location r1 = derived_location r2 /\
  derived_msg_str r1 = derived_msg_str r2.
Proof.
  intros H.
  assert (Hm : msg r1 = msg r2).
  { pose proof (H "msg" ltac:(not_in)) as E. injection E. trivial. }
  assert (Hl : lineno r1 = lineno r2).
  { pose proof (H "lineno" ltac:(not_in)) as E. injection E. trivial. }
  assert (Hp : pathname r1 = pathname r2).
  { pose proof (H "pathname" ltac:(not_in)) as E. injection E. trivial. }
  assert (Hf : funcName r1 = funcName r2).
  { pose proof (H "funcName" ltac:(not_in)) as E. injection E. trivial. }
  unfold user_labels, derived_trace, derived_span_id, derived_http,
    derived_location, location_of_fields, derived_msg_str.
  rewrite (H "labels") by not_in. rewrite (H "trace") by not_in.
  rewrite (H "span_id") by not_in. rewrite (H "http_request") by not_in.
  rewrite (H "source_location") by not_in.
  rewrite Hm, Hl, Hp, Hf. repeat split.
Qed.

Lemma same_except_raw_assigned r1 r2 ih it isp :
  same_except resource_names r1 r2 ->
  same_except resource_names (raw_assigned ih it isp r1) (raw_assigned ih it isp r2).
Proof.
  intros H. destruct (derived_same r1 r2 ih it isp H)
    as (_ & _ & Ht & Hs & Hh & Hl & _).
  unfold raw_assigned. rewrite Ht, Hs, Hh, Hl.
  repeat apply same_except_set_attr.
  apply same_except_set_excepted; [|exact H].
  right. left.
Qed.

Lemma same_except_all_assigned r1 r2 ih it isp v :
  same_except resource_names r1 r2 ->
  same_except resource_names (all_assigned ih it isp v r1)
                             (all_assigned ih it isp v r2).
Proof.
  intros H. destruct (derived_same r1 r2 ih it isp H)
    as (_ & _ & Ht & Hs & Hh & Hl & Hm).
  unfold all_assigned. rewrite Ht, Hs, Hh, Hl, Hm.
  repeat apply same_except_set_attr.
  apply same_except_raw_assigned, H.
Qed.

Lemma respects_filter self :
  respects resource_names (CloudLoggingFilter.filter self).
Proof.
  intros r1 r2 H. rewrite !filter_run.
  destruct (derived_same r1 r2 PNone PNone PNone H) as (_ & -> & _).
  destruct (unpack (CloudLoggingFilter.default_labels self) (user_labels r2)).
  - split; [reflexivity|]. apply same_except_all_assigned, H.
  - split; [reflexivity|]. apply same_except_raw_assigned, H.
Qed.

Section HandleUnread.
Context {host : Host}.

Lemma respects_handle labels pid :
  respects resource_names
    (StructuredLogHandler.handle (StructuredLogHandler.__init__ labels pid)).
Proof.
  unfold StructuredLogHandler.handle, Handler_handle, StreamHandler_emit.
  cbn [StructuredLogHandler.__init__ StructuredLogHandler.filters map
       Filterer_filter].
  repeat first
    [ apply respects_filter
    | apply respects_format
    | apply respects_try_except; [|intros e; destruct e]
    | respects_step ].
Qed.

End HandleUnread.

(** ** Running the filter again *)

Lemma derived_all_assigned ih it isp v r ih' it' isp' :
  let r' := all_assigned ih it isp v r in
  user_labels r' = user_labels r /\
  derived_resource r' = derived_resource r /\
  derived_trace it' r' = derived_trace it' r /\
  derived_span_id isp' r' = derived_span_id isp' r /\
  derived_http ih' r' = derived_http ih' r /\
  derived_location r' = derived_location r /\
  derived_msg_str r' = derived_msg_str r.
Proof.
  cbv zeta.
  destruct (fields_all_assigned ih it isp v r) as (Fm & _).
  unfold derived_msg_str at 1. rewrite Fm. fold (derived_msg_str r).
  unfold user_labels, derived_resource, derived_trace, derived_span_id,
    derived_http, all_assigned, raw_assigned.
  attr_simpl. repeat split.
Qed.

(** Twelve assignments made twice are the twelve assignments. *)
Lemma assignments_twice (x : gmap string pyval) a b c d e f g h i j k l :
  let assign (y : gmap string pyval) :=
    <["_msg_str" := a]> (<["_labels_str" := b]> (<["_source_location_str" := c]>
    (<["_http_request_str" := d]> (<["_span_id_str" := e]> (<["_trace_str" := f]>
    (<["_labels" := g]> (<["_source_location" := h]> (<["_http_request" := i]>
    (<["_span_id" := j]> (<["_trace" := k]> (<["_resource" := l]> y))))))))))) in
  assign (assign x) = assign x.
Proof.
  cbv zeta. apply map_eq. intros n.
  rewrite !lookup_insert. repeat case_decide; reflexivity.
Qed.

Lemma all_assigned_extra ih it isp v r :
  all_assigned ih it isp v r =
  with_extra
    (<["_msg_str" := derived_msg_str r]>
    (<["_labels_str" := PStr (Json.dumps (or_ (or_ v PNone) (PDict [])))]>
    (<["_source_location_str" :=
         PStr (Json.dumps (or_ (derived_location r) (PDict [])))]>
    (<["_http_request_str" := PStr (Json.dumps (or_ (derived_http ih r) (PDict [])))]>
    (<["_span_id_str" := or_ (derived_span_id isp r) (PStr "")]>
    (<["_trace_str" := or_ (derived_trace it r) (PStr "")]>
    (<["_labels" := or_ v PNone]>
    (<["_source_location" := derived_location r]>
    (<["_http_request" := derived_http ih r]>
    (<["_span_id" := derived_span_id isp r]>
    (<["_trace" := derived_trace it r]>
    (<["_resource" := derived_resource r]> (extra r))))))))))))) r.
Proof.
  unfold all_assigned, raw_assigned.
  repeat match goal with
         | |- context [set_attr ?n ?x ?r0] =>
             rewrite (set_attr_extra n x r0) by reflexivity
         end.
  reflexivity.
Qed.

Lemma all_assigned_twice ih it isp v r :
  all_assigned ih it isp v (all_assigned ih it isp v r) = all_assigned ih it isp v r.
Proof.
  rewrite (all_assigned_extra ih it isp v (all_assigned ih it isp v r)).
  destruct (derived_all_assigned ih it isp v r ih it isp)
    as (_ & -> & -> & -> & -> & -> & ->).
  rewrite (all_assigned_extra ih it isp v r).
  unfold with_extra; cbn [msg args levelname pathname lineno funcName
                          exc_info exc_text stack_info extra].
  f_equal. apply assignments_twice.
Qed.

(** ** Reading back what [json.dumps] writes *)

Lemma append_cons c s t : String c s +:+ t = String c (s +:+ t).
Proof. reflexivity. Qed.

Lemma append_nil_l s : "" +:+ s = s.
Proof. reflexivity. Qed.

Ltac eval_digit :=
  match goal with
  | |- context [Json.digit_of ?c] =>
      let v := eval vm_compute in (Json.digit_of c) in
      change (Json.digit_of c) with v
  end.

Lemma read_digits_uint d rest :
  no_digit_head rest ->
  Json.read_digits (NilEmpty.string_of_uint d +:+ rest) = (d, rest).
Proof.
  intros Hr. induction d; cbn [NilEmpty.string_of_uint];
    try (rewrite append_cons; cbn [Json.read_digits]; eval_digit;
         rewrite IHd; reflexivity).
  rewrite append_nil_l.
  destruct rest as [|c rest]; [reflexivity|].
  cbn [Json.read_digits]. cbn in Hr. rewrite Hr. reflexivity.
Qed.

Lemma to_uint_no_leading_zero p d : Pos.to_uint p <> Decimal.D0 d.
Proof.
  intros H.
  assert (Hn : Decimal.unorm (Pos.to_uint p) = Pos.to_uint p).
  { pose proof (DecimalZ.to_of (Z.to_int (Z.pos p))) as E.
    rewrite DecimalZ.of_to in E. cbn in E. injection E as E. symmetry. exact E. }
  unfold Decimal.unorm in Hn.
  destruct (Decimal.nzhead (Pos.to_uint p)) eqn:Hz; rewrite H in Hn;
    try discriminate.
  - injection Hn as <-. exact (Unsigned.to_uint_nonzero p H).
  - injection Hn as ->. exact (nzhead_nonzero _ _ Hz).
Qed.

(** The digits of a positive number are read back as that number. *)
Lemma number_of_pos neg p rest :
  ends_number rest ->
  Json.number_of neg (Pos.to_uint p) rest
  = Some (PInt (if neg then Z.neg p else Z.pos p), rest).
Proof.
  intros Hr. unfold Json.number_of.
  assert (Hf : match rest with
               | String c _ => ((code c =? 46) || (code c =? 101) || (code c =? 69))%N
               | EmptyString => false
               end = false).
  { destruct rest; [reflexivity|]. apply Hr. }
  rewrite Hf.
  assert (Hv : Z.of_uint (Pos.to_uint p) = Z.pos p).
  { unfold Z.of_uint. rewrite DecimalPos.Unsigned.of_to. reflexivity. }
  rewrite Hv.
  pose proof (Unsigned.to_uint_nonnil p) as Hnil.
  pose proof (to_uint_no_leading_zero p) as Hlz.
  destruct (Pos.to_uint p) as [|d|d|d|d|d|d|d|d|d|d]; try contradiction;
    try (destruct neg; reflexivity).
  exfalso. exact (Hlz d eq_refl).
Qed.

Lemma string_of_uint_nonnil d :
  d <> Decimal.Nil -> NilZero.string_of_uint d = NilEmpty.string_of_uint d.
Proof. destruct d; [contradiction|reflexivity..]. Qed.

(** The first character of the digits of a number is not a minus sign. *)
Lemma split_sign_digits d rest :
  d <> Decimal.Nil ->
  Json.split_sign (NilEmpty.string_of_uint d +:+ rest)
  = (false, NilEmpty.string_of_uint d +:+ rest).
Proof. destruct d; [contradiction|reflexivity..]. Qed.

Lemma parse_number_str_int z rest :
  ends_number rest ->
  Json.parse_number (str_int z +:+ rest) = Some (PInt z, rest).
Proof.
  intros Hr.
  assert (Hnd : no_digit_head rest).
  { destruct rest; [exact I|]. apply Hr. }
  unfold Json.parse_number, str_int. destruct z as [|p|p]; cbn [Z.to_int NilZero.string_of_int].
  - change (NilZero.string_of_uint (Decimal.D0 Decimal.Nil))
      with (NilEmpty.string_of_uint (Decimal.D0 Decimal.Nil)).
    rewrite split_sign_digits by discriminate.
    rewrite read_digits_uint by exact Hnd.
    unfold Json.number_of.
    assert (Hf : match rest with
                 | String c _ => ((code c =? 46) || (code c =? 101) || (code c =? 69))%N
                 | EmptyString => false
                 end = false).
    { destruct rest; [reflexivity|]. apply Hr. }
    rewrite Hf. reflexivity.
  - rewrite string_of_uint_nonnil by apply Unsigned.to_uint_nonnil.
    rewrite split_sign_digits by apply Unsigned.to_uint_nonnil.
    rewrite read_digits_uint by exact Hnd.
    apply (number_of_pos false), Hr.
  - rewrite string_of_uint_nonnil by apply Unsigned.to_uint_nonnil.
    rewrite append_cons.
    change (Json.split_sign (String "-" ?s)) with (true, s).
    cbv beta iota.
    rewrite read_digits_uint by exact Hnd.
    apply (number_of_pos true), Hr.
Qed.

(** One escaped character is read back as the character. *)
Lemma parse_chars_escape_char c t :
  Json.parse_chars (Json.escape_char c +:+ t)
  = match Json.parse_chars t with
    | Some (u, rest) => Some (String c u, rest)
    | None => None
    end.
Proof.
  destruct c as [[] [] [] [] [] [] [] []]; reflexivity.
Qed.

Lemma parse_chars_escape s rest :
  Json.parse_chars (Json.escape s +:+ String dquote rest) = Some (s, rest).
Proof.
  induction s as [|c s IH]; [reflexivity|].
  cbn [Json.escape]. rewrite append_assoc, parse_chars_escape_char, IH.
  reflexivity.
Qed.

Lemma dumps_str_append s rest :
  Json.dumps_str s +:+ rest = String dquote (Json.escape s +:+ String dquote rest).
Proof.
  unfold Json.dumps_str. rewrite append_cons, append_assoc. reflexivity.
Qed.

(** *** Values *)

(** An induction principle that reaches the values inside lists and
    dictionaries. *)
Lemma pyval_nested_ind (P : pyval -> Prop) :
  P PNone -> (forall b, P (PBool b)) -> (forall z, P (PInt z)) ->
  (forall s, P (PStr s)) ->
  (forall l, Forall P l -> P (PList l)) ->
  (forall d, Forall (fun kv => P kv.2) d -> P (PDict d)) ->
  forall v, P v.
Proof.
  intros HN HB HI HS HL HD.
  fix IH 1. intros [ |b|z|s|l|d].
  - exact HN.
  - apply HB.
  - apply HI.
  - apply HS.
  - apply HL. induction l as [|x l IHl]; constructor; [apply IH|exact IHl].
  - apply HD. induction d as [|[k x] d IHd]; constructor; [apply IH|exact IHd].
Qed.

Lemma dumps_list x l :
  Json.dumps (PList (x :: l)) = "[" +:+ Json.dumps x +:+ more_items l +:+ "]".
Proof.
  cbn [Json.dumps]. rewrite append_assoc. reflexivity.
Qed.

Lemma dumps_dict k x d :
  Json.dumps (PDict ((k, x) :: d))
  = "{" +:+ Json.dumps_str k +:+ ": " +:+ Json.dumps x +:+ more_members d +:+ "}".
Proof.
  cbn [Json.dumps]. rewrite !append_assoc. reflexivity.
Qed.

Lemma string_of_uint_head d rest :
  d <> Decimal.Nil -> number_head (NilEmpty.string_of_uint d +:+ rest).
Proof.
  destruct d; [contradiction|..]; intros _; left; discriminate.
Qed.

Lemma str_int_head z rest : number_head (str_int z +:+ rest).
Proof.
  unfold str_int. destruct z as [|p|p]; cbn [Z.to_int NilZero.string_of_int].
  - left. discriminate.
  - rewrite string_of_uint_nonnil by apply Unsigned.to_uint_nonnil.
    apply string_of_uint_head, Unsigned.to_uint_nonnil.
  - right. reflexivity.
Qed.

Lemma number_head_value_head s : number_head s -> value_head s.
Proof.
  destruct s as [|c s]; [contradiction|]. cbn.
  destruct c as [[] [] [] [] [] [] [] []]; intros [H|H];
    first [ split; reflexivity
          | exfalso; apply H; reflexivity
          | discriminate H ].
Qed.

Lemma dumps_head v rest : value_head (Json.dumps v +:+ rest).
Proof.
  destruct v as [ |[]|z|s|[|x l]|[|[k x] d]]; try (split; reflexivity).
  apply number_head_value_head, str_int_head.
Qed.

Lemma skip_ws_value s : value_head s -> Json.skip_ws s = s.
Proof.
  destruct s as [|c s]; [contradiction|]. intros [Hws _].
  cbn [Json.skip_ws]. rewrite Hws. reflexivity.
Qed.

(** A text that starts like a number is read as a number. *)
Lemma parse_value_number n s :
  number_head s -> Json.parse_value (S n) s = Json.parse_number s.
Proof.
  destruct s as [|c s]; [contradiction|]. cbn [number_head].
  destruct c as [[] [] [] [] [] [] [] []]; intros [H|H];
    first [ reflexivity
          | exfalso; apply H; reflexivity
          | discriminate H ].
Qed.

Lemma parse_value_space n s :
  Json.parse_value n (String " " s) = Json.parse_value n s.
Proof. destruct n; reflexivity. Qed.

Lemma parse_elements_space n s :
  Json.parse_elements n (String " " s) = Json.parse_elements n s.
Proof.
  destruct n; [reflexivity|].
  cbn [Json.parse_elements]. rewrite parse_value_space. reflexivity.
Qed.

Lemma parse_members_space n s :
  Json.parse_members n (String " " s) = Json.parse_members n s.
Proof. destruct n; reflexivity. Qed.

(** The texts that may follow a value inside an array or an object end a
    number. *)
Lemma ends_number_more_items l rest : ends_number (more_items l +:+ "]" +:+ rest).
Proof. destruct l; split; reflexivity. Qed.

Lemma ends_number_more_members d pad rest :
  ends_number (more_members d +:+ closing pad +:+ rest).
Proof. destruct d as [|[k x] d], pad; split; reflexivity. Qed.

Lemma parse_elements_dumps l : forall x n rest,
  Forall reads_back (x :: l) ->
  list_sum (map (fun y => S (weight y)) (x :: l)) <= n ->
  Json.parse_elements n (Json.dumps x +:+ more_items l +:+ "]" +:+ rest)
  = Some (x :: l, rest).
Proof.
  induction l as [|y l IH]; intros x n rest Hall Hn.
  - apply Forall_cons in Hall as [Hx _]. cbn [map list_sum fold_right] in Hn.
    destruct n as [|n]; [lia|].
    cbn [Json.parse_elements].
    rewrite (Hx n) by (first [lia | apply ends_number_more_items]).
    reflexivity.
  - apply Forall_cons in Hall as [Hx Hall]. cbn [map list_sum fold_right] in Hn.
    destruct n as [|n]; [lia|].
    cbn [Json.parse_elements].
    rewrite (Hx n) by (first [lia | apply ends_number_more_items]).
    cbn [more_items]. rewrite !append_assoc.
    change (", " +:+ ?t) with (String "," (String " " t)).
    cbn [Json.skip_ws]. change (Json.is_ws ",") with false. cbv iota.
    change (code "," =? 93)%N with false. change (code "," =? 44)%N with true.
    cbv iota. rewrite parse_elements_space.
    rewrite (IH y n rest Hall) by (cbn [map list_sum fold_right]; lia).
    reflexivity.
Qed.

Lemma parse_members_dumps d : forall k x n pad rest,
  Forall (fun kv => reads_back kv.2) ((k, x) :: d) ->
  list_sum (map (fun kv : string * pyval => S (weight kv.2)) ((k, x) :: d)) <= n ->
  Json.parse_members n
    (Json.dumps_str k +:+ ": " +:+ Json.dumps x +:+ more_members d
       +:+ closing pad +:+ rest)
  = Some ((k, x) :: d, rest).
Proof.
  induction d as [|[k' y] d IH]; intros k x n pad rest Hall Hn;
    apply Forall_cons in Hall as [Hx Hall];
    cbn [map list_sum fold_right snd] in Hn;
    (destruct n as [|n]; [lia|]);
    rewrite dumps_str_append;
    cbn [Json.parse_members Json.skip_ws];
    change (Json.is_ws dquote) with false; cbv iota;
    change (Ascii.eqb dquote dquote) with true; cbv iota;
    rewrite parse_chars_escape;
    change (": " +:+ ?t) with (String ":" (String " " t));
    cbn [Json.skip_ws]; change (Json.is_ws ":") with false; cbv iota;
    change (code ":" =? 58)%N with true; cbv iota;
    rewrite parse_value_space;
    rewrite (Hx n) by (first [cbn [snd]; lia | apply ends_number_more_members]).
  - destruct pad; reflexivity.
  - cbn [more_members]. rewrite !append_assoc.
    change (", " +:+ ?t) with (String "," (String " " t)).
    cbn [Json.skip_ws]. change (Json.is_ws ",") with false. cbv iota.
    change (code "," =? 125)%N with false. change (code "," =? 44)%N with true.
    cbv iota. rewrite parse_members_space.
    rewrite (IH k' y n pad rest Hall) by (cbn [map list_sum fold_right snd]; lia).
    reflexivity.
Qed.

(** Every value is read back from its text, whatever follows the text, as
    long as it cannot be taken for more of a number. *)
Lemma parse_value_dumps v : reads_back v.
Proof.
  induction v as [ |b|z|s|l IH|d IH] using pyval_nested_ind;
    intros n rest Hn Hr; (destruct n as [|n]; [cbn in Hn; lia|]).
  - reflexivity.
  - destruct b; reflexivity.
  - cbn [Json.dumps].
    rewrite parse_value_number by apply str_int_head.
    apply parse_number_str_int, Hr.
  - cbn [Json.dumps]. rewrite dumps_str_append.
    cbn [Json.parse_value Json.skip_ws].
    change (Json.is_ws dquote) with false. cbv iota.
    change (Ascii.eqb dquote dquote) with true. cbv iota.
    rewrite parse_chars_escape. reflexivity.
  - destruct l as [|x l]; [reflexivity|].
    rewrite dumps_list, !append_assoc.
    change ("[" +:+ ?t) with (String "[" t).
    cbn [Json.parse_value Json.skip_ws].
    change (Json.is_ws "[") with false. cbv iota.
    change (Ascii.eqb "[" dquote) with false. cbv iota.
    change (code "[" =? 91)%N with true. cbv iota.
    pose proof (dumps_head x (more_items l +:+ "]" +:+ rest)) as Hh.
    rewrite (skip_ws_value _ Hh).
    cbn [weight] in Hn.
    rewrite (parse_elements_dumps l x n rest IH) by lia.
    destruct (Json.dumps x +:+ more_items l +:+ "]" +:+ rest) as [|c t];
      [contradiction|].
    destruct Hh as [_ ->]. reflexivity.
  - destruct d as [|[k x] d]; [reflexivity|].
    rewrite dumps_dict, !append_assoc.
    change ("{" +:+ ?t) with (String "{" t).
    cbn [Json.parse_value Json.skip_ws].
    change (Json.is_ws "{") with false. cbv iota.
    change (Ascii.eqb "{" dquote) with false. cbv iota.
    change (code "{" =? 91)%N with false. change (code "{" =? 123)%N with true.
    cbv iota.
    cbn [weight] in Hn.
    pose proof (parse_members_dumps d k x n false rest IH) as Hm.
    unfold closing in Hm. rewrite Hm by lia.
    rewrite dumps_str_append. reflexivity.
Qed.

Lemma length_append s t :
  String.length (s +:+ t) = String.length s + String.length t.
Proof.
  induction s as [|c s IH]; [reflexivity|].
  rewrite append_cons. cbn [String.length]. rewrite IH. reflexivity.
Qed.

(** The fuel [loads] gives itself is enough for any text of [dumps]. *)
Lemma weight_length v : weight v <= String.length (Json.dumps v).
Proof.
  induction v as [ |b|z|s|l IH|d IH] using pyval_nested_ind.
  - cbn. lia.
  - destruct b; cbn; lia.
  - cbn [weight Json.dumps].
    pose proof (str_int_head z "") as Hh. rewrite append_nil_r in Hh.
    destruct (str_int z); [contradiction|]. cbn [String.length]. lia.
  - cbn. lia.
  - destruct l as [|x l]; [vm_compute; lia|].
    rewrite dumps_list. apply Forall_cons in IH as [Hx IH].
    rewrite !length_append. cbn [weight map list_sum fold_right String.length].
    enough (list_sum (map (fun y => S (weight y)) l) <= String.length (more_items l))
      by (unfold list_sum in *; lia).
    induction IH as [|y l Hy _ IHl]; cbn [map list_sum fold_right more_items];
      [lia|].
    rewrite !length_append. cbn [String.length]. unfold list_sum in *. lia.
  - destruct d as [|[k x] d]; [vm_compute; lia|].
    rewrite dumps_dict. apply Forall_cons in IH as [Hx IH]. cbn [snd] in Hx.
    rewrite !length_append. cbn [weight map list_sum fold_right String.length snd].
    enough (list_sum (map (fun kv : string * pyval => S (weight kv.2)) d)
            <= String.length (more_members d))
      by (unfold list_sum in *; lia).
    induction IH as [|[k' y] d Hy _ IHd];
      cbn [map list_sum fold_right more_members snd]; [lia|].
    rewrite !length_append. cbn [String.length snd] in *. unfold list_sum in *. lia.
Qed.

(** [json.loads(json.dumps(v))] is [v]. *)
Theorem loads_dumps v : Json.loads (Json.dumps v) = Some v.
Proof.
  unfold Json.loads.
  pose proof (parse_value_dumps v (S (String.length (Json.dumps v))) "") as H.
  rewrite append_nil_r in H. rewrite H; [reflexivity| |exact I].
  pose proof (weight_length v). lia.
Qed.

(** *** The output line *)

Lemma escape_char_plain c : plain_char c = true -> Json.escape_char c = String c "".
Proof.
  destruct c as [[] [] [] [] [] [] [] []]; intros H;
    first [reflexivity | discriminate H].
Qed.

Lemma escape_plain s : plain s = true -> Json.escape s = s.
Proof.
  induction s as [|c s IH]; [reflexivity|]. cbn [plain Json.escape].
  intros H. apply andb_prop in H as [Hc Hs].
  rewrite escape_char_plain, IH by assumption. reflexivity.
Qed.

(** With a plain level name, trace and span id, the line is the text of an
    object, but for the space before its closing brace. *)
Lemma gcp_line_members message severity labels trace span location http rest :
  plain severity = true -> plain trace = true -> plain span = true ->
  gcp_line (Json.dumps message) severity (Json.dumps labels) trace span
           (Json.dumps location) (Json.dumps http) +:+ rest
  = "{" +:+ Json.dumps_str "message" +:+ ": " +:+ Json.dumps message
        +:+ more_members
              (tail (gcp_object message severity labels trace span location http))
        +:+ closing true +:+ rest.
Proof.
  intros Hs Ht Hp. unfold gcp_line, gcp_object, closing.
  cbn [tail more_members Json.dumps]. unfold Json.dumps_str, dq, quoted.
  rewrite (escape_plain severity), (escape_plain trace), (escape_plain span)
    by assumption.
  repeat (rewrite append_cons || rewrite append_assoc || rewrite append_nil_l).
  reflexivity.
Qed.

(** A line with a plain level name, trace and span id is JSON: it reads
    back as the object of its seven fields. *)
Lemma loads_gcp_line message severity labels trace span location http :
  plain severity = true -> plain trace = true -> plain span = true ->
  Json.loads
    (gcp_line (Json.dumps message) severity (Json.dumps labels) trace span
              (Json.dumps location) (Json.dumps http) +:+ newline)
  = Some (PDict (gcp_object message severity labels trace span location http)).
Proof.
  intros Hs Ht Hp. unfold Json.loads.
  rewrite gcp_line_members by assumption.
  set (d := tail (gcp_object message severity labels trace span location http)).
  set (n := String.length _).
  assert (Hn : list_sum (map (fun kv : string * pyval => S (weight kv.2))
                           (("message", message) :: d)) <= n).
  { subst n d. rewrite !length_append.
    cbn [gcp_object tail more_members map list_sum fold_right snd weight].
    rewrite !length_append.
    pose proof (weight_length message). pose proof (weight_length labels).
    pose proof (weight_length location). pose proof (weight_length http).
    cbn [String.length closing newline]. lia. }
  change ("{" +:+ ?t) with (String "{" t).
  cbn [Json.parse_value Json.skip_ws].
  change (Json.is_ws "{") with false. cbv iota.
  change (Ascii.eqb "{" dquote) with false. cbv iota.
  change (code "{" =? 91)%N with false. change (code "{" =? 123)%N with true.
  cbv iota.
  rewrite (parse_members_dumps d "message" message n true newline); [| |exact Hn].
  - rewrite dumps_str_append. reflexivity.
  - apply Forall_forall. intros kv _. apply parse_value_dumps.
Qed.

(** * The claims *)

Lemma location_of_fields_spec r : location_of_fields r = location_spec r.
Proof.
  unfold location_of_fields, location_spec. cbn [List.filter snd].
  destruct (is_not_none (lineno r)), (is_not_none (pathname r)),
    (is_not_none (funcName r)); reflexivity.
Qed.

Lemma or_dict_empty d : or_ (PDict d) (PDict []) = PDict d.
Proof. destruct d; reflexivity. Qed.

Lemma or_truthy a b : truthy a = true -> or_ a b = a.
Proof. unfold or_. intros ->. reflexivity. Qed.

Lemma or_falsy a b : truthy a = false -> or_ a b = b.
Proof. unfold or_. intros ->. reflexivity. Qed.

(** C1, as amended.  The filter restricts an http request to the four
    supported keys, and drops the entries whose value is [None], only when
    the request was inferred from the environment and the caller gave none
    (the inference is not wired in, so [filter] itself never restricts
    anything); a request the caller attached to the record is copied to
    [_http_request] as it is, unsupported keys included, and serialized as
    it is. *)
Theorem http_request_restricted_only_when_inferred self r v kvs it isp :
  unpack (CloudLoggingFilter.default_labels self) (user_labels r) = Return v ->
  NoDup (map fst kvs) ->
  (exists r',
     CloudLoggingFilter.filter self r = (Return true, r') /\
     (forall h, attr "http_request" r = Some h ->
                attr "_http_request" r' = Some h /\
                attr "_http_request_str" r' =
                  Some (PStr (Json.dumps (or_ h (PDict []))))) /\
     (attr "http_request" r = None -> attr "_http_request" r' = Some PNone)) /\
  (exists r',
     CloudLoggingFilter.filter_body self (user_labels r) (PDict kvs) it isp r
       = (Return true, r') /\
     (forall h, attr "http_request" r = Some h ->
                attr "_http_request" r' = Some h /\
                attr "_http_request_str" r' =
                  Some (PStr (Json.dumps (or_ h (PDict []))))) /\
     (attr "http_request" r = None ->
      attr "_http_request" r' = Some (PDict (supported_entries kvs)) /\
      attr "_http_request_str" r' =
        Some (PStr (Json.dumps (PDict (supported_entries kvs)))))).
Proof.
  intros Hu Hnd. split.
  - eexists. split; [rewrite filter_run, Hu; reflexivity|].
    destruct (attrs_all_assigned PNone PNone PNone v r)
      as (_ & _ & _ & Hh & _ & _ & _ & _ & Hhs & _).
    cbv zeta in Hh, Hhs. rewrite Hh, Hhs. unfold derived_http.
    split.
    + intros h ->. split; reflexivity.
    + intros ->. reflexivity.
  - eexists. split.
    { rewrite filter_body_run. unfold kept_http. cbn [is_not_none items].
      rewrite Hu. reflexivity. }
    destruct (attrs_all_assigned
                (PDict (dict_comp
                   (fun k x => existsb (String.eqb k)
                                 CloudLoggingFilter._supported_http_fields
                               && is_not_none x) kvs))
                (qualified_trace self it) isp v r)
      as (_ & _ & _ & Hh & _ & _ & _ & _ & Hhs & _).
    cbv zeta in Hh, Hhs. rewrite Hh, Hhs. unfold derived_http.
    rewrite dict_comp_filter by exact Hnd. fold (supported_entries kvs).
    split.
    + intros h ->. split; reflexivity.
    + intros ->. cbn [from_option id]. rewrite or_dict_empty. split; reflexivity.
Qed.

(** An inferred request with the key [foo], on a record without a request
    of its own: only [requestMethod] is left. *)
Lemma http_request_restricted_only_when_inferred_witness :
  exists r',
    CloudLoggingFilter.filter_body bare_filter (PDict []) foo_request PNone PNone
      (info_record (PStr "hello") []) = (Return true, r') /\
    attr "_http_request" r' = Some get_request.
Proof.
  destruct (http_request_restricted_only_when_inferred
              bare_filter (info_record (PStr "hello") []) (PDict [])
              [("foo", PStr "bar"); ("requestMethod", PStr "GET")] PNone PNone)
    as [_ (r' & Hrun & _ & Hnone)].
  - reflexivity.
  - cbn [map fst]. repeat (apply NoDup_cons; split; [not_in|]). apply NoDup_nil_2.
  - exists r'. split; [exact Hrun|]. apply Hnone. reflexivity.
Defined.

(** C1 as stated fails: a request the caller attaches with the unsupported
    key [foo] reaches [_http_request] and the output line with that key. *)
Lemma http_request_override_not_restricted :
  exists r',
    CloudLoggingFilter.filter bare_filter foo_request_record = (Return true, r') /\
    attr "_http_request" r' = Some foo_request /\
    attr "_http_request" r' <> Some get_request /\
    exists line r'',
      StructuredLogHandler.handle (host := plain_host) bare_handler foo_request_record
        = (Return (Some (Written line)), r'') /\
      Json.loads line =
        Some (PDict (gcp_object (PStr "hello") "INFO" (PDict []) "" ""
                                main_location foo_request)).
Proof.
  eexists. split; [vm_compute; reflexivity|].
  split; [vm_compute; reflexivity|].
  split; [vm_compute; discriminate|].
  eexists. eexists. split; [vm_compute; reflexivity|].
  vm_compute. reflexivity.
Qed.

(** C2, as amended.  Only a trace inferred from the environment, used when
    the caller gave none, is rewritten to
    [projects/<project>/traces/<trace>] when a project is configured, and
    left as it is when none is (the inference is not wired in, so [filter]
    itself never rewrites a trace).  A trace the caller attached to the
    record is copied to [_trace] and [_trace_str] unchanged, with or without
    a project; an empty one becomes [None]. *)
Theorem trace_qualified_only_when_inferred self r v it isp :
  unpack (CloudLoggingFilter.default_labels self) (user_labels r) = Return v ->
  (exists r',
     CloudLoggingFilter.filter self r = (Return true, r') /\
     (forall t, attr "trace" r = Some t -> truthy t = true ->
                attr "_trace" r' = Some t /\ attr "_trace_str" r' = Some t) /\
     (forall t, attr "trace" r = Some t -> truthy t = false ->
                attr "_trace" r' = Some PNone /\
                attr "_trace_str" r' = Some (PStr "")) /\
     (attr "trace" r = None -> attr "_trace" r' = Some PNone)) /\
  (exists r',
     CloudLoggingFilter.filter_body self (user_labels r) PNone it isp r
       = (Return true, r') /\
     (forall t, attr "trace" r = Some t -> truthy t = true ->
                attr "_trace" r' = Some t /\ attr "_trace_str" r' = Some t) /\
     (attr "trace" r = None -> is_not_none it = true ->
      is_not_none (CloudLoggingFilter.project self) = true ->
      let path := PStr ("projects/" +:+ str (CloudLoggingFilter.project self)
                        +:+ "/traces/" +:+ str it) in
      attr "_trace" r' = Some path /\ attr "_trace_str" r' = Some path) /\
     (attr "trace" r = None -> CloudLoggingFilter.project self = PNone ->
      truthy it = true ->
      attr "_trace" r' = Some it /\ attr "_trace_str" r' = Some it)).
Proof.
  intros Hu. split.
  - eexists. split; [rewrite filter_run, Hu; reflexivity|].
    destruct (attrs_all_assigned PNone PNone PNone v r)
      as (_ & Ht & _ & _ & _ & _ & Hts & _).
    cbv zeta in Ht, Hts. rewrite Ht, Hts. unfold derived_trace.
    split; [|split].
    + intros t -> Htruthy. cbn [from_option id].
      rewrite !(or_truthy _ _ Htruthy). split; reflexivity.
    + intros t -> Hfalsy. cbn [from_option id].
      rewrite (or_falsy _ _ Hfalsy). split; reflexivity.
    + intros ->. reflexivity.
  - eexists. split.
    { rewrite filter_body_run. unfold kept_http. cbn [is_not_none].
      rewrite Hu. reflexivity. }
    destruct (attrs_all_assigned PNone (qualified_trace self it) isp v r)
      as (_ & Ht & _ & _ & _ & _ & Hts & _).
    cbv zeta in Ht, Hts. rewrite Ht, Hts.
    unfold derived_trace, qualified_trace.
    split; [|split].
    + intros t -> Htruthy. cbn [from_option id].
      rewrite !(or_truthy _ _ Htruthy). split; reflexivity.
    + intros -> Hit Hproject. rewrite Hit, Hproject. split; reflexivity.
    + intros -> Hproject Htruthy. rewrite Hproject, andb_false_r.
      cbn [from_option id]. rewrite !(or_truthy _ _ Htruthy). split; reflexivity.
Qed.

(** An inferred trace [abc123] under the project [proj1]. *)
Lemma trace_qualified_only_when_inferred_witness :
  exists r',
    CloudLoggingFilter.filter_body proj1_filter (PDict []) PNone (PStr "abc123") PNone
      (info_record (PStr "hello") []) = (Return true, r') /\
    attr "_trace" r' = Some (PStr "projects/proj1/traces/abc123").
Proof.
  destruct (trace_qualified_only_when_inferred
              proj1_filter (info_record (PStr "hello") []) (PDict [])
              (PStr "abc123") PNone)
    as [_ (r' & Hrun & _ & Hpath & _)].
  - reflexivity.
  - exists r'. split; [exact Hrun|].
    apply Hpath; reflexivity.
Defined.

(** C2 as stated fails: with the project [proj1] configured, the trace
    [abc123] the caller attaches is emitted as [abc123], not as the
    qualified path. *)
Lemma explicit_trace_not_qualified :
  exists r',
    CloudLoggingFilter.filter proj1_filter abc123_record = (Return true, r') /\
    attr "_trace" r' = Some (PStr "abc123") /\
    attr "_trace" r' <> Some (PStr "projects/proj1/traces/abc123") /\
    exists line r'',
      StructuredLogHandler.handle (host := plain_host) proj1_handler abc123_record
        = (Return (Some (Written line)), r'') /\
      Json.loads line =
        Some (PDict (gcp_object (PStr "hello") "INFO" (PDict []) "abc123" ""
                                main_location (PDict []))).
Proof.
  eexists. split; [vm_compute; reflexivity|].
  split; [vm_compute; reflexivity|].
  split; [vm_compute; discriminate|].
  eexists. eexists. split; [vm_compute; reflexivity|].
  vm_compute. reflexivity.
Qed.

(** C3.  The labels of a record are the labels the handler was built
    with, updated with the labels the caller attached: every key of either
    is there, and on a key of both the caller's value wins.  A handler
    built without labels, and a record without, count as having an empty
    dictionary.  [_labels] holds the merged dictionary ([None] when it is
    empty), [_labels_str] and the labels field of the line passed to the
    stream hold its JSON text, which is [{}] when both dictionaries are
    empty. *)
Theorem labels_union_record_wins {host : Host} labels pid r d u s :
  labels = PDict d \/ (truthy labels = false /\ d = []) ->
  attr "labels" r = Some (PDict u) \/ (attr "labels" r = None /\ u = []) ->
  NoDup (map fst d) -> NoDup (map fst u) ->
  message_of r = Return s ->
  text_or_empty (exc_text r) -> text_or_empty (stack_info r) ->
  let merged := dict_unpack d u in
  (forall k, dict_get k merged =
             match dict_get k u with Some x => Some x | None => dict_get k d end) /\
  (exists r',
     CloudLoggingFilter.filter (CloudLoggingFilter.__init__ pid labels) r
       = (Return true, r') /\
     attr "_labels" r' = Some (match merged with [] => PNone | _ => PDict merged end) /\
     attr "_labels_str" r' = Some (PStr (Json.dumps (PDict merged)))) /\
  (exists r',
     StructuredLogHandler.handle (StructuredLogHandler.__init__ labels pid) r
     = (written
          (with_text
             (gcp_line (Json.dumps (PStr (payload_of r s)))
                       (str (levelname r))
                       (Json.dumps (PDict merged))
                       (str (or_ (derived_trace PNone r) (PStr "")))
                       (str (or_ (derived_span_id PNone r) (PStr "")))
                       (Json.dumps (or_ (derived_location r) (PDict [])))
                       (Json.dumps (or_ (derived_http PNone r) (PDict []))))
             (stack_info r) +:+ newline), r')) /\
  (d = [] -> u = [] -> Json.dumps (PDict merged) = "{}").
Proof.
  intros Hlabels Hgiven Hnd Hnu Hm Het Hsi merged.
  assert (Hd : CloudLoggingFilter.default_labels
                 (CloudLoggingFilter.__init__ pid labels) = PDict d).
  { cbn [CloudLoggingFilter.__init__ CloudLoggingFilter.default_labels].
    destruct Hlabels as [->|[-> ->]]; [|reflexivity]. destruct d; reflexivity. }
  assert (Hu : user_labels r = PDict u).
  { unfold user_labels. destruct Hgiven as [->|[-> ->]]; reflexivity. }
  assert (Hun : unpack (CloudLoggingFilter.default_labels
                          (CloudLoggingFilter.__init__ pid labels)) (user_labels r)
                = Return (PDict merged)).
  { rewrite Hd, Hu. reflexivity. }
  repeat split.
  - intros k. unfold merged, dict_unpack. rewrite dict_update_nil by exact Hnd.
    apply dict_get_update, Hnu.
  - eexists. split; [rewrite filter_run, Hun; reflexivity|].
    destruct (attrs_all_assigned PNone PNone PNone (PDict merged) r)
      as (_ & _ & _ & _ & _ & Hl & _ & _ & _ & _ & Hls & _).
    cbv zeta in Hl, Hls. rewrite Hl, Hls, or_dict.
    split; [|reflexivity]. destruct merged; reflexivity.
  - destruct (handle_writes labels pid r (PDict merged) s Hun Hm Het Hsi)
      as (r' & Hrun & _).
    exists r'. rewrite Hrun. unfold line_of. rewrite or_dict. reflexivity.
  - intros -> ->. reflexivity.
Qed.

(** A handler built with the labels [b] and [c], and a record with the
    labels [a] and [b]: the three keys are there, [b] with the record's
    value. *)
Lemma labels_union_record_wins_witness :
  exists r',
    CloudLoggingFilter.filter (CloudLoggingFilter.__init__ PNone two_labels)
      three_labels_record = (Return true, r') /\
    attr "_labels" r'
    = Some (PDict [("b", PStr "9"); ("c", PStr "3"); ("a", PStr "1")]) /\
    attr "_labels_str" r'
    = Some (PStr (Json.dumps
                    (PDict [("b", PStr "9"); ("c", PStr "3"); ("a", PStr "1")]))).
Proof.
  destruct (labels_union_record_wins (host := plain_host)
              two_labels PNone three_labels_record
              [("b", PStr "2"); ("c", PStr "3")] [("a", PStr "1"); ("b", PStr "9")]
              "hello")
    as (_ & (r' & Hrun & Hl & Hls) & _).
  - left. reflexivity.
  - left. reflexivity.
  - cbn [map fst]. repeat (apply NoDup_cons; split; [not_in|]). apply NoDup_nil_2.
  - cbn [map fst]. repeat (apply NoDup_cons; split; [not_in|]). apply NoDup_nil_2.
  - reflexivity.
  - left. reflexivity.
  - left. reflexivity.
  - exists r'. split; [exact Hrun|]. split; [exact Hl|exact Hls].
Defined.

(** C5.  Running the filter a second time on the record it has enriched
    leaves the record, every derived attribute and every serialized form
    with it, exactly as the first run left it; when the first run raises,
    so does the pair. *)
Theorem filter_idempotent self r :
  (CloudLoggingFilter.filter self ;; CloudLoggingFilter.filter self) r
  = CloudLoggingFilter.filter self r.
Proof.
  pose proof (filter_run self r) as Hrun.
  destruct (unpack (CloudLoggingFilter.default_labels self) (user_labels r))
    as [v|e] eqn:Hu.
  - rewrite (bind_run _ _ _ _ _ Hrun). rewrite Hrun, filter_run.
    destruct (derived_all_assigned PNone PNone PNone v r PNone PNone PNone)
      as (-> & _).
    rewrite Hu, all_assigned_twice. reflexivity.
  - rewrite (bind_raise _ _ _ _ _ Hrun). rewrite Hrun. reflexivity.
Qed.

(** C6.  The derived source location is the caller's [source_location]
    when the record has that attribute; otherwise it is the dictionary of
    the record's line number, path and function name under the keys [line],
    [file] and [function], without those that are [None], and [None], not
    an empty dictionary, when all three are. *)
Theorem source_location_override_or_fields self r v :
  unpack (CloudLoggingFilter.default_labels self) (user_labels r) = Return v ->
  let location := match attr "source_location" r with
                  | Some given => given
                  | None => location_spec r
                  end in
  CloudLoggingFilter._infer_source_location r = (Return location, r) /\
  (exists r',
     CloudLoggingFilter.filter self r = (Return true, r') /\
     attr "_source_location" r' = Some location) /\
  (lineno r = PNone -> pathname r = PNone -> funcName r = PNone ->
   location_spec r = PNone).
Proof.
  intros Hu location.
  assert (Hl : derived_location r = location).
  { unfold derived_location, location. rewrite location_of_fields_spec. reflexivity. }
  repeat split.
  - rewrite infer_source_location_run, Hl. reflexivity.
  - eexists. split; [rewrite filter_run, Hu; reflexivity|].
    destruct (attrs_all_assigned PNone PNone PNone v r)
      as (_ & _ & _ & _ & Hsl & _).
    cbv zeta in Hsl. rewrite Hsl, Hl. reflexivity.
  - intros Hline Hfile Hfunction. unfold location_spec.
    rewrite Hline, Hfile, Hfunction. reflexivity.
Qed.

(** A record without [source_location]: line, file and function. *)
Lemma source_location_override_or_fields_witness :
  exists r',
    CloudLoggingFilter.filter bare_filter (info_record (PStr "hello") [])
      = (Return true, r') /\
    attr "_source_location" r' =
      Some (PDict [("line", PInt 42); ("file", PStr "/app/main.py");
                   ("function", PStr "run")]).
Proof.
  destruct (source_location_override_or_fields
              bare_filter (info_record (PStr "hello") []) (PDict []))
    as (_ & (r' & Hrun & Hl) & _).
  - reflexivity.
  - exists r'. split; [exact Hrun|exact Hl].
Defined.

(** C7, as amended.  For a record whose message is false (empty, [None],
    zero), which carries no exception and whose message renders (it has no
    arguments, or [msg % args] returns), the handler passes to the stream a
    line whose message field is the JSON text of the empty string, two
    quotes, and whose severity field is the record's level name. *)
Theorem empty_message_line {host : Host} labels pid r v s :
  truthy (msg r) = false ->
  exc_info r = PNone -> exc_text r = PNone ->
  unpack (CloudLoggingFilter.default_labels
            (CloudLoggingFilter.__init__ pid labels)) (user_labels r) = Return v ->
  message_of r = Return s ->
  text_or_empty (stack_info r) ->
  exists r',
    StructuredLogHandler.handle (StructuredLogHandler.__init__ labels pid) r
    = (written
         (with_text
            (gcp_line (quoted "")
                      (str (levelname r))
                      (Json.dumps (or_ (or_ v PNone) (PDict [])))
                      (str (or_ (derived_trace PNone r) (PStr "")))
                      (str (or_ (derived_span_id PNone r) (PStr "")))
                      (Json.dumps (or_ (derived_location r) (PDict [])))
                      (Json.dumps (or_ (derived_http PNone r) (PDict []))))
            (stack_info r) +:+ newline), r') /\
    attr "_formatted_msg" r' = Some (PStr (quoted "")).
Proof.
  intros Hmsg Hei Het Hu Hm Hsi.
  assert (Het' : text_or_empty (exc_text r)) by (rewrite Het; left; reflexivity).
  destruct (handle_writes labels pid r v s Hu Hm Het' Hsi) as (r' & Hrun & Hfm).
  assert (Hp : payload_of r s = "").
  { unfold payload_of. rewrite Hmsg. reflexivity. }
  unfold line_of in Hrun. rewrite Hp in Hrun, Hfm.
  exists r'. split; [exact Hrun|exact Hfm].
Qed.

(** The line for an empty message. *)
Lemma empty_message_line_witness :
  exists r',
    StructuredLogHandler.handle (host := plain_host) bare_handler
      (info_record (PStr "") [])
    = (Return (Some (Written
         (gcp_line (quoted "") "INFO" "{}" "" ""
            (Json.dumps (PDict [("line", PInt 42); ("file", PStr "/app/main.py");
                                ("function", PStr "run")]))
            "{}" +:+ newline))), r').
Proof.
  destruct (empty_message_line (host := plain_host) PNone PNone
              (info_record (PStr "") []) (PDict []) "")
    as (r' & Hrun & _).
  - reflexivity.
  - reflexivity.
  - reflexivity.
  - reflexivity.
  - reflexivity.
  - left. reflexivity.
  - exists r'. exact Hrun.
Defined.

(** C7 as stated fails: [format] skips [super().format] for a false
    message, but the formatter of the output line calls [getMessage] all
    the same.  For the empty message with the argument [1], where [%]
    raises [TypeError], that exception goes to [handleError] and no line is
    written. *)
Lemma empty_message_with_arguments_not_written :
  truthy (msg empty_with_argument_record) = false /\
  exc_info empty_with_argument_record = PNone /\
  exists r',
    StructuredLogHandler.handle (host := failing_host) bare_handler
      empty_with_argument_record
    = (Return (Some (HandleError TypeError)), r').
Proof.
  split; [reflexivity|]. split; [reflexivity|].
  eexists. vm_compute. reflexivity.
Qed.

(** C8.  The filter never answers false, and it does not raise on a record
    that lacks the optional attributes: when the handler's labels are a
    dictionary (or none were given) and the record has no [labels]
    attribute, or has a dictionary there, the filter completes and answers
    true, whichever of [trace], [span_id], [http_request],
    [source_location] and [resource] are missing. *)
Theorem filter_always_keeps :
  (forall self r keep r',
     CloudLoggingFilter.filter self r = (Return keep, r') -> keep = true) /\
  (forall project labels r,
     truthy labels = false \/ (exists d, labels = PDict d) ->
     attr "labels" r = None \/ (exists u, attr "labels" r = Some (PDict u)) ->
     exists r',
       CloudLoggingFilter.filter (CloudLoggingFilter.__init__ project labels) r
       = (Return true, r')).
Proof.
  split.
  - intros self r keep r'. rewrite filter_run.
    destruct (unpack _ _); intros H; injection H; auto. discriminate.
  - intros project labels r Hl Hr. rewrite filter_run.
    assert (Hd : exists d, CloudLoggingFilter.default_labels
                   (CloudLoggingFilter.__init__ project labels) = PDict d).
    { cbn [CloudLoggingFilter.__init__ CloudLoggingFilter.default_labels].
      destruct Hl as [-> | [d ->]]; [eauto|].
      destruct (truthy (PDict d)); eauto. }
    assert (Hu : exists u, user_labels r = PDict u).
    { unfold user_labels. destruct Hr as [-> | [u ->]]; cbn; eauto. }
    destruct Hd as [d ->], Hu as [u ->]. cbn [unpack]. eauto.
Qed.

(** A record with none of the optional attributes. *)
Lemma filter_always_keeps_witness :
  exists r',
    CloudLoggingFilter.filter bare_filter (info_record (PStr "hello") [])
    = (Return true, r').
Proof.
  apply (proj2 filter_always_keeps PNone PNone (info_record (PStr "hello") [])).
  - left. reflexivity.
  - left. reflexivity.
Defined.

Lemma same_except_set_resource given r :
  same_except resource_names (set_attr "resource" given r) r.
Proof.
  intros n Hn. rewrite attr_set_attr.
  destruct (String.eqb_spec n "resource"); [|reflexivity].
  subst. exfalso. apply Hn. left.
Qed.

(** C9.  A [resource] the caller attaches is copied to [_resource], and
    that is all: no field of the output format names it, and what the
    handler writes (or the exception it ends with) for the record with the
    resource is what it writes for the record as it was without it. *)
Theorem resource_copied_not_emitted {host : Host} labels pid r given v :
  unpack (CloudLoggingFilter.default_labels
            (CloudLoggingFilter.__init__ pid labels)) (user_labels r) = Return v ->
  let supplied := set_attr "resource" given r in
  (exists r',
     CloudLoggingFilter.filter (CloudLoggingFilter.__init__ pid labels) supplied
       = (Return true, r') /\
     attr "_resource" r' = Some given) /\
  (forall n, In (Field n) GCP_FORMAT -> n <> "resource" /\ n <> "_resource") /\
  fst (StructuredLogHandler.handle (StructuredLogHandler.__init__ labels pid) supplied)
  = fst (StructuredLogHandler.handle (StructuredLogHandler.__init__ labels pid) r).
Proof.
  intros Hu supplied. subst supplied. repeat split.
  - eexists. split.
    + rewrite filter_run. unfold user_labels. attr_simpl.
      fold (user_labels r). rewrite Hu. reflexivity.
    + destruct (attrs_all_assigned PNone PNone PNone v
                  (set_attr "resource" given r)) as (Hr & _).
      cbv zeta in Hr. rewrite Hr. unfold derived_resource.
      attr_simpl. reflexivity.
  - intros ->. eapply fields_gcp; [eassumption|]. left.
  - intros ->. eapply fields_gcp; [eassumption|]. right. left.
  - apply respects_handle, same_except_set_resource.
Qed.

(** The same output with and without a resource. *)
Lemma resource_copied_not_emitted_witness :
  fst (StructuredLogHandler.handle (host := plain_host) bare_handler
         (set_attr "resource" (PStr "gce_instance") (info_record (PStr "hello") [])))
  = fst (StructuredLogHandler.handle (host := plain_host) bare_handler
           (info_record (PStr "hello") [])).
Proof.
  destruct (resource_copied_not_emitted (host := plain_host) PNone PNone
              (info_record (PStr "hello") []) (PStr "gce_instance") (PDict []))
    as (_ & _ & Hsame).
  - reflexivity.
  - exact Hsame.
Defined.

(** C10.  A [source_location] dictionary the caller attaches is used as it
    is, whatever its keys and also when it is empty: the fallback on the
    record's own fields does not run, [_source_location] is the dictionary,
    and [_source_location_str] and the source location field of the output
    line passed to the stream are its JSON text. *)
Theorem source_location_override_verbatim {host : Host} labels pid r d v s :
  attr "source_location" r = Some (PDict d) ->
  unpack (CloudLoggingFilter.default_labels
            (CloudLoggingFilter.__init__ pid labels)) (user_labels r) = Return v ->
  message_of r = Return s ->
  text_or_empty (exc_text r) -> text_or_empty (stack_info r) ->
  CloudLoggingFilter._infer_source_location r = (Return (PDict d), r) /\
  (exists r',
     CloudLoggingFilter.filter (CloudLoggingFilter.__init__ pid labels) r
       = (Return true, r') /\
     attr "_source_location" r' = Some (PDict d) /\
     attr "_source_location_str" r' = Some (PStr (Json.dumps (PDict d)))) /\
  (exists r',
     StructuredLogHandler.handle (StructuredLogHandler.__init__ labels pid) r
     = (written
          (with_text
             (gcp_line (Json.dumps (PStr (payload_of r s)))
                       (str (levelname r))
                       (Json.dumps (or_ (or_ v PNone) (PDict [])))
                       (str (or_ (derived_trace PNone r) (PStr "")))
                       (str (or_ (derived_span_id PNone r) (PStr "")))
                       (Json.dumps (PDict d))
                       (Json.dumps (or_ (derived_http PNone r) (PDict []))))
             (stack_info r) +:+ newline), r')).
Proof.
  intros Hsl Hu Hm Het Hsi.
  assert (Hl : derived_location r = PDict d).
  { unfold derived_location. rewrite Hsl. reflexivity. }
  repeat split.
  - rewrite infer_source_location_run, Hl. reflexivity.
  - eexists. split; [rewrite filter_run, Hu; reflexivity|].
    destruct (attrs_all_assigned PNone PNone PNone v r)
      as (_ & _ & _ & _ & Ha & _ & _ & _ & _ & Has & _).
    cbv zeta in Ha, Has. rewrite Ha, Has, Hl, or_dict_empty. split; reflexivity.
  - destruct (handle_writes labels pid r v s Hu Hm Het Hsi) as (r' & Hrun & _).
    exists r'. rewrite Hrun. unfold line_of. rewrite Hl, or_dict_empty.
    reflexivity.
Qed.

(** A source location with a key of its own. *)
Lemma source_location_override_verbatim_witness :
  exists r',
    CloudLoggingFilter.filter bare_filter
      (info_record (PStr "hello")
         [("source_location", PDict [("column", PInt 7)])])
    = (Return true, r') /\
    attr "_source_location" r' = Some (PDict [("column", PInt 7)]) /\
    attr "_source_location_str" r' =
      Some (PStr (Json.dumps (PDict [("column", PInt 7)]))).
Proof.
  destruct (source_location_override_verbatim (host := plain_host) PNone PNone
              (info_record (PStr "hello")
                 [("source_location", PDict [("column", PInt 7)])])
              [("column", PInt 7)] (PDict []) "hello")
    as (_ & (r' & Hrun & Ha & Has) & _).
  - reflexivity.
  - reflexivity.
  - reflexivity.
  - left. reflexivity.
  - left. reflexivity.
  - exists r'. split; [exact Hrun|]. split; [exact Ha|exact Has].
Defined.

(** X16.  What is true of the lines, for records whose values are the
    modelled ones ([None], booleans, integers, strings, lists and
    dictionaries with string keys; no floating point number, of which
    [json.dumps] writes some as [NaN] and [Infinity], which are not JSON):
    when the level name, the trace and the span id are made of plain
    characters (printable ASCII other than the quote and the backslash) and
    the record has no stack text, the line the handler passes to the stream
    is JSON and reads back as an object with exactly the seven keys. *)
Theorem line_is_json_when_plain {host : Host} labels pid r v s :
  unpack (CloudLoggingFilter.default_labels
            (CloudLoggingFilter.__init__ pid labels)) (user_labels r) = Return v ->
  message_of r = Return s ->
  text_or_empty (exc_text r) ->
  truthy (stack_info r) = false ->
  plain (str (levelname r)) = true ->
  plain (str (or_ (derived_trace PNone r) (PStr ""))) = true ->
  plain (str (or_ (derived_span_id PNone r) (PStr ""))) = true ->
  exists line r',
    StructuredLogHandler.handle (StructuredLogHandler.__init__ labels pid) r
      = (written line, r') /\
    Json.loads line =
      Some (PDict (gcp_object
              (PStr (payload_of r s))
              (str (levelname r))
              (or_ (or_ v PNone) (PDict []))
              (str (or_ (derived_trace PNone r) (PStr "")))
              (str (or_ (derived_span_id PNone r) (PStr "")))
              (or_ (derived_location r) (PDict []))
              (or_ (derived_http PNone r) (PDict [])))) /\
    (forall object, Json.loads line = Some object -> Json.keys object = Some gcp_keys).
Proof.
  intros Hu Hm Het Hsi Hlv Htr Hsp.
  destruct (handle_writes labels pid r v s Hu Hm Het (or_introl Hsi))
    as (r' & Hrun & _).
  unfold line_of in Hrun. rewrite (with_text_falsy _ _ Hsi) in Hrun.
  eexists. exists r'. split; [exact Hrun|].
  rewrite (loads_gcp_line (PStr (payload_of r s))) by assumption.
  split; [reflexivity|]. intros object H. injection H as <-. reflexivity.
Qed.

(** The line for the trace [abc123]. *)
Lemma line_is_json_when_plain_witness :
  exists line r' object,
    StructuredLogHandler.handle (host := plain_host) bare_handler
      (info_record (PStr "hello") [("trace", PStr "abc123")])
      = (Return (Some (Written line)), r') /\
    Json.loads line = Some object /\ Json.keys object = Some gcp_keys.
Proof.
  destruct (line_is_json_when_plain (host := plain_host) PNone PNone
              (info_record (PStr "hello") [("trace", PStr "abc123")])
              (PDict []) "hello")
    as (line & r' & Hrun & Hloads & Hkeys).
  - reflexivity.
  - reflexivity.
  - left. reflexivity.
  - reflexivity.
  - reflexivity.
  - reflexivity.
  - reflexivity.
  - exists line, r'. eexists. split; [exact Hrun|].
    split; [exact Hloads|]. apply Hkeys. exact Hloads.
Defined.

(** C4.  The claim does not hold of the code, which [format] documents
    as returning a JSON string: [format] puts the trace, as it does the
    span id and the level name, between quotes without escaping it, while
    it passes the message through [json.dumps].  For the trace
    [quote_trace] the handler writes a line in which the quote of the trace
    ends the string early, and the line is not JSON; for the trace [abc123]
    the line is an object with the seven keys. *)
Lemma quote_in_trace_breaks_json :
  (exists r',
     StructuredLogHandler.handle (host := plain_host) bare_handler quote_trace_record
     = (Return (Some (Written
          (gcp_line (quoted "hello") "INFO" "{}" quote_trace ""
                    (Json.dumps main_location) "{}" +:+ newline))), r')) /\
  Json.loads (gcp_line (quoted "hello") "INFO" "{}" quote_trace ""
                       (Json.dumps main_location) "{}" +:+ newline) = None /\
  (exists line r',
     StructuredLogHandler.handle (host := plain_host) bare_handler abc123_record
     = (Return (Some (Written line)), r') /\
     Json.loads line =
       Some (PDict (gcp_object (PStr "hello") "INFO" (PDict []) "abc123" ""
                               main_location (PDict [])))).
Proof.
  split; [|split].
  - eexists. vm_compute. reflexivity.
  - vm_compute. reflexivity.
  - eexists. eexists. split; [vm_compute; reflexivity|].
    vm_compute. reflexivity.
Qed.

(** The same defect from another side: [format] clears the exception text
    before the line is formatted, so that it is not repeated, but not the
    stack text, which [Formatter.format] then appends after the closing
    brace, on a line of its own. *)
Lemma stack_info_breaks_json :
  exists line r',
    StructuredLogHandler.handle (host := plain_host) bare_handler stack_record
      = (Return (Some (Written line)), r') /\
    Json.loads line = None.
Proof.
  eexists. eexists. split; [vm_compute; reflexivity|].
  vm_compute. reflexivity.
Qed.

(** * Further properties *)

(** ** Attributes a run leaves alone *)

Section Modifies.
Context (names : list string).

Lemma modifies_ret {A} (a : A) : modifies names (ret a).
Proof. intros r n _. reflexivity. Qed.

Lemma modifies_raise {A} e : modifies names (@raise A e).
Proof. intros r n _. reflexivity. Qed.

Lemma modifies_lift {A} (o : outcome A) : modifies names (lift o).
Proof. intros r n _. reflexivity. Qed.

Lemma modifies_getattr n : modifies names (getattr n).
Proof. intros r n' _. unfold getattr. destruct (attr n r); reflexivity. Qed.

Lemma modifies_getattr_d n d : modifies names (getattr_d n d).
Proof. intros r n' _. reflexivity. Qed.

Lemma modifies_hasattr n : modifies names (hasattr n).
Proof. intros r n' _. reflexivity. Qed.

Lemma modifies_setattr n v : n ∈ names -> modifies names (setattr n v).
Proof.
  intros Hin r n' Hn'. cbn [setattr snd]. rewrite attr_set_attr.
  destruct (String.eqb_spec n' n); [subst; contradiction|reflexivity].
Qed.

Lemma modifies_str_add s t : modifies names (str_add s t).
Proof. destruct t; intros r n _; reflexivity. Qed.

Lemma modifies_bind {A B} (c : M A) (k : A -> M B) :
  modifies names c -> (forall a, modifies names (k a)) -> modifies names (bind c k).
Proof.
  intros Hc Hk r n Hn. specialize (Hc r n Hn). unfold bind.
  destruct (c r) as [[a|e] r1]; cbn [snd] in *.
  - rewrite (Hk a r1 n Hn). exact Hc.
  - exact Hc.
Qed.

Lemma modifies_try_except {A} (c : M A) (h : exn -> M A) :
  modifies names c -> (forall e, modifies names (h e)) ->
  modifies names (try_except c h).
Proof.
  intros Hc Hh r n Hn. specialize (Hc r n Hn). unfold try_except.
  destruct (c r) as [[a|e] r1]; cbn [snd] in *.
  - exact Hc.
  - rewrite (Hh e r1 n Hn). exact Hc.
Qed.

Lemma modifies_percent_dict fmt : modifies names (percent_dict fmt).
Proof. intros r n _. rewrite percent_dict_state. reflexivity. Qed.

Lemma modifies_formatMessage fmt : modifies names (formatMessage fmt).
Proof.
  unfold formatMessage. apply modifies_try_except; [apply modifies_percent_dict|].
  intros e. destruct e; apply modifies_raise.
Qed.

Lemma modifies_for {A B} (l : list A) (body : B -> A -> M B) acc :
  (forall b a, modifies names (body b a)) -> modifies names (for_ l body acc).
Proof.
  intros Hb. revert acc. induction l as [|x l IH]; intros acc; cbn [for_].
  - apply modifies_ret.
  - apply modifies_bind; [apply Hb|apply IH].
Qed.

End Modifies.

Ltac is_in :=
  solve [ repeat first [ apply list_elem_of_here | apply list_elem_of_further ] ].

Ltac modifies_step :=
  first
    [ apply modifies_ret
    | apply modifies_raise
    | apply modifies_lift
    | apply modifies_getattr
    | apply modifies_getattr_d
    | apply modifies_hasattr
    | apply modifies_str_add
    | apply modifies_percent_dict
    | apply modifies_formatMessage
    | apply modifies_setattr; is_in
    | apply modifies_for; intros ? [? ?]
    | apply modifies_bind; [|intros ?]
    | match goal with
      | |- modifies _ (if ?b then _ else _) => destruct b
      | |- modifies _ (match ?o with Some _ => _ | None => _ end) => destruct o
      end ].

Lemma modifies_filter_body names self ul ih it isp :
  (forall n, n ∈ derived_names -> n ∈ names) ->
  modifies names (CloudLoggingFilter.filter_body self ul ih it isp).
Proof.
  intros Hsub. unfold CloudLoggingFilter.filter_body,
    CloudLoggingFilter._infer_source_location.
  repeat first
    [ apply modifies_setattr; apply Hsub; is_in
    | modifies_step ].
Qed.

Lemma modifies_filter names self :
  (forall n, n ∈ derived_names -> n ∈ names) ->
  modifies names (CloudLoggingFilter.filter self).
Proof.
  intros Hsub. unfold CloudLoggingFilter.filter.
  apply modifies_bind; [apply modifies_getattr_d|intros ul].
  apply modifies_filter_body, Hsub.
Qed.

Lemma modifies_filters names fs :
  (forall n, n ∈ derived_names -> n ∈ names) ->
  modifies names (Filterer_filter (map CloudLoggingFilter.filter fs)).
Proof.
  intros Hsub. induction fs as [|f fs IH]; cbn [map Filterer_filter].
  - apply modifies_ret.
  - apply modifies_bind; [apply modifies_filter, Hsub|intros [|]].
    + exact IH.
    + apply modifies_ret.
Qed.

Section ModifiesFormat.
Context {host : Host}.

Lemma modifies_getMessage names : modifies names getMessage.
Proof. unfold getMessage. repeat modifies_step. Qed.

(** A formatter whose format string does not use the time assigns
    [message] and [exc_text] only. *)
Lemma modifies_Formatter_format names fmt :
  usesTime fmt = false ->
  (forall n, n ∈ format_names -> n ∈ names) ->
  modifies names (Formatter_format fmt).
Proof.
  intros Hut Hsub. unfold Formatter_format. rewrite Hut.
  repeat first
    [ apply modifies_getMessage
    | apply modifies_setattr; apply Hsub; is_in
    | modifies_step ].
Qed.

Lemma modifies_format names labels pid :
  (forall n, n ∈ format_names -> n ∈ names) ->
  modifies names
    (StructuredLogHandler.format (StructuredLogHandler.__init__ labels pid)).
Proof.
  intros Hsub. unfold StructuredLogHandler.format.
  cbn [StructuredLogHandler.__init__ StructuredLogHandler.formatter
       StructuredLogHandler._gcp_formatter Handler_format].
  repeat first
    [ apply modifies_Formatter_format; [reflexivity|exact Hsub]
    | apply modifies_setattr; apply Hsub; is_in
    | modifies_step ].
Qed.

Lemma modifies_emit names (format : M string) :
  modifies names format -> modifies names (StreamHandler_emit format).
Proof.
  intros Hf. unfold StreamHandler_emit.
  apply modifies_try_except.
  - repeat first [exact Hf | modifies_step].
  - intros e. destruct e; first [apply modifies_raise | apply modifies_ret].
Qed.

Lemma modifies_handle labels pid :
  modifies handle_names
    (StructuredLogHandler.handle (StructuredLogHandler.__init__ labels pid)).
Proof.
  unfold StructuredLogHandler.handle, Handler_handle.
  apply modifies_bind.
  - apply modifies_filters. intros n Hn. apply elem_of_app. left. exact Hn.
  - intros [|]; [|apply modifies_ret].
    apply modifies_bind; [|intros; apply modifies_ret].
    apply modifies_emit, modifies_format.
    intros n Hn. apply elem_of_app. right. exact Hn.
Qed.

End ModifiesFormat.

(** X1.  Whatever the record and whether it returns or raises, [filter]
    changes no attribute other than the twelve it derives: the message,
    its arguments, the level, the location fields, the exception and stack
    information and everything the caller attached ([labels], [trace],
    [span_id], [http_request], [source_location], [resource], ...) are
    after the run what they were before. *)
Theorem filter_assigns_only_derived self r n :
  n ∉ derived_names ->
  attr n (snd (CloudLoggingFilter.filter self r)) = attr n r.
Proof.
  intros Hn. apply (modifies_filter derived_names self); [auto|exact Hn].
Qed.

(** The caller's labels after a run. *)
Lemma filter_assigns_only_derived_witness :
  attr "labels" (snd (CloudLoggingFilter.filter bare_filter foo_request_record))
  = attr "labels" foo_request_record.
Proof.
  apply (filter_assigns_only_derived bare_filter foo_request_record "labels").
  intros H. repeat (apply elem_of_cons in H as [H|H]; [discriminate H|]).
  apply elem_of_nil in H. exact H.
Defined.

(** X2.  Handling a record, through the filter, [format] and [emit],
    with a handler as [__init__] builds it (its one filter, no formatter
    of its own), changes no attribute other than the twelve derived ones,
    [_formatted_msg], [message], [exc_info] and [exc_text], whatever the
    labels, the project and the outcome. *)
Theorem handle_assigns_only_known {host : Host} labels pid r n :
  n ∉ handle_names ->
  attr n (snd (StructuredLogHandler.handle
                 (StructuredLogHandler.__init__ labels pid) r)) = attr n r.
Proof. intros Hn. apply modifies_handle, Hn. Qed.

(** The stack text after a run. *)
Lemma handle_assigns_only_known_witness :
  attr "stack_info"
    (snd (StructuredLogHandler.handle (host := plain_host) bare_handler stack_record))
  = attr "stack_info" stack_record.
Proof.
  apply (handle_assigns_only_known (host := plain_host) PNone PNone stack_record
           "stack_info").
  intros H. repeat (apply elem_of_cons in H as [H|H]; [discriminate H|]).
  apply elem_of_nil in H. exact H.
Defined.

(** ** Exceptions *)

Lemma unpack_raises a b :
  (forall d, a <> PDict d) \/ (forall d, b <> PDict d) ->
  unpack a b = Raise TypeError.
Proof.
  intros [H|H].
  - destruct a; try reflexivity. exfalso. exact (H _ eq_refl).
  - destruct b; try (destruct a; reflexivity). exfalso. exact (H _ eq_refl).
Qed.

Section Exceptions.
Context {host : Host}.

(** The handler as [__init__] builds it runs its one filter and then
    emits. *)
Lemma handle_init labels pid r :
  StructuredLogHandler.handle (StructuredLogHandler.__init__ labels pid) r
  = match CloudLoggingFilter.filter (CloudLoggingFilter.__init__ pid labels) r with
    | (Return true, r1) =>
        (done <- StreamHandler_emit
                   (StructuredLogHandler.format
                      (StructuredLogHandler.__init__ labels pid)) ;;
         ret (Some done)) r1
    | (Return false, r1) => (Return None, r1)
    | (Raise e, r1) => (Raise e, r1)
    end.
Proof.
  unfold StructuredLogHandler.handle, Handler_handle.
  cbn [StructuredLogHandler.__init__ StructuredLogHandler.filters map
       Filterer_filter].
  rewrite bind_bind. unfold bind at 1.
  destruct (CloudLoggingFilter.filter _ r) as [[[|]|e] r1]; reflexivity.
Qed.

(** What [handle] comes to once the filter has kept the record: what
    [format] returns goes to the stream, what it raises to [handleError]. *)
Lemma handle_emits labels pid r v :
  unpack (CloudLoggingFilter.default_labels (CloudLoggingFilter.__init__ pid labels))
         (user_labels r) = Return v ->
  StructuredLogHandler.handle (StructuredLogHandler.__init__ labels pid) r
  = match StructuredLogHandler.format (StructuredLogHandler.__init__ labels pid)
            (all_assigned PNone PNone PNone v r) with
    | (Return line, r') => (written (line +:+ newline), r')
    | (Raise e, r') => (handled e, r')
    end.
Proof.
  intros Hu. rewrite handle_init, filter_run, Hu.
  destruct (StructuredLogHandler.format _ _) as [[line|e] r'] eqn:Hf.
  - apply emit_written, Hf.
  - apply emit_raised, Hf.
Qed.

(** X3.  When the labels cannot be merged, because the handler was given a
    true value that is not a mapping or the caller attached a [labels] that
    is not one (for instance [None]), [filter] raises [TypeError] and
    [handle] lets it through to the caller: [emit] is not called.  The
    record is left as the five assignments before the merge make it:
    [_resource], [_trace], [_span_id], [_http_request] and
    [_source_location] hold their values, and [_labels] and the six
    attributes assigned after it are what they were. *)
Theorem labels_not_mapping_raises labels pid r :
  (truthy labels = true /\ forall d, labels <> PDict d) \/
  (exists given, attr "labels" r = Some given /\ forall d, given <> PDict d) ->
  let r' := raw_assigned PNone PNone PNone r in
  CloudLoggingFilter.filter (CloudLoggingFilter.__init__ pid labels) r
    = (Raise TypeError, r') /\
  StructuredLogHandler.handle (StructuredLogHandler.__init__ labels pid) r
    = (Raise TypeError, r') /\
  attr "_resource" r' = Some (from_option id PNone (attr "resource" r)) /\
  attr "_trace" r' = Some (or_ (from_option id PNone (attr "trace" r)) PNone) /\
  attr "_span_id" r' = Some (or_ (from_option id PNone (attr "span_id" r)) PNone) /\
  attr "_http_request" r' = Some (from_option id PNone (attr "http_request" r)) /\
  attr "_source_location" r' = Some (derived_location r) /\
  (forall n, n ∈ after_merge_names -> attr n r' = attr n r).
Proof.
  intros H r'.
  assert (Hu : unpack (CloudLoggingFilter.default_labels
                         (CloudLoggingFilter.__init__ pid labels)) (user_labels r)
               = Raise TypeError).
  { apply unpack_raises. destruct H as [[Ht Hl] | (given & Hg & Hl)].
    - left. cbn [CloudLoggingFilter.__init__ CloudLoggingFilter.default_labels].
      rewrite Ht. exact Hl.
    - right. unfold user_labels. rewrite Hg. exact Hl. }
  pose proof (filter_run (CloudLoggingFilter.__init__ pid labels) r) as Hf.
  rewrite Hu in Hf. fold r' in Hf.
  split; [exact Hf|].
  split; [rewrite handle_init, Hf; reflexivity|].
  unfold r', raw_assigned, derived_resource, derived_trace, derived_span_id,
    derived_http.
  repeat (split; [attr_simpl; reflexivity|]).
  intros n Hn. unfold after_merge_names in Hn.
  repeat (apply elem_of_cons in Hn as [->|Hn]; [attr_simpl; reflexivity|]).
  apply elem_of_nil in Hn. destruct Hn.
Qed.


Lemma Formatter_format_message_raises fmt r e :
  message_of r = Raise e -> Formatter_format fmt r = (Raise e, r).
Proof.
  intros Hm. unfold Formatter_format.
  apply bind_raise. rewrite getMessage_run, Hm. reflexivity.
Qed.

(** A format string with a field the record lacks. *)
Lemma percent_dict_missing fmt r name :
  In (Field name) fmt -> attr name r = None ->
  percent_dict fmt r = (Raise KeyError, r).
Proof.
  intros Hin Hnone. induction fmt as [|[s|n] fmt IH]; [destruct Hin| |].
  - destruct Hin as [H|Hin]; [discriminate H|].
    cbn [percent_dict]. apply bind_raise, IH, Hin.
  - cbn [percent_dict]. destruct (attr n r) as [v|] eqn:Hn; [|reflexivity].
    destruct Hin as [H|Hin].
    + injection H as ->. rewrite Hnone in Hn. discriminate Hn.
    + apply bind_raise, IH, Hin.
Qed.

Lemma Formatter_format_missing fmt r s name :
  message_of r = Return s ->
  usesTime fmt = false ->
  In (Field name) fmt -> String.eqb name "message" = false -> attr name r = None ->
  Formatter_format fmt r = (Raise ValueError, set_attr "message" (PStr s) r).
Proof.
  intros Hm Hut Hin Hne Hnone. unfold Formatter_format.
  pose proof (getMessage_run r) as Hg. rewrite Hm in Hg.
  rewrite (bind_run _ _ _ _ _ Hg), bind_setattr, Hut, bind_ret.
  apply bind_raise, formatMessage_missing, (percent_dict_missing _ _ name Hin).
  rewrite attr_set_attr_ne by exact Hne. exact Hnone.
Qed.

(** X5.  A record whose message cannot be rendered, because [msg % args]
    raises, gives no line: the filter runs, [format] raises the exception
    of [%], and [emit] hands it to [handleError] (or raises it again when
    it is [RecursionError]); nothing is passed to the stream. *)
Theorem unrenderable_message_not_written labels pid r v e :
  unpack (CloudLoggingFilter.default_labels (CloudLoggingFilter.__init__ pid labels))
         (user_labels r) = Return v ->
  message_of r = Raise e ->
  exists r',
    StructuredLogHandler.format (StructuredLogHandler.__init__ labels pid)
      (all_assigned PNone PNone PNone v r) = (Raise e, r') /\
    StructuredLogHandler.handle (StructuredLogHandler.__init__ labels pid) r
    = (handled e, r').
Proof.
  intros Hu Hm.
  set (r1 := all_assigned PNone PNone PNone v r).
  destruct (fields_all_assigned PNone PNone PNone v r) as (Fm & Fa & _).
  fold r1 in Fm, Fa.
  assert (Hm1 : message_of r1 = Raise e).
  { unfold message_of in *. rewrite Fm, Fa. exact Hm. }
  assert (Hf : exists r2,
    StructuredLogHandler.format (StructuredLogHandler.__init__ labels pid) r1
    = (Raise e, r2)).
  { unfold StructuredLogHandler.format.
    cbn [StructuredLogHandler.__init__ StructuredLogHandler.formatter
         StructuredLogHandler._gcp_formatter Handler_format].
    rewrite bind_getattr, (proj1 (std_attrs r1)).
    destruct (truthy (msg r1)).
    - eexists. apply bind_raise, bind_raise.
      apply Formatter_format_message_raises, Hm1.
    - rewrite bind_ret, !bind_setattr. eexists.
      apply bind_raise, Formatter_format_message_raises.
      unfold message_of in *.
      set (r3 := set_attr "exc_text" PNone _).
      assert (F3m : msg r3 = msg r1) by same_field r3 r1 "msg".
      assert (F3a : args r3 = args r1) by same_field r3 r1 "args".
      rewrite F3m, F3a. exact Hm1. }
  destruct Hf as (r2 & Hf). exists r2. split; [exact Hf|].
  rewrite (handle_emits _ _ _ _ Hu). fold r1. rewrite Hf. reflexivity.
Qed.

(** X6.  [format] needs the filter: on a record that lacks one of the five
    texts the filter prepares it raises [ValueError] ([formatMessage]
    reporting the [KeyError] of the missing field), so a handler whose
    filter was removed passes no line to the stream and hands that
    exception to [handleError]. *)
Theorem format_needs_filter self r s name :
  StructuredLogHandler.formatter self = None ->
  StructuredLogHandler._gcp_formatter self = GCP_FORMAT ->
  message_of r = Return s ->
  text_or_empty (exc_text r) -> text_or_empty (stack_info r) ->
  In name filter_made_fields -> attr name r = None ->
  exists r',
    StructuredLogHandler.format self r = (Raise ValueError, r') /\
    (StructuredLogHandler.filters self = [] ->
     StructuredLogHandler.handle self r
     = (Return (Some (HandleError ValueError)), r')).
Proof.
  intros Hfo Hg Hm Het Hsi Hin Hnone.
  assert (Hf : exists r', StructuredLogHandler.format self r = (Raise ValueError, r')).
  { unfold StructuredLogHandler.format. rewrite Hfo, Hg.
    rewrite bind_getattr, (proj1 (std_attrs r)).
    assert (Htail : forall fm r0,
      message_of r0 = Return s -> attr name r0 = None ->
      exists r',
        (setattr "_formatted_msg" fm ;;
         setattr "exc_info" PNone ;;
         setattr "exc_text" PNone ;;
         gcp_payload <- Formatter_format GCP_FORMAT ;;
         ret gcp_payload) r0 = (Raise ValueError, r')).
    { intros fm r0 Hm0 Hn0. rewrite !bind_setattr.
      set (r3 := set_attr "exc_text" PNone _).
      assert (F3m : msg r3 = msg r0) by same_field r3 r0 "msg".
      assert (F3a : args r3 = args r0) by same_field r3 r0 "args".
      eexists. apply bind_raise.
      apply (Formatter_format_missing GCP_FORMAT r3 s name).
      - unfold message_of in *. rewrite F3m, F3a. exact Hm0.
      - reflexivity.
      - unfold GCP_FORMAT. cbn [app In].
        repeat (destruct Hin as [<-|Hin];
                [solve [repeat first [left; reflexivity | right]]|]).
        destruct Hin.
      - repeat (destruct Hin as [<-|Hin]; [reflexivity|]). destruct Hin.
      - unfold r3.
        repeat (destruct Hin as [<-|Hin];
                [attr_simpl; exact Hn0|]). destruct Hin. }
    destruct (truthy (msg r)).
    - rewrite bind_bind. unfold Handler_format.
      set (r1 := set_attr "message" (PStr s) r).
      assert (Hb : percent_dict BASIC_FORMAT r1 = (Return s, r1)).
      { pose proof (percent_dict_Field_run "message" (PStr s) [] r1 "") as H.
        cbn [str] in H. rewrite append_nil_r in H. apply H; [|reflexivity].
        unfold r1. attr_simpl. reflexivity. }
      rewrite (bind_run _ _ _ _ _
                 (Formatter_format_run BASIC_FORMAT r s s Hm eq_refl Hb Het Hsi)).
      rewrite bind_ret. fold r1.
      set (r2 := set_attr "exc_text" (cached_exc_text r) r1).
      assert (Fm : msg r2 = msg r) by (unfold r1 in r2; same_field r2 r "msg").
      assert (Fa : args r2 = args r) by (unfold r1 in r2; same_field r2 r "args").
      apply Htail.
      + unfold message_of in *. rewrite Fm, Fa. exact Hm.
      + unfold r2, r1.
        repeat (destruct Hin as [<-|Hin];
                [attr_simpl; exact Hnone|]). destruct Hin.
    - rewrite bind_ret. apply Htail; assumption. }
  destruct Hf as (r' & Hf). exists r'. split; [exact Hf|].
  intros Hfs.
  unfold StructuredLogHandler.handle, Handler_handle. rewrite Hfs.
  cbn [map Filterer_filter]. rewrite bind_ret.
  apply (emit_raised _ _ ValueError), Hf.
Qed.

End Exceptions.

(** The caller attached [labels=None]. *)
Lemma labels_not_mapping_raises_witness :
  StructuredLogHandler.handle (host := plain_host) bare_handler none_labels_record
  = (Raise TypeError, raw_assigned PNone PNone PNone none_labels_record).
Proof.
  destruct (labels_not_mapping_raises (host := plain_host) PNone PNone
              none_labels_record) as (_ & Hh & _).
  - right. exists PNone. split; [reflexivity|]. intros d H. discriminate H.
  - exact Hh.
Defined.


(** Arguments that do not fit the message. *)
Lemma unrenderable_message_not_written_witness :
  exists r',
    StructuredLogHandler.handle (host := failing_host) bare_handler bad_args_record
    = (Return (Some (HandleError TypeError)), r').
Proof.
  destruct (unrenderable_message_not_written (host := failing_host) PNone PNone
              bad_args_record (PDict []) TypeError) as (r' & _ & Hh).
  - reflexivity.
  - reflexivity.
  - exists r'. exact Hh.
Defined.

(** A record that never went through the filter. *)
Lemma format_needs_filter_witness :
  exists r',
    StructuredLogHandler.handle (host := plain_host) unfiltered_handler
      (info_record (PStr "hello") [])
    = (Return (Some (HandleError ValueError)), r').
Proof.
  destruct (format_needs_filter (host := plain_host) unfiltered_handler
              (info_record (PStr "hello") []) "hello" "_labels_str")
    as (r' & _ & Hh).
  - reflexivity.
  - reflexivity.
  - reflexivity.
  - left. reflexivity.
  - left. reflexivity.
  - left. reflexivity.
  - reflexivity.
  - exists r'. apply Hh. reflexivity.
Defined.

(** ** Exceptions carried by the record *)

Lemma bind_inv {A B} (m : M A) (k : A -> M B) r b r' :
  bind m k r = (Return b, r') ->
  exists a r1, m r = (Return a, r1) /\ k a r1 = (Return b, r').
Proof.
  unfold bind. destruct (m r) as [[a|e] r1]; [eauto|discriminate].
Qed.

Lemma snd_bind_ret {A} (m : M A) r : snd (bind m (fun a => ret a) r) = snd (m r).
Proof. unfold bind. destruct (m r) as [[a|e] r1]; reflexivity. Qed.

Lemma formatMessage_state fmt r : snd (formatMessage fmt r) = r.
Proof.
  unfold formatMessage, try_except. pose proof (percent_dict_state fmt r) as H.
  destruct (percent_dict fmt r) as [[t|e] r2]; cbn [snd] in H; subst r2;
    [reflexivity|destruct e; reflexivity].
Qed.

Section Cleared.
Context {host : Host}.

(** On a record without exception information, [Formatter.format] leaves
    it without, whatever it returns or raises. *)
Lemma Formatter_format_cleared fmt r o r' :
  usesTime fmt = false ->
  exc_info r = PNone -> exc_text r = PNone ->
  Formatter_format fmt r = (o, r') ->
  exc_info r' = PNone /\ exc_text r' = PNone.
Proof.
  intros Hut Hei Het H. unfold Formatter_format in H.
  unfold bind at 1 in H. rewrite getMessage_run in H.
  destruct (message_of r) as [s|e];
    [|injection H as _ <-; split; assumption].
  rewrite bind_setattr, Hut, bind_ret in H.
  set (r1 := set_attr "message" (PStr s) r) in H.
  destruct (field_set_attr "message" (PStr s) r eq_refl)
    as (_ & _ & _ & _ & _ & _ & Fei & Fet & Fsi).
  fold r1 in Fei, Fet, Fsi. rewrite Hei in Fei. rewrite Het in Fet.
  unfold bind at 1 in H.
  pose proof (formatMessage_state fmt r1) as Hst.
  destruct (formatMessage fmt r1) as [[body|e] r2]; cbn [snd] in Hst; subst r2;
    [|injection H as _ <-; split; assumption].
  destruct (std_attrs r1) as (_ & _ & _ & _ & _ & _ & Aei & Aet & Asi).
  rewrite bind_getattr, Aei, Fei in H. cbn [truthy] in H. rewrite bind_ret in H.
  rewrite bind_getattr, Aet, Fet in H. cbn [truthy] in H. rewrite bind_ret in H.
  rewrite bind_getattr, Asi in H.
  destruct (truthy (stack_info r1));
    [|injection H as _ <-; split; assumption].
  destruct (stack_info r1); cbn [str_add bind ret raise] in H;
    injection H as _ <-; split; assumption.
Qed.

(** When [format] returns, the record has no exception information left. *)
Lemma format_clears labels pid r line r' :
  StructuredLogHandler.format (StructuredLogHandler.__init__ labels pid) r
    = (Return line, r') ->
  exc_info r' = PNone /\ exc_text r' = PNone.
Proof.
  unfold StructuredLogHandler.format.
  cbn [StructuredLogHandler.__init__ StructuredLogHandler.formatter
       StructuredLogHandler._gcp_formatter].
  intros H.
  apply bind_inv in H as (m & r0 & _ & H).
  apply bind_inv in H as (payload & r1 & _ & H).
  rewrite !bind_setattr in H.
  set (r4 := set_attr "exc_text" PNone _) in H.
  assert (Fei : exc_info r4 = PNone).
  { assert (E : attr "exc_info" r4 = Some PNone) by (unfold r4; attr_simpl; done).
    cbn [attr String.eqb Ascii.eqb Bool.eqb] in E. injection E; trivial. }
  assert (Fet : exc_text r4 = PNone).
  { assert (E : attr "exc_text" r4 = Some PNone) by (unfold r4; attr_simpl; done).
    cbn [attr String.eqb Ascii.eqb Bool.eqb] in E. injection E; trivial. }
  apply bind_inv in H as (g & r5 & Hg & H). injection H as _ <-.
  exact (Formatter_format_cleared GCP_FORMAT r4 _ _ eq_refl Fei Fet Hg).
Qed.

Lemma handle_clears labels pid r line r' :
  StructuredLogHandler.handle (StructuredLogHandler.__init__ labels pid) r
    = (Return (Some (Written line)), r') ->
  exc_info r' = PNone /\ exc_text r' = PNone.
Proof.
  rewrite handle_init.
  destruct (CloudLoggingFilter.filter _ r) as [[[|]|e] r1]; try discriminate.
  unfold StreamHandler_emit, try_except, bind, lift.
  destruct (StructuredLogHandler.format _ r1) as [[l|e] r2] eqn:Hf.
  - destruct (stream_write (l +:+ newline)) as [[]|[]]; cbn [ret raise];
      intros H; try discriminate H.
    injection H as _ <-. exact (format_clears _ _ _ _ _ Hf).
  - destruct e; cbn [ret raise]; intros H; discriminate H.
Qed.
End Cleared.

(** X7.  When the handler has written a line for a record, the record is
    left without exception information: [exc_info] and [exc_text] are
    [None], whatever they were, so that a handler that runs after this one
    on the same record sees no exception. *)
Theorem written_record_has_no_exception {host : Host} labels pid r line r' :
  StructuredLogHandler.handle (StructuredLogHandler.__init__ labels pid) r
    = (Return (Some (Written line)), r') ->
  exc_info r' = PNone /\ exc_text r' = PNone.
Proof. apply handle_clears. Qed.

(** A record logged with an exception. *)
Lemma written_record_has_no_exception_witness :
  exc_info (snd (StructuredLogHandler.handle (host := plain_host) bare_handler
                   failed_record)) = PNone.
Proof.
  refine (proj1 (written_record_has_no_exception (host := plain_host) PNone PNone
                   failed_record
                   (line_of (host := plain_host) failed_record (PDict []) "hello"
                      +:+ newline)
                   _ _)).
  vm_compute. reflexivity.
Defined.

(** X8.  The project identifier given to the handler changes nothing: the
    filter qualifies an inferred trace only, and none is ever inferred, and
    [format] does not read [project_id].  Two handlers that differ in it
    alone assign the same attributes and write the same line. *)
Theorem project_id_changes_nothing {host : Host} labels pid1 pid2 r :
  CloudLoggingFilter.filter (CloudLoggingFilter.__init__ pid1 labels) r
    = CloudLoggingFilter.filter (CloudLoggingFilter.__init__ pid2 labels) r /\
  StructuredLogHandler.handle (StructuredLogHandler.__init__ labels pid1) r
    = StructuredLogHandler.handle (StructuredLogHandler.__init__ labels pid2) r.
Proof.
  split.
  - rewrite !filter_run. reflexivity.
  - rewrite !handle_init, !filter_run. reflexivity.
Qed.

(** ** A record handled twice *)

Lemma same_except_without_exception {host : Host} labels pid r :
  let self := StructuredLogHandler.__init__ labels pid in
  exc_info (snd (StructuredLogHandler.handle self r)) = PNone ->
  exc_text (snd (StructuredLogHandler.handle self r)) = PNone ->
  same_except rewritten_names (snd (StructuredLogHandler.handle self r))
              (without_exception r).
Proof.
  intros self Hei Het n Hn. unfold without_exception.
  destruct (String.eqb_spec n "exc_text") as [->|Hn1].
  { rewrite attr_set_attr_eq. cbn [attr String.eqb Ascii.eqb Bool.eqb].
    rewrite Het. reflexivity. }
  destruct (String.eqb_spec n "exc_info") as [->|Hn2].
  { attr_simpl. cbn [attr String.eqb Ascii.eqb Bool.eqb].
    rewrite Hei. reflexivity. }
  rewrite !attr_set_attr_ne by (apply String.eqb_neq; assumption).
  apply modifies_handle. unfold handle_names, format_names.
  unfold rewritten_names in Hn.
  rewrite elem_of_app in *. rewrite !elem_of_cons, elem_of_nil in *.
  tauto.
Qed.

(** The line depends on the attributes the caller and the logging package
    set, not on those a run of the handler assigns. *)
Lemma line_of_same_except {host : Host} r1 r2 v s :
  same_except rewritten_names r1 r2 -> line_of r1 v s = line_of r2 v s.
Proof.
  intros H.
  assert (Hm : attr "msg" r1 = attr "msg" r2) by (apply H; not_in).
  assert (Hl : attr "levelname" r1 = attr "levelname" r2) by (apply H; not_in).
  assert (Hp : attr "pathname" r1 = attr "pathname" r2) by (apply H; not_in).
  assert (Hn : attr "lineno" r1 = attr "lineno" r2) by (apply H; not_in).
  assert (Hf : attr "funcName" r1 = attr "funcName" r2) by (apply H; not_in).
  assert (Hei : attr "exc_info" r1 = attr "exc_info" r2) by (apply H; not_in).
  assert (Het : attr "exc_text" r1 = attr "exc_text" r2) by (apply H; not_in).
  assert (Hsi : attr "stack_info" r1 = attr "stack_info" r2) by (apply H; not_in).
  assert (Ht : attr "trace" r1 = attr "trace" r2) by (apply H; not_in).
  assert (Hs : attr "span_id" r1 = attr "span_id" r2) by (apply H; not_in).
  assert (Hh : attr "http_request" r1 = attr "http_request" r2) by (apply H; not_in).
  assert (Hsl : attr "source_location" r1 = attr "source_location" r2)
    by (apply H; not_in).
  cbn [attr String.eqb Ascii.eqb Bool.eqb] in Hm, Hl, Hp, Hn, Hf, Hei, Het, Hsi.
  injection Hm as Hm. injection Hl as Hl. injection Hp as Hp. injection Hn as Hn.
  injection Hf as Hf. injection Hei as Hei. injection Het as Het.
  injection Hsi as Hsi.
  unfold line_of, payload_of, cached_exc_text, derived_trace, derived_span_id,
    derived_http, derived_location, location_of_fields.
  rewrite Hm, Hl, Hp, Hn, Hf, Hei, Het, Hsi, Ht, Hs, Hh, Hsl. reflexivity.
Qed.

Lemma line_of_without_exception {host : Host} r v s :
  truthy (exc_info r) = false -> truthy (exc_text r) = false ->
  line_of (without_exception r) v s = line_of r v s.
Proof.
  intros Hei Het. unfold without_exception.
  set (r0 := set_attr "exc_text" PNone _).
  assert (Fm : msg r0 = msg r) by same_field r0 r "msg".
  assert (Fl : levelname r0 = levelname r) by same_field r0 r "levelname".
  assert (Fp : pathname r0 = pathname r) by same_field r0 r "pathname".
  assert (Fn : lineno r0 = lineno r) by same_field r0 r "lineno".
  assert (Ff : funcName r0 = funcName r) by same_field r0 r "funcName".
  assert (Fs : stack_info r0 = stack_info r) by same_field r0 r "stack_info".
  assert (Fei : attr "exc_info" r0 = Some PNone) by (unfold r0; attr_simpl; done).
  assert (Fet : attr "exc_text" r0 = Some PNone) by (unfold r0; attr_simpl; done).
  cbn [attr String.eqb Ascii.eqb Bool.eqb] in Fei, Fet.
  injection Fei as Fei. injection Fet as Fet.
  assert (Ht : attr "trace" r0 = attr "trace" r) by (unfold r0; attr_simpl; done).
  assert (Hs : attr "span_id" r0 = attr "span_id" r)
    by (unfold r0; attr_simpl; done).
  assert (Hh : attr "http_request" r0 = attr "http_request" r)
    by (unfold r0; attr_simpl; done).
  assert (Hsl : attr "source_location" r0 = attr "source_location" r)
    by (unfold r0; attr_simpl; done).
  unfold line_of, payload_of, cached_exc_text, derived_trace, derived_span_id,
    derived_http, derived_location, location_of_fields.
  rewrite Fm, Fl, Fp, Fn, Ff, Fs, Fei, Fet, Ht, Hs, Hh, Hsl, Hei.
  cbn [truthy andb negb].
  rewrite (with_text_falsy s PNone eq_refl), (with_text_falsy s (exc_text r) Het).
  reflexivity.
Qed.

Lemma written_inv {host : Host} text line :
  written text = Return (Some (Written line)) -> text = line.
Proof.
  unfold written, handled.
  destruct (stream_write text) as [[]|[]]; intros H;
    first [discriminate H | injection H as <-; reflexivity].
Qed.

(** X9.  A record the handler has written is written again, by the same or
    by a second handler of the same labels, as the record without its
    exception: the attributes left by the first run are assigned anew
    before they are read, and the exception is gone.  A record that had no
    exception gives the same line twice. *)
Theorem written_again_without_exception {host : Host} labels pid r v s line r1 :
  unpack (CloudLoggingFilter.default_labels
            (CloudLoggingFilter.__init__ pid labels)) (user_labels r) = Return v ->
  message_of r = Return s ->
  text_or_empty (exc_text r) ->
  text_or_empty (stack_info r) ->
  StructuredLogHandler.handle (StructuredLogHandler.__init__ labels pid) r
    = (Return (Some (Written line)), r1) ->
  (exists r2,
     StructuredLogHandler.handle (StructuredLogHandler.__init__ labels pid) r1
     = (written (line_of (without_exception r) v s +:+ newline), r2)) /\
  (truthy (exc_info r) = false -> truthy (exc_text r) = false ->
   line_of (without_exception r) v s +:+ newline = line).
Proof.
  intros Hu Hm Het Hsi Hrun.
  destruct (handle_clears _ _ _ _ _ Hrun) as [Cei Cet].
  assert (Hsame : same_except rewritten_names r1 (without_exception r)).
  { pose proof (same_except_without_exception labels pid r) as H.
    cbv zeta in H. rewrite Hrun in H. exact (H Cei Cet). }
  assert (Hkeep : forall n, n ∉ handle_names -> attr n r1 = attr n r).
  { intros n Hn.
    pose proof (modifies_handle labels pid r n Hn) as H.
    rewrite Hrun in H. exact H. }
  assert (Fm : attr "msg" r1 = attr "msg" r) by (apply Hkeep; not_in).
  assert (Fa : attr "args" r1 = attr "args" r) by (apply Hkeep; not_in).
  assert (Fs : attr "stack_info" r1 = attr "stack_info" r) by (apply Hkeep; not_in).
  assert (Fl : attr "labels" r1 = attr "labels" r) by (apply Hkeep; not_in).
  cbn [attr String.eqb Ascii.eqb Bool.eqb] in Fm, Fa, Fs.
  injection Fm as Fm. injection Fa as Fa. injection Fs as Fs.
  split.
  - destruct (handle_writes labels pid r1 v s) as (r2 & Hrun2 & _).
    + unfold user_labels. rewrite Fl. exact Hu.
    + unfold message_of in *. rewrite Fm, Fa. exact Hm.
    + left. rewrite Cet. reflexivity.
    + rewrite Fs. exact Hsi.
    + exists r2. rewrite Hrun2.
      rewrite (line_of_same_except _ _ v s Hsame). reflexivity.
  - intros Hei Het0.
    destruct (handle_writes labels pid r v s Hu Hm Het Hsi) as (r' & Hrun1 & _).
    rewrite Hrun1 in Hrun. injection Hrun as Hline _.
    rewrite line_of_without_exception by assumption.
    apply written_inv, Hline.
Qed.

(** The record logged with an exception, handled twice. *)
Lemma written_again_without_exception_witness :
  exists r2,
    StructuredLogHandler.handle (host := plain_host) bare_handler
      (snd (StructuredLogHandler.handle (host := plain_host) bare_handler
              failed_record))
    = (Return (Some (Written
         (line_of (host := plain_host) (without_exception failed_record)
            (PDict []) "hello" +:+ newline))), r2).
Proof.
  refine (proj1 (written_again_without_exception (host := plain_host) PNone PNone
                   failed_record (PDict []) "hello"
                   (line_of (host := plain_host) failed_record (PDict []) "hello"
                      +:+ newline)
                   _ _ _ _ _ _)).
  - reflexivity.
  - reflexivity.
  - left. reflexivity.
  - left. reflexivity.
  - vm_compute. reflexivity.
Defined.
(** ** Attributes a run depends on *)

Section Reads.

Lemma reads_post {A} pre post post' (c : M A) :
  reads pre post c -> post' ⊆ post -> reads pre post' c.
Proof.
  intros Hc Hp r1 r2 H. destruct (Hc r1 r2 H) as [Hf Hs].
  split; [exact Hf|]. intros a Ha n Hn. apply (Hs a Ha), Hp, Hn.
Qed.

Lemma reads_ret {A} pre (a : A) : reads pre pre (ret a).
Proof. intros r1 r2 H. split; [reflexivity|]. intros _ _. exact H. Qed.

Lemma reads_raise {A} pre post e : reads pre post (@raise A e).
Proof. intros r1 r2 H. split; [reflexivity|]. intros a Ha. discriminate Ha. Qed.

Lemma reads_lift {A} pre (o : outcome A) : reads pre pre (lift o).
Proof. intros r1 r2 H. split; [reflexivity|]. intros _ _. exact H. Qed.

Lemma reads_getattr pre n : n ∈ pre -> reads pre pre (getattr n).
Proof.
  intros Hn r1 r2 H. unfold getattr. rewrite <- (H n Hn).
  destruct (attr n r1); (split; [reflexivity|]); intros _ _; exact H.
Qed.

Lemma reads_setattr pre n v : reads pre (n :: pre) (setattr n v).
Proof.
  intros r1 r2 H. split; [reflexivity|]. intros _ _ m Hm.
  cbn [setattr snd]. rewrite !attr_set_attr.
  destruct (String.eqb_spec m n) as [->|Hne]; [reflexivity|].
  apply elem_of_cons in Hm as [->|Hm]; [contradiction|]. apply H, Hm.
Qed.

Lemma reads_setattr_keep pre n v : reads pre pre (setattr n v).
Proof.
  apply (reads_post _ _ _ _ (reads_setattr pre n v)).
  intros m Hm. apply list_elem_of_further, Hm.
Qed.

Lemma reads_str_add pre s t : reads pre pre (str_add s t).
Proof. destruct t; first [apply reads_ret | apply reads_raise]. Qed.

Lemma reads_bind {A B} pre mid post (c : M A) (k : A -> M B) :
  reads pre mid c -> (forall a, reads mid post (k a)) -> reads pre post (bind c k).
Proof.
  intros Hc Hk r1 r2 H. destruct (Hc r1 r2 H) as [Hf Hs]. unfold bind.
  destruct (c r1) as [[a|e] r1'], (c r2) as [[a'|e'] r2'];
    cbn [fst snd] in *; try discriminate Hf.
  - injection Hf as <-. apply Hk, (Hs a eq_refl).
  - injection Hf as <-. split; [reflexivity|]. intros a Ha. discriminate Ha.
Qed.

Lemma reads_percent_dict pre fmt :
  (forall n, In (Field n) fmt -> n ∈ pre) -> reads pre pre (percent_dict fmt).
Proof.
  induction fmt as [|[s|n] fmt IH]; intros Hf; cbn [percent_dict].
  - apply reads_ret.
  - eapply reads_bind; [|intros; apply reads_ret].
    apply IH. intros n Hn. apply Hf. right. exact Hn.
  - intros r1 r2 H. rewrite <- (H n (Hf n (or_introl eq_refl))).
    destruct (attr n r1).
    + revert r1 r2 H. eapply reads_bind; [|intros; apply reads_ret].
      apply IH. intros n' Hn'. apply Hf. right. exact Hn'.
    + split; [reflexivity|]. intros a Ha. discriminate Ha.
Qed.

Lemma reads_formatMessage pre fmt :
  (forall n, In (Field n) fmt -> n ∈ pre) -> reads pre pre (formatMessage fmt).
Proof.
  intros Hf r1 r2 H.
  destruct (reads_percent_dict pre fmt Hf r1 r2 H) as [Hfst Hpost].
  unfold formatMessage, try_except.
  destruct (percent_dict fmt r1) as [[t1|e1] r1'],
           (percent_dict fmt r2) as [[t2|e2] r2'];
    cbn [fst snd] in *; try discriminate Hfst.
  - split; [exact Hfst|]. intros a Ha. apply (Hpost t1 eq_refl).
  - injection Hfst as <-.
    destruct e1; (split; [reflexivity|]); intros a Ha; discriminate Ha.
Qed.

End Reads.

Section ReadsFormat.
Context {host : Host}.

Lemma reads_getMessage pre :
  "msg" ∈ pre -> "args" ∈ pre -> reads pre pre getMessage.
Proof.
  intros Hm Ha. unfold getMessage.
  eapply reads_bind; [apply reads_getattr, Hm|intros m].
  eapply reads_bind; [apply reads_getattr, Ha|intros a].
  destruct (truthy a); [apply reads_lift|apply reads_ret].
Qed.

(** [Formatter.format] reads the message and its arguments, the exception
    and stack information, and the fields of its format string, [message]
    apart, which it assigns itself. *)
Lemma reads_Formatter_format pre fmt :
  usesTime fmt = false ->
  "msg" ∈ pre -> "args" ∈ pre -> "exc_info" ∈ pre -> "exc_text" ∈ pre ->
  "stack_info" ∈ pre ->
  (forall n, In (Field n) fmt -> n ∈ "message" :: pre) ->
  reads pre pre (Formatter_format fmt).
Proof.
  intros Hut Hm Ha Hei Het Hsi Hf. unfold Formatter_format. rewrite Hut.
  apply (reads_post pre ("message" :: pre));
    [|intros n Hn; apply list_elem_of_further, Hn].
  eapply reads_bind; [apply reads_getMessage; assumption|intros message].
  eapply reads_bind; [apply reads_setattr|intros _].
  eapply reads_bind; [apply reads_ret|intros _].
  eapply reads_bind; [apply reads_formatMessage, Hf|intros s].
  eapply reads_bind; [apply reads_getattr, list_elem_of_further, Hei|intros ei].
  eapply reads_bind.
  { instantiate (1 := "message" :: pre).
    destruct (truthy ei); [|apply reads_ret].
    eapply reads_bind; [apply reads_getattr, list_elem_of_further, Het|intros et].
    destruct (negb (truthy et)); [apply reads_setattr_keep|apply reads_ret]. }
  intros _.
  eapply reads_bind; [apply reads_getattr, list_elem_of_further, Het|intros et].
  eapply reads_bind.
  { instantiate (1 := "message" :: pre).
    destruct (truthy et); [apply reads_str_add|apply reads_ret]. }
  intros s1.
  eapply reads_bind; [apply reads_getattr, list_elem_of_further, Hsi|intros si].
  eapply reads_bind; [|intros; apply reads_ret].
  destruct (truthy si); [apply reads_str_add|apply reads_ret].
Qed.

Lemma reads_format labels pid :
  reads format_needs format_needs
    (StructuredLogHandler.format (StructuredLogHandler.__init__ labels pid)).
Proof.
  unfold StructuredLogHandler.format.
  cbn [StructuredLogHandler.__init__ StructuredLogHandler.formatter
       StructuredLogHandler._gcp_formatter Handler_format].
  apply (reads_post format_needs
           ("exc_text" :: "exc_info" :: "_formatted_msg" :: format_needs));
    [|intros n Hn; do 3 apply list_elem_of_further; exact Hn].
  eapply reads_bind; [apply reads_getattr; is_in|intros m].
  eapply reads_bind.
  { instantiate (1 := format_needs).
    destruct (truthy m); [|apply reads_ret].
    eapply reads_bind; [|intros; apply reads_ret].
    apply reads_Formatter_format; try is_in; [reflexivity|].
    intros n [H|[]]. injection H as <-. is_in. }
  intros payload.
  eapply reads_bind; [apply reads_setattr|intros _].
  eapply reads_bind; [apply reads_setattr|intros _].
  eapply reads_bind; [apply reads_setattr|intros _].
  eapply reads_bind; [|intros; apply reads_ret].
  apply reads_Formatter_format; try is_in; [reflexivity|].
  intros n Hn. unfold GCP_FORMAT in Hn. cbn [app In] in Hn.
  repeat (destruct Hn as [Hn|Hn]; [first [discriminate Hn | injection Hn as <-; is_in]|]).
  destruct Hn.
Qed.

(** What [emit] comes to is decided by what [format] returns or raises,
    and by the stream. *)
Lemma emit_outcome (format : M string) r :
  fst ((done <- StreamHandler_emit format ;; ret (Some done)) r)
  = match fst (format r) with
    | Return line => written (line +:+ newline)
    | Raise e => handled e
    end.
Proof.
  destruct (format r) as [[line|e] r1] eqn:Hf; cbn [fst].
  - rewrite (emit_written _ _ _ _ Hf). reflexivity.
  - rewrite (emit_raised _ _ _ _ Hf). reflexivity.
Qed.

(** The outcome of a run is decided by the labels, by what the filter
    derives for the trace, the span, the request and the location, and by
    the six attributes of the logging package that [format] reads. *)
Lemma handle_same_outcome labels pid r1 r2 :
  user_labels r1 = user_labels r2 ->
  derived_trace PNone r1 = derived_trace PNone r2 ->
  derived_span_id PNone r1 = derived_span_id PNone r2 ->
  or_ (derived_http PNone r1) (PDict []) = or_ (derived_http PNone r2) (PDict []) ->
  or_ (derived_location r1) (PDict []) = or_ (derived_location r2) (PDict []) ->
  agree ["msg"; "args"; "levelname"; "exc_info"; "exc_text"; "stack_info"] r1 r2 ->
  fst (StructuredLogHandler.handle (StructuredLogHandler.__init__ labels pid) r1)
  = fst (StructuredLogHandler.handle (StructuredLogHandler.__init__ labels pid) r2).
Proof.
  intros Hl Ht Hs Hh Hloc Hstd.
  rewrite !handle_init, !filter_run, Hl.
  destruct (unpack _ (user_labels r2)) as [v|e]; [|reflexivity].
  rewrite !emit_outcome.
  set (a1 := all_assigned PNone PNone PNone v r1).
  set (a2 := all_assigned PNone PNone PNone v r2).
  enough (Ha : agree format_needs a1 a2).
  { destruct (reads_format labels pid a1 a2 Ha) as [-> _]. reflexivity. }
  destruct (attrs_all_assigned PNone PNone PNone v r1)
    as (_ & _ & _ & _ & _ & _ & Hts1 & Hss1 & Hhs1 & Hsls1 & Hls1 & _).
  destruct (attrs_all_assigned PNone PNone PNone v r2)
    as (_ & _ & _ & _ & _ & _ & Hts2 & Hss2 & Hhs2 & Hsls2 & Hls2 & _).
  destruct (fields_all_assigned PNone PNone PNone v r1)
    as (Fm1 & Fa1 & Fl1 & _ & _ & _ & Fei1 & Fet1 & Fs1).
  destruct (fields_all_assigned PNone PNone PNone v r2)
    as (Fm2 & Fa2 & Fl2 & _ & _ & _ & Fei2 & Fet2 & Fs2).
  fold a1 in Hts1, Hss1, Hhs1, Hsls1, Hls1, Fm1, Fa1, Fl1, Fei1, Fet1, Fs1.
  fold a2 in Hts2, Hss2, Hhs2, Hsls2, Hls2, Fm2, Fa2, Fl2, Fei2, Fet2, Fs2.
  assert (Gm : attr "msg" r1 = attr "msg" r2) by (apply Hstd; is_in).
  assert (Ga : attr "args" r1 = attr "args" r2) by (apply Hstd; is_in).
  assert (Gl : attr "levelname" r1 = attr "levelname" r2) by (apply Hstd; is_in).
  assert (Gei : attr "exc_info" r1 = attr "exc_info" r2) by (apply Hstd; is_in).
  assert (Get : attr "exc_text" r1 = attr "exc_text" r2) by (apply Hstd; is_in).
  assert (Gs : attr "stack_info" r1 = attr "stack_info" r2) by (apply Hstd; is_in).
  cbn [attr String.eqb Ascii.eqb Bool.eqb] in Gm, Ga, Gl, Gei, Get, Gs.
  injection Gm as Gm. injection Ga as Ga. injection Gl as Gl.
  injection Gei as Gei. injection Get as Get. injection Gs as Gs.
  intros n Hn. unfold format_needs in Hn.
  repeat (apply elem_of_cons in Hn as [->|Hn];
          [first [ cbn [attr String.eqb Ascii.eqb Bool.eqb]; congruence
                 | congruence ]|]).
  apply elem_of_nil in Hn. destruct Hn.
Qed.

End ReadsFormat.

(** X10.  What [format] returns or raises depends on eleven attributes of
    the record only: the message and its arguments, the level, the
    exception and stack information, and the five texts the filter
    prepares.  It reads [_formatted_msg] and [message] after assigning
    them, and never the raw [_trace], [_span_id], [_http_request],
    [_source_location], [_labels] and [_resource], nor [_msg_str], which
    the filter computes for nothing. *)
Theorem format_depends_on_eleven {host : Host} labels pid r1 r2 :
  agree format_needs r1 r2 ->
  fst (StructuredLogHandler.format (StructuredLogHandler.__init__ labels pid) r1)
  = fst (StructuredLogHandler.format (StructuredLogHandler.__init__ labels pid) r2).
Proof. intros H. apply (reads_format labels pid r1 r2 H). Qed.

(** The stale [_msg_str] of a record makes no difference. *)
Lemma format_depends_on_eleven_witness :
  fst (StructuredLogHandler.format (host := plain_host) bare_handler
         (set_attr "_msg_str" (PStr "stale") filtered_record))
  = fst (StructuredLogHandler.format (host := plain_host) bare_handler
           filtered_record).
Proof.
  apply (format_depends_on_eleven (host := plain_host) PNone PNone
           (set_attr "_msg_str" (PStr "stale") filtered_record) filtered_record).
  intros n Hn. unfold format_needs in Hn.
  repeat (apply elem_of_cons in Hn as [->|Hn]; [vm_compute; reflexivity|]).
  apply elem_of_nil in Hn. destruct Hn.
Defined.

(** X11.  What the handler writes or raises depends on fourteen attributes
    of the record only: the nine the logging package sets that it uses and
    the five the caller may attach.  The values an earlier run left in the
    derived attributes, the caller's [resource] and anything else on the
    record make no difference. *)
Theorem handle_depends_on_fourteen {host : Host} labels pid r1 r2 :
  agree handle_needs r1 r2 ->
  fst (StructuredLogHandler.handle (StructuredLogHandler.__init__ labels pid) r1)
  = fst (StructuredLogHandler.handle (StructuredLogHandler.__init__ labels pid) r2).
Proof.
  intros H.
  assert (Gp : attr "pathname" r1 = attr "pathname" r2) by (apply H; is_in).
  assert (Gn : attr "lineno" r1 = attr "lineno" r2) by (apply H; is_in).
  assert (Gf : attr "funcName" r1 = attr "funcName" r2) by (apply H; is_in).
  cbn [attr String.eqb Ascii.eqb Bool.eqb] in Gp, Gn, Gf.
  injection Gp as Gp. injection Gn as Gn. injection Gf as Gf.
  apply handle_same_outcome.
  - unfold user_labels. rewrite (H "labels") by is_in. reflexivity.
  - unfold derived_trace. rewrite (H "trace") by is_in. reflexivity.
  - unfold derived_span_id. rewrite (H "span_id") by is_in. reflexivity.
  - unfold derived_http. rewrite (H "http_request") by is_in. reflexivity.
  - unfold derived_location, location_of_fields.
    rewrite (H "source_location"), Gp, Gn, Gf by is_in. reflexivity.
  - intros n Hn. apply H. unfold handle_needs.
    repeat (apply elem_of_cons in Hn as [->|Hn]; [is_in|]).
    apply elem_of_nil in Hn. destruct Hn.
Qed.

(** A record with a resource and one without. *)
Lemma handle_depends_on_fourteen_witness :
  fst (StructuredLogHandler.handle (host := plain_host) bare_handler resource_record)
  = fst (StructuredLogHandler.handle (host := plain_host) bare_handler
           (info_record (PStr "hello") [])).
Proof.
  apply (handle_depends_on_fourteen (host := plain_host) PNone PNone
           resource_record (info_record (PStr "hello") [])).
  intros n Hn. unfold handle_needs in Hn.
  repeat (apply elem_of_cons in Hn as [->|Hn]; [vm_compute; reflexivity|]).
  apply elem_of_nil in Hn. destruct Hn.
Defined.

(** ** Values that count as absent *)

(** X12.  A trace, a span id or a request attached with a false value
    ([None], an empty string, [0], an empty dictionary) is handled as if
    the caller had attached none. *)
Theorem false_value_counts_as_absent {host : Host} labels pid r name given :
  name ∈ defaulted_names -> attr name r = None -> truthy given = false ->
  fst (StructuredLogHandler.handle (StructuredLogHandler.__init__ labels pid)
         (set_attr name given r))
  = fst (StructuredLogHandler.handle (StructuredLogHandler.__init__ labels pid) r).
Proof.
  intros Hn Hnone Hg.
  assert (Hor : forall d, truthy d = false -> or_ given d = or_ PNone d).
  { intros d Hd. unfold or_. rewrite Hg. reflexivity. }
  unfold defaulted_names in Hn.
  repeat (apply elem_of_cons in Hn as [->|Hn];
    [apply handle_same_outcome;
     [ unfold user_labels; attr_simpl; reflexivity
     | unfold derived_trace; attr_simpl; first [reflexivity | rewrite Hnone]
     | unfold derived_span_id; attr_simpl; first [reflexivity | rewrite Hnone]
     | unfold derived_http; attr_simpl; first [reflexivity | rewrite Hnone]
     | attr_simpl; reflexivity
     | intros n Hn'; repeat (apply elem_of_cons in Hn' as [->|Hn'];
                             [attr_simpl; reflexivity|]);
       apply elem_of_nil in Hn'; destruct Hn' ]
    |]).
  all: try (apply elem_of_nil in Hn; destruct Hn).
  all: cbn [from_option id]; apply Hor; reflexivity.
Qed.

(** An empty trace. *)
Lemma false_value_counts_as_absent_witness :
  fst (StructuredLogHandler.handle (host := plain_host) bare_handler
         (set_attr "trace" (PStr "") (info_record (PStr "hello") [])))
  = fst (StructuredLogHandler.handle (host := plain_host) bare_handler
           (info_record (PStr "hello") [])).
Proof.
  apply (false_value_counts_as_absent (host := plain_host) PNone PNone
           (info_record (PStr "hello") []) "trace" (PStr "")).
  - apply list_elem_of_here.
  - reflexivity.
  - reflexivity.
Defined.

(** ** Records that are not written *)

(** X13.  The filter never rejects a record: whenever a handler built by
    [__init__] returns, the labels were merged, the filter returned [True]
    with the twelve attributes assigned, and [emit] was called.  The line
    then goes unwritten only when [format] raised or when the stream
    refused it, and the exception went to [handleError]. *)
Theorem unwritten_only_on_failure {host : Host} labels pid r out r' :
  StructuredLogHandler.handle (StructuredLogHandler.__init__ labels pid) r
    = (Return out, r') ->
  exists v,
    CloudLoggingFilter.filter (CloudLoggingFilter.__init__ pid labels) r
      = (Return true, all_assigned PNone PNone PNone v r) /\
    ((exists line,
        StructuredLogHandler.format (StructuredLogHandler.__init__ labels pid)
          (all_assigned PNone PNone PNone v r) = (Return line, r') /\
        (out = Some (Written (line +:+ newline)) \/
         exists e, stream_write (line +:+ newline) = Raise e /\
                   out = Some (HandleError e))) \/
     (exists e,
        StructuredLogHandler.format (StructuredLogHandler.__init__ labels pid)
          (all_assigned PNone PNone PNone v r) = (Raise e, r') /\
        out = Some (HandleError e))).
Proof.
  rewrite handle_init, filter_run.
  destruct (unpack _ _) as [v|e0]; [|discriminate].
  intros H. exists v. split; [reflexivity|].
  unfold StreamHandler_emit, try_except, bind, lift in H.
  destruct (StructuredLogHandler.format _ _) as [[line|e] r1].
  - left. exists line.
    destruct (stream_write (line +:+ newline)) as [[]|e] eqn:Hw.
    + cbn [ret] in H. injection H as <- <-. split; [reflexivity|]. left. reflexivity.
    + destruct e; cbn [ret raise] in H; try discriminate H;
        injection H as <- <-; (split; [reflexivity|]); right; eexists;
        (split; [reflexivity|reflexivity]).
  - right. exists e.
    destruct e; cbn [ret raise] in H; try discriminate H;
      injection H as <- <-; split; reflexivity.
Qed.

(** Arguments that do not fit the message: the filter has kept the
    record. *)
Lemma unwritten_only_on_failure_witness :
  exists v,
    CloudLoggingFilter.filter bare_filter bad_args_record
    = (Return true, all_assigned PNone PNone PNone v bad_args_record).
Proof.
  destruct (unwritten_only_on_failure (host := failing_host) PNone PNone
              bad_args_record (Some (HandleError TypeError))
              (snd (StructuredLogHandler.handle (host := failing_host) bare_handler
                      bad_args_record)))
    as (v & Hf & _).
  - vm_compute. reflexivity.
  - exists v. exact Hf.
Defined.

(** ** The line as text *)

Lemma visible_app s t : visible (s +:+ t) = visible s && visible t.
Proof.
  induction s as [|c s IH]; [reflexivity|].
  rewrite append_cons. cbn [visible]. rewrite IH. apply andb_assoc.
Qed.

Lemma escape_char_visible c : visible (Json.escape_char c) = true.
Proof. destruct c as [[] [] [] [] [] [] [] []]; reflexivity. Qed.

Lemma escape_visible s : visible (Json.escape s) = true.
Proof.
  induction s as [|c s IH]; [reflexivity|]. cbn [Json.escape].
  rewrite visible_app, escape_char_visible, IH. reflexivity.
Qed.

Lemma dumps_str_visible s : visible (Json.dumps_str s) = true.
Proof.
  unfold Json.dumps_str. cbn [visible].
  rewrite visible_app, escape_visible. reflexivity.
Qed.

Lemma string_of_uint_visible d : visible (NilEmpty.string_of_uint d) = true.
Proof. induction d; cbn [NilEmpty.string_of_uint visible]; try exact IHd; reflexivity. Qed.

Lemma str_int_visible z : visible (str_int z) = true.
Proof.
  unfold str_int, NilZero.string_of_int, NilZero.string_of_uint.
  destruct (Z.to_int z) as [d|d]; destruct d; try reflexivity;
    first [ apply (string_of_uint_visible (Decimal.D0 _))
          | apply (string_of_uint_visible (Decimal.D1 _))
          | apply (string_of_uint_visible (Decimal.D2 _))
          | apply (string_of_uint_visible (Decimal.D3 _))
          | apply (string_of_uint_visible (Decimal.D4 _))
          | apply (string_of_uint_visible (Decimal.D5 _))
          | apply (string_of_uint_visible (Decimal.D6 _))
          | apply (string_of_uint_visible (Decimal.D7 _))
          | apply (string_of_uint_visible (Decimal.D8 _))
          | apply (string_of_uint_visible (Decimal.D9 _))
          | idtac ].
  all: cbn [visible andb]; rewrite ?append_cons; cbn [visible];
    first [ apply (string_of_uint_visible (Decimal.D0 _))
          | apply (string_of_uint_visible (Decimal.D1 _))
          | apply (string_of_uint_visible (Decimal.D2 _))
          | apply (string_of_uint_visible (Decimal.D3 _))
          | apply (string_of_uint_visible (Decimal.D4 _))
          | apply (string_of_uint_visible (Decimal.D5 _))
          | apply (string_of_uint_visible (Decimal.D6 _))
          | apply (string_of_uint_visible (Decimal.D7 _))
          | apply (string_of_uint_visible (Decimal.D8 _))
          | apply (string_of_uint_visible (Decimal.D9 _)) ].
Qed.

(** [json.dumps] writes visible characters only: it escapes every other
    character of a string. *)
Lemma dumps_visible v : visible (Json.dumps v) = true.
Proof.
  induction v as [ |b|z|s|l IH|d IH] using pyval_nested_ind.
  - reflexivity.
  - destruct b; reflexivity.
  - apply str_int_visible.
  - apply dumps_str_visible.
  - destruct l as [|x l]; [reflexivity|].
    rewrite dumps_list. apply Forall_cons in IH as [Hx Hl].
    rewrite !visible_app, Hx. cbn [visible andb visible_char].
    change (visible (more_items l) && true = true). rewrite andb_true_r.
    induction Hl as [|y l Hy Hl IHl]; [reflexivity|].
    cbn [more_items]. rewrite !visible_app, Hy, IHl. reflexivity.
  - destruct d as [|[k x] d]; [reflexivity|].
    rewrite dumps_dict. apply Forall_cons in IH as [Hx Hd]. cbn [snd] in Hx.
    rewrite !visible_app, Hx, dumps_str_visible.
    assert (Hm : visible (more_members d) = true).
    { induction Hd as [|[k' y] d Hy Hd IHd]; [reflexivity|].
      cbn [more_members]. cbn [snd] in Hy.
      rewrite !visible_app, Hy, IHd, dumps_str_visible. reflexivity. }
    rewrite Hm. reflexivity.
Qed.

Lemma gcp_line_visible message severity labels trace span location http :
  visible message = true -> visible severity = true -> visible labels = true ->
  visible trace = true -> visible span = true -> visible location = true ->
  visible http = true ->
  visible (gcp_line message severity labels trace span location http) = true.
Proof.
  intros Hm Hs Hl Ht Hsp Hlo Hh. unfold gcp_line.
  rewrite !visible_app, Hm, Hs, Hl, Ht, Hsp, Hlo, Hh. reflexivity.
Qed.

(** X14.  What the handler passes to the stream for a record without
    stack text is one line of visible ASCII characters followed by the
    line terminator,
    provided the level name, the trace and the span id, which [format]
    copies as they are, bring no other character: line breaks, control
    characters and characters outside ASCII in the message, the labels, the
    location and the request are escaped by [json.dumps]. *)
Theorem line_is_one_line_of_ascii {host : Host} labels pid r v s :
  unpack (CloudLoggingFilter.default_labels
            (CloudLoggingFilter.__init__ pid labels)) (user_labels r) = Return v ->
  message_of r = Return s ->
  text_or_empty (exc_text r) ->
  truthy (stack_info r) = false ->
  visible (str (levelname r)) = true ->
  visible (str (or_ (derived_trace PNone r) (PStr ""))) = true ->
  visible (str (or_ (derived_span_id PNone r) (PStr ""))) = true ->
  exists line r',
    StructuredLogHandler.handle (StructuredLogHandler.__init__ labels pid) r
      = (written (line +:+ newline), r') /\
    visible line = true.
Proof.
  intros Hu Hm Het Hsi Hlv Htr Hsp.
  destruct (handle_writes labels pid r v s Hu Hm Het (or_introl Hsi))
    as (r' & Hrun & _).
  exists (line_of r v s), r'. split; [exact Hrun|].
  unfold line_of. rewrite (with_text_falsy _ _ Hsi).
  apply gcp_line_visible; try assumption; apply dumps_visible.
Qed.

(** A message of two lines. *)
Lemma line_is_one_line_of_ascii_witness :
  exists line r',
    StructuredLogHandler.handle (host := plain_host) bare_handler two_lines_record
      = (Return (Some (Written (line +:+ newline))), r') /\
    visible line = true.
Proof.
  apply (line_is_one_line_of_ascii (host := plain_host) PNone PNone
           two_lines_record (PDict [])
           ("first" +:+ newline +:+ "second")).
  - reflexivity.
  - reflexivity.
  - left. reflexivity.
  - reflexivity.
  - reflexivity.
  - reflexivity.
  - reflexivity.
Defined.
(** ** The exception in the line *)

(** X17.  The text of an exception is written once, inside the message:
    for a record with a true message, with exception information and no
    text cached for it, whose level name, trace and span id are plain,
    which has no stack text and whose values are the modelled ones (no
    floating point number), the line passed to the stream is JSON with the
    seven keys, and its message is the rendered message, a line break
    unless the message ends in one, and the text of the exception.  (With
    a false message [format] skips [super().format] and the text of the
    exception is lost.) *)
Theorem exception_text_inside_message {host : Host} labels pid r v s :
  unpack (CloudLoggingFilter.default_labels
            (CloudLoggingFilter.__init__ pid labels)) (user_labels r) = Return v ->
  message_of r = Return s ->
  truthy (msg r) = true ->
  truthy (exc_info r) = true ->
  truthy (exc_text r) = false ->
  truthy (stack_info r) = false ->
  plain (str (levelname r)) = true ->
  plain (str (or_ (derived_trace PNone r) (PStr ""))) = true ->
  plain (str (or_ (derived_span_id PNone r) (PStr ""))) = true ->
  exists line r' object,
    StructuredLogHandler.handle (StructuredLogHandler.__init__ labels pid) r
      = (written line, r') /\
    Json.loads line = Some (PDict object) /\
    Json.keys (PDict object) = Some gcp_keys /\
    dict_get "message" object
    = Some (PStr (with_text s (PStr (formatException (exc_info r))))).
Proof.
  intros Hu Hm Hmsg Hei Het Hsi Hlv Htr Hsp.
  destruct (handle_writes labels pid r v s Hu Hm (or_introl Het) (or_introl Hsi))
    as (r' & Hrun & _).
  unfold line_of in Hrun. rewrite (with_text_falsy _ _ Hsi) in Hrun.
  eexists. exists r'. eexists. split; [exact Hrun|].
  rewrite (loads_gcp_line (PStr (payload_of r s))) by assumption.
  split; [reflexivity|]. split; [reflexivity|].
  unfold gcp_object. cbn [dict_get String.eqb Ascii.eqb Bool.eqb].
  unfold payload_of, cached_exc_text. rewrite Hmsg, Hei, Het. cbn [andb negb].
  rewrite (with_text_falsy _ _ Hsi). reflexivity.
Qed.

(** The record logged with an exception. *)
Lemma exception_text_inside_message_witness :
  exists line r' object,
    StructuredLogHandler.handle (host := plain_host) bare_handler failed_record
      = (Return (Some (Written line)), r') /\
    Json.loads line = Some (PDict object) /\
    dict_get "message" object
    = Some (PStr ("hello" +:+ newline +:+ "Traceback")).
Proof.
  destruct (exception_text_inside_message (host := plain_host) PNone PNone
              failed_record (PDict []) "hello")
    as (line & r' & object & Hrun & Hloads & _ & Hmessage).
  - reflexivity.
  - reflexivity.
  - reflexivity.
  - reflexivity.
  - reflexivity.
  - reflexivity.
  - reflexivity.
  - reflexivity.
  - reflexivity.
  - exists line, r', object. split; [exact Hrun|]. split; [exact Hloads|].
    exact Hmessage.
Defined.
